(** * generate_test_data.py: a shallow embedding and its properties

    The script seeds Python's global pseudo-random generator, then writes four
    CSV files (sales, customers, products, campaigns), 25,000 data rows each.
    Every value of a row comes from the generator stream; some fields are
    derived by arithmetic, some rows get an outlier or a duplicated identifier,
    and every cell goes through [add_missing_values] on its way to the writer.

    Modelling choices.
    - The Mersenne Twister is not modelled.  The generator is an interface
      ([RandomSource]) with the two primitives Python's [random] module builds
      everything on, [random()] and [_randbelow(n)], and their range contracts.
      [uniform], [randint] and [choice] are written over them as in
      Lib/random.py.
    - Python floats are idealised as exact rationals ([Q]); [round(x, n)] is
      round-half-even on the exact value.  Representation error of binary
      floating point and the sign of zero are outside this model.  Where a
      property depends on the rounding of doubles, the amounts of the sales
      loop are modelled a second time in binary64 ([f64], [sales_row_f64]).
    - Exceptions are explicit: a computation yields [Ok] or [Raise].
    - A file is the list of rows handed to [csv.writer], and its text the
      rendering of those rows; opening the files and the progress messages
      on standard output are not modelled. *)

From Stdlib Require Import ZArith QArith Qround List String Ascii Lia Lqa Bool.
From Stdlib Require Import Qabs Qpower DecimalString.
Import ListNotations.

Local Open Scope Z_scope.

(** ** Values, exceptions *)

(** The objects the script hands to [csv.writer.writerow]. *)
Inductive pyval : Type :=
| VInt (z : Z)
| VFloat (q : Q)
| VStr (s : string)
| VBool (b : bool)
| VNone.

Inductive pyerr : Type :=
| ZeroDivisionError
| ValueError
| IndexError.

Inductive result (A : Type) : Type :=
| Ok (a : A)
| Raise (e : pyerr).

Arguments Ok {A} a.
Arguments Raise {A} e.

Definition row : Type := list pyval.

(** ** Arithmetic on floats, idealised *)

Definition Qltb (x y : Q) : bool := negb (Qle_bool y x).

(** Nearest integer, ties to the even one. *)
Definition round_half_even (x : Q) : Z :=
  let f := Qfloor x in
  match Qcompare (x - inject_Z f) (1 # 2) with
  | Lt => f
  | Gt => f + 1
  | Eq => if Z.even f then f else f + 1
  end.

(** [round(x, ndigits)] on a float, for [ndigits >= 0]. *)
Definition py_round (ndigits : nat) (x : Q) : Q :=
  let p := Pos.pow 10 (Pos.of_nat ndigits) in
  Qmake (round_half_even (x * inject_Z (Zpos p))) p.

(** [int(x)]: truncation toward zero. *)
Definition py_int (x : Q) : Z :=
  if Qle_bool 0 x then Qfloor x else Qceiling x.

(** True division [x / y]. *)
Definition py_div (x y : Q) : result Q :=
  if Qeq_bool y 0 then Raise ZeroDivisionError else Ok (x / y)%Q.

(** ** Strings *)

Local Open Scope string_scope.

(** [str(n)] for an int. *)
Definition str_int (z : Z) : string := NilZero.string_of_int (Z.to_int z).

(** [format(n, "0{w}d")] for a non-negative int: zero padding on the left. *)
Fixpoint zero_pad (missing : nat) (s : string) : string :=
  match missing with
  | O => s
  | S k => String "0" (zero_pad k s)
  end.

Definition str_int_pad (width : nat) (z : Z) : string :=
  let s := str_int z in
  zero_pad (width - String.length s) s.

Definition lower_ascii (c : ascii) : ascii :=
  let n := nat_of_ascii c in
  if (andb (65 <=? n) (n <=? 90))%nat then ascii_of_nat (n + 32) else c.

(** [s.lower()] on ASCII text. *)
Fixpoint lower (s : string) : string :=
  match s with
  | EmptyString => EmptyString
  | String c s' => String (lower_ascii c) (lower s')
  end.

Local Close Scope string_scope.

(** ** Dates, after the pure-Python [datetime] module *)

Record date : Type := mkdate { year : Z; month : Z; day : Z }.

Definition is_leap (y : Z) : bool :=
  andb (y mod 4 =? 0) (orb (negb (y mod 100 =? 0)) (y mod 400 =? 0)).

Definition days_before_year (y : Z) : Z :=
  let y1 := y - 1 in
  y1 * 365 + y1 / 4 - y1 / 100 + y1 / 400.

Definition DAYS_IN_MONTH : list Z :=
  [-1; 31; 28; 31; 30; 31; 30; 31; 31; 30; 31; 30; 31].

Definition DAYS_BEFORE_MONTH : list Z :=
  [-1; 0; 31; 59; 90; 120; 151; 181; 212; 243; 273; 304; 334].

Definition bool_int (b : bool) : Z := if b then 1 else 0.

Definition days_before_month (y m : Z) : Z :=
  nth (Z.to_nat m) DAYS_BEFORE_MONTH 0 + bool_int (andb (2 <? m) (is_leap y)).

Definition ymd2ord (d : date) : Z :=
  days_before_year (year d) + days_before_month (year d) (month d) + day d.

Definition DI400Y : Z := 146097.
Definition DI100Y : Z := 36524.
Definition DI4Y : Z := 1461.

Definition ord2ymd (ordinal : Z) : date :=
  let n := ordinal - 1 in
  let n400 := n / DI400Y in
  let n := n mod DI400Y in
  let y := n400 * 400 + 1 in
  let n100 := n / DI100Y in
  let n := n mod DI100Y in
  let n4 := n / DI4Y in
  let n := n mod DI4Y in
  let n1 := n / 365 in
  let n := n mod 365 in
  let y := y + n100 * 100 + n4 * 4 + n1 in
  if orb (n1 =? 4) (n100 =? 4) then mkdate (y - 1) 12 31
  else
    let leapyear := andb (n1 =? 3) (orb (negb (n4 =? 24)) (n100 =? 3)) in
    let m := Z.shiftr (n + 50) 5 in
    let preceding :=
      nth (Z.to_nat m) DAYS_BEFORE_MONTH 0 + bool_int (andb (2 <? m) leapyear) in
    if n <? preceding then
      let m' := m - 1 in
      let preceding' :=
        preceding
        - (nth (Z.to_nat m') DAYS_IN_MONTH 0
           + bool_int (andb (m' =? 2) leapyear)) in
      mkdate y m' (n - preceding' + 1)
    else mkdate y m (n - preceding + 1).

(** [(end_date - start_date).days] *)
Definition days_between (start_date end_date : date) : Z :=
  ymd2ord end_date - ymd2ord start_date.

(** [d + timedelta(days=k)] *)
Definition add_days (d : date) (k : Z) : date := ord2ymd (ymd2ord d + k).

(** [d.strftime('%Y-%m-%d')] *)
Definition strftime_ymd (d : date) : string :=
  (str_int_pad 4 (year d) ++ "-" ++ str_int_pad 2 (month d) ++ "-"
   ++ str_int_pad 2 (day d))%string.

(** ** The pseudo-random generator as an interface *)

Record RandomSource : Type := {
  rs_state : Type;
  (** [random.seed(n)] *)
  rs_seed : Z -> rs_state;
  (** [random.random()]: a float in [0.0, 1.0) *)
  rs_random : rs_state -> Q * rs_state;
  (** [random._randbelow(n)]: an int in [0, n) *)
  rs_randbelow : Z -> rs_state -> Z * rs_state;
  rs_random_range :
    forall g, (0 <= fst (rs_random g))%Q /\ (fst (rs_random g) < 1)%Q;
  rs_randbelow_range :
    forall n g, 0 < n -> 0 <= fst (rs_randbelow n g) < n
}.

(** ** Computations over the global generator state *)

Section Generator.

Context (R : RandomSource).

Definition M (A : Type) : Type := rs_state R -> result (A * rs_state R).

Definition ret {A} (a : A) : M A := fun g => Ok (a, g).

Definition bind {A B} (m : M A) (k : A -> M B) : M B :=
  fun g =>
    match m g with
    | Ok (a, g') => k a g'
    | Raise e => Raise e
    end.

Definition raise {A} (e : pyerr) : M A := fun _ => Raise e.

Definition lift {A} (r : result A) : M A :=
  fun g => match r with Ok a => Ok (a, g) | Raise e => Raise e end.

Notation "x <- c1 ;; c2" := (bind c1 (fun x => c2))
  (at level 61, c1 at next level, right associativity).

(** [for x in xs: out.append(body(x))] *)
Fixpoint for_each {A B} (body : A -> M B) (xs : list A) : M (list B) :=
  match xs with
  | [] => ret []
  | x :: xs' =>
      r <- body x ;;
      rs <- for_each body xs' ;;
      ret (r :: rs)
  end.

(** *** The [random] module *)

Definition random : M Q := fun g => Ok (rs_random R g).

Definition randbelow (n : Z) : M Z := fun g => Ok (rs_randbelow R n g).

(** [uniform(a, b)] is [a + (b - a) * random()]. *)
Definition uniform (a b : Q) : M Q :=
  u <- random ;;
  ret (a + (b - a) * u)%Q.

(** [randrange(start, stop)], which raises on an empty range. *)
Definition randrange (start stop : Z) : M Z :=
  let width := stop - start in
  if 0 <? width then
    k <- randbelow width ;;
    ret (start + k)
  else raise ValueError.

Definition randint (a b : Z) : M Z := randrange a (b + 1).

(** [choice(seq)], which raises on an empty sequence. *)
Definition choice {A} (seq : list A) : M A :=
  match seq with
  | [] => raise IndexError
  | d :: _ =>
      k <- randbelow (Z.of_nat (List.length seq)) ;;
      ret (nth (Z.to_nat k) seq d)
  end.

(** *** Helper functions of the script *)

Definition random_date (start_date end_date : date) : M date :=
  let delta := days_between start_date end_date in
  random_days <- randint 0 delta ;;
  ret (add_days start_date random_days).

Definition add_missing_values (value : pyval) (missing_rate : Q) : M pyval :=
  u <- random ;;
  ret (if Qltb u missing_rate then VStr "" else value).

(** *** File 1: sales transactions *)

Definition categories : list string :=
  ["Electronics"; "Clothing"; "Furniture"; "Food"; "Books"; "Sports"; "Toys";
   "Beauty"; "Home"; "Garden"]%string.
Definition regions : list string :=
  ["North"; "South"; "East"; "West"; "Central"]%string.
Definition statuses : list string :=
  ["Delivered"; "Shipped"; "Pending"; "Cancelled"; "Returned"]%string.
Definition payment_methods : list string :=
  ["Credit Card"; "Debit Card"; "PayPal"; "Cash"; "Bank Transfer"]%string.
Definition customer_segments : list string :=
  ["Premium"; "Standard"; "Basic"; "VIP"]%string.

Definition sales_header : row :=
  map VStr
    ["transaction_id"; "date"; "customer_id"; "product_id"; "category";
     "region"; "sales_amount"; "quantity"; "discount_percent"; "tax_amount";
     "shipping_cost"; "total_amount"; "status"; "payment_method";
     "customer_segment"; "delivery_days"; "rating"; "is_repeat_customer";
     "promotion_applied"; "season"; "year"; "month"]%string.

(** The local variables of the loop body when [writerow] is reached. *)
Record sales_fields : Type := {
  s_date : date;
  s_sales_amount : Q;
  s_quantity : Z;
  s_discount : Z;
  s_tax : Q;
  s_shipping : Q;
  s_total : Q;
  s_transaction_id : Z;
  s_season : string
}.

(** [sales_amount - (sales_amount * discount / 100) + tax + shipping], rounded. *)
Definition sales_total (sales_amount : Q) (discount : Z) (tax shipping : Q) : Q :=
  py_round 2
    (sales_amount - (sales_amount * inject_Z discount / 100) + tax + shipping)%Q.

Definition season_of (m : Z) : string :=
  (if existsb (Z.eqb m) [12; 1; 2] then "Winter"
   else if existsb (Z.eqb m) [3; 4; 5] then "Spring"
   else if existsb (Z.eqb m) [6; 7; 8] then "Summer"
   else "Fall")%string.

(** Line 41: [round(random.uniform(10, 5000), 2)]. *)
Definition sales_amount_normal : M Q :=
  u <- uniform 10 5000 ;;
  ret (py_round 2 u).

(** Line 56: [round(random.uniform(10000, 50000), 2)]. *)
Definition sales_amount_outlier : M Q :=
  u <- uniform 10000 50000 ;;
  ret (py_round 2 u).

(** Lines 40-59: sampling, derived fields, duplicate id, outlier. *)
Definition sales_sample (i : Z) : M sales_fields :=
  date <- random_date (mkdate 2020 1 1) (mkdate 2024 12 31) ;;
  sales_amount <- sales_amount_normal ;;
  quantity <- randint 1 20 ;;
  discount <- choice [0; 5; 10; 15; 20; 25; 30] ;;
  let tax := py_round 2 (sales_amount * (8 # 100))%Q in
  u <- uniform 0 50 ;;
  let shipping := py_round 2 u in
  let total := sales_total sales_amount discount tax shipping in
  r <- random ;;
  transaction_id <-
    (if andb (Qltb r (2 # 100)) (100 <? i) then randint 1 (i - 1) else ret i) ;;
  r <- random ;;
  amounts <-
    (if Qltb r (1 # 100) then
       sales_amount <- sales_amount_outlier ;;
       ret (sales_amount, sales_total sales_amount discount tax shipping)
     else ret (sales_amount, total)) ;;
  let season := season_of (month date) in
  ret {| s_date := date; s_sales_amount := fst amounts;
         s_quantity := quantity; s_discount := discount; s_tax := tax;
         s_shipping := shipping; s_total := snd amounts;
         s_transaction_id := transaction_id; s_season := season |}.

(** *** The sales loop body as a pipeline of steps

    The same body cut into the steps the specification names, so that the
    order of the steps can be compared. *)

Record sales_base : Type := {
  b_date : date;
  b_sales_amount : Q;
  b_quantity : Z;
  b_discount : Z;
  b_shipping : Q
}.

(** Sample base fields. *)
Definition step_sample : M sales_base :=
  date <- random_date (mkdate 2020 1 1) (mkdate 2024 12 31) ;;
  sales_amount <- sales_amount_normal ;;
  quantity <- randint 1 20 ;;
  discount <- choice [0; 5; 10; 15; 20; 25; 30] ;;
  u <- uniform 0 50 ;;
  ret {| b_date := date; b_sales_amount := sales_amount;
         b_quantity := quantity; b_discount := discount;
         b_shipping := py_round 2 u |}.

(** Compute derived fields; the identifier starts as the sequential one. *)
Definition step_derive (i : Z) (b : sales_base) : sales_fields :=
  let tax := py_round 2 (b_sales_amount b * (8 # 100))%Q in
  {| s_date := b_date b; s_sales_amount := b_sales_amount b;
     s_quantity := b_quantity b; s_discount := b_discount b; s_tax := tax;
     s_shipping := b_shipping b;
     s_total := sales_total (b_sales_amount b) (b_discount b) tax (b_shipping b);
     s_transaction_id := i; s_season := season_of (month (b_date b)) |}.

(** Possibly override the identifier for duplication. *)
Definition step_duplicate (i : Z) (f : sales_fields) : M sales_fields :=
  r <- random ;;
  if andb (Qltb r (2 # 100)) (100 <? i) then
    transaction_id <- randint 1 (i - 1) ;;
    ret {| s_date := s_date f; s_sales_amount := s_sales_amount f;
           s_quantity := s_quantity f; s_discount := s_discount f;
           s_tax := s_tax f; s_shipping := s_shipping f; s_total := s_total f;
           s_transaction_id := transaction_id; s_season := s_season f |}
  else ret f.

(** Possibly override with an outlier value and recompute the total. *)
Definition step_outlier (f : sales_fields) : M sales_fields :=
  r <- random ;;
  if Qltb r (1 # 100) then
    sales_amount <- sales_amount_outlier ;;
    ret {| s_date := s_date f; s_sales_amount := sales_amount;
           s_quantity := s_quantity f; s_discount := s_discount f;
           s_tax := s_tax f; s_shipping := s_shipping f;
           s_total :=
             sales_total sales_amount (s_discount f) (s_tax f) (s_shipping f);
           s_transaction_id := s_transaction_id f; s_season := s_season f |}
  else ret f.

(** The order of the source text: duplication, then outlier. *)
Definition sales_sample_code_order (i : Z) : M sales_fields :=
  b <- step_sample ;;
  f <- step_duplicate i (step_derive i b) ;;
  step_outlier f.

(** The order the specification words: outlier, then duplication. *)
Definition sales_sample_spec_order (i : Z) : M sales_fields :=
  b <- step_sample ;;
  f <- step_outlier (step_derive i b) ;;
  step_duplicate i f.

(** Lines 61-84: the argument list of [writerow], evaluated left to right. *)
Definition sales_cells (f : sales_fields) : M row :=
  c1 <- add_missing_values (VInt (s_transaction_id f)) (1 # 1000) ;;
  c2 <- add_missing_values (VStr (strftime_ymd (s_date f))) (2 # 100) ;;
  v <- randint 1 5000 ;;
  c3 <- add_missing_values (VInt v) (3 # 100) ;;
  v <- randint 1000 9999 ;;
  c4 <- add_missing_values (VInt v) (2 # 100) ;;
  v <- choice categories ;;
  c5 <- add_missing_values (VStr v) (1 # 100) ;;
  v <- choice regions ;;
  c6 <- add_missing_values (VStr v) (1 # 100) ;;
  c7 <- add_missing_values (VFloat (s_sales_amount f)) (5 # 100) ;;
  c8 <- add_missing_values (VInt (s_quantity f)) (3 # 100) ;;
  c9 <- add_missing_values (VInt (s_discount f)) (2 # 100) ;;
  c10 <- add_missing_values (VFloat (s_tax f)) (4 # 100) ;;
  c11 <- add_missing_values (VFloat (s_shipping f)) (3 # 100) ;;
  c12 <- add_missing_values (VFloat (s_total f)) (5 # 100) ;;
  v <- choice statuses ;;
  c13 <- add_missing_values (VStr v) (2 # 100) ;;
  v <- choice payment_methods ;;
  c14 <- add_missing_values (VStr v) (1 # 100) ;;
  v <- choice customer_segments ;;
  c15 <- add_missing_values (VStr v) (3 # 100) ;;
  v <- randint 1 30 ;;
  c16 <- add_missing_values (VInt v) (4 # 100) ;;
  v <- randint 1 5 ;;
  c17 <- add_missing_values (VInt v) (10 # 100) ;;
  v <- choice [true; false] ;;
  c18 <- add_missing_values (VBool v) (2 # 100) ;;
  v <- choice [true; false] ;;
  c19 <- add_missing_values (VBool v) (1 # 100) ;;
  c20 <- add_missing_values (VStr (s_season f)) (1 # 100) ;;
  c21 <- add_missing_values (VInt (year (s_date f))) (1 # 100) ;;
  c22 <- add_missing_values (VInt (month (s_date f))) (1 # 100) ;;
  ret [c1; c2; c3; c4; c5; c6; c7; c8; c9; c10; c11; c12; c13; c14; c15; c16;
       c17; c18; c19; c20; c21; c22].

Definition sales_row (i : Z) : M row :=
  f <- sales_sample i ;;
  sales_cells f.

(** The row with its steps in the order of the source text. *)
Definition sales_row_code_order (i : Z) : M row :=
  f <- sales_sample_code_order i ;;
  sales_cells f.

(** The row with its steps in the order the specification words. *)
Definition sales_row_spec_order (i : Z) : M row :=
  f <- sales_sample_spec_order i ;;
  sales_cells f.

(** [range(start, stop)] *)
Definition py_range (start stop : Z) : list Z :=
  map (fun k => start + Z.of_nat k) (seq 0 (Z.to_nat (stop - start))).

Definition sales_file : M (list row) :=
  rows <- for_each sales_row (py_range 1 25001) ;;
  ret (sales_header :: rows).

(** *** File 2: customers *)

Definition countries : list string :=
  ["USA"; "Canada"; "UK"; "Germany"; "France"; "Australia"; "Japan"; "Brazil";
   "India"; "China"]%string.
Definition genders : list string :=
  ["Male"; "Female"; "Other"; "Prefer not to say"]%string.
Definition subscription_types : list string :=
  ["Free"; "Basic"; "Premium"; "Enterprise"]%string.
Definition account_statuses : list string :=
  ["Active"; "Inactive"; "Suspended"; "Pending"]%string.
Definition first_names : list string :=
  ["John"; "Emma"; "Michael"; "Sophia"; "William"; "Olivia"; "James"; "Ava";
   "Robert"; "Isabella"]%string.
Definition last_names : list string :=
  ["Smith"; "Johnson"; "Williams"; "Brown"; "Jones"; "Garcia"; "Miller";
   "Davis"; "Rodriguez"; "Martinez"]%string.

Definition customer_header : row :=
  map VStr
    ["customer_id"; "first_name"; "last_name"; "email"; "phone"; "country";
     "city"; "age"; "gender"; "signup_date"; "subscription_type";
     "account_status"; "lifetime_value"; "total_orders";
     "average_order_value"; "last_purchase_date"; "loyalty_points";
     "is_verified"; "email_opt_in"; "sms_opt_in"; "referral_count"]%string.

Record customer_fields : Type := {
  c_signup : date;
  c_last_purchase : option date;
  c_total_orders : Z;
  c_avg_order : Q;
  c_lifetime_value : Q
}.

(** Line 113: [round(total_orders * avg_order, 2)]. *)
Definition lifetime_value_normal (total_orders : Z) (avg_order : Q) : Q :=
  py_round 2 (inject_Z total_orders * avg_order)%Q.

(** Line 117: [round(random.uniform(50000, 200000), 2)]. *)
Definition lifetime_value_outlier : M Q :=
  u <- uniform 50000 200000 ;;
  ret (py_round 2 u).

(** Lines 109-117. *)
Definition customer_sample : M customer_fields :=
  signup <- random_date (mkdate 2018 1 1) (mkdate 2024 12 31) ;;
  r <- random ;;
  last_purchase <-
    (if Qltb (1 # 10) r then
       d <- random_date signup (mkdate 2024 12 31) ;; ret (Some d)
     else ret None) ;;
  total_orders <- randint 0 200 ;;
  u <- uniform 20 500 ;;
  let avg_order := py_round 2 u in
  let lifetime_value := lifetime_value_normal total_orders avg_order in
  r <- random ;;
  lifetime_value <-
    (if Qltb r (1 # 100) then lifetime_value_outlier
     else ret lifetime_value) ;;
  ret {| c_signup := signup; c_last_purchase := last_purchase;
         c_total_orders := total_orders; c_avg_order := avg_order;
         c_lifetime_value := lifetime_value |}.

(** The cell [last_purchase.strftime('%Y-%m-%d') if last_purchase else ""]. *)
Definition last_purchase_text (d : option date) : string :=
  match d with
  | Some d => strftime_ymd d
  | None => ""%string
  end.

(** Lines 119-141. *)
Definition customer_cells (i : Z) (f : customer_fields) : M row :=
  c1 <- add_missing_values (VInt i) (1 # 1000) ;;
  v <- choice first_names ;;
  c2 <- add_missing_values (VStr v) (2 # 100) ;;
  v <- choice last_names ;;
  c3 <- add_missing_values (VStr v) (2 # 100) ;;
  fn <- choice first_names ;;
  ln <- choice last_names ;;
  c4 <- add_missing_values
          (VStr (lower fn ++ "." ++ lower ln ++ "@example.com")%string)
          (3 # 100) ;;
  p1 <- randint 200 999 ;;
  p2 <- randint 100 999 ;;
  p3 <- randint 1000 9999 ;;
  c5 <- add_missing_values
          (VStr ("+1-" ++ str_int p1 ++ "-" ++ str_int p2 ++ "-"
                 ++ str_int p3)%string)
          (8 # 100) ;;
  v <- choice countries ;;
  c6 <- add_missing_values (VStr v) (2 # 100) ;;
  v <- randint 1 100 ;;
  c7 <- add_missing_values (VStr ("City_" ++ str_int v)%string) (3 # 100) ;;
  v <- randint 18 80 ;;
  c8 <- add_missing_values (VInt v) (5 # 100) ;;
  v <- choice genders ;;
  c9 <- add_missing_values (VStr v) (6 # 100) ;;
  c10 <- add_missing_values (VStr (strftime_ymd (c_signup f))) (1 # 100) ;;
  v <- choice subscription_types ;;
  c11 <- add_missing_values (VStr v) (2 # 100) ;;
  v <- choice account_statuses ;;
  c12 <- add_missing_values (VStr v) (1 # 100) ;;
  c13 <- add_missing_values (VFloat (c_lifetime_value f)) (4 # 100) ;;
  c14 <- add_missing_values (VInt (c_total_orders f)) (3 # 100) ;;
  c15 <- add_missing_values (VFloat (c_avg_order f)) (4 # 100) ;;
  c16 <- add_missing_values (VStr (last_purchase_text (c_last_purchase f)))
           (15 # 100) ;;
  v <- randint 0 10000 ;;
  c17 <- add_missing_values (VInt v) (5 # 100) ;;
  v <- choice [true; false] ;;
  c18 <- add_missing_values (VBool v) (2 # 100) ;;
  v <- choice [true; false] ;;
  c19 <- add_missing_values (VBool v) (3 # 100) ;;
  v <- choice [true; false] ;;
  c20 <- add_missing_values (VBool v) (4 # 100) ;;
  v <- randint 0 50 ;;
  c21 <- add_missing_values (VInt v) (5 # 100) ;;
  ret [c1; c2; c3; c4; c5; c6; c7; c8; c9; c10; c11; c12; c13; c14; c15; c16;
       c17; c18; c19; c20; c21].

Definition customer_row (i : Z) : M row :=
  f <- customer_sample ;;
  customer_cells i f.

Definition customer_file : M (list row) :=
  rows <- for_each customer_row (py_range 1 25001) ;;
  ret (customer_header :: rows).

(** *** File 3: product catalog *)

Definition brands : list string :=
  ["BrandA"; "BrandB"; "BrandC"; "BrandD"; "BrandE"; "BrandF"; "BrandG";
   "BrandH"]%string.
Definition suppliers : list string :=
  ["Supplier1"; "Supplier2"; "Supplier3"; "Supplier4"; "Supplier5"]%string.
Definition warehouses : list string :=
  ["WH-North"; "WH-South"; "WH-East"; "WH-West"; "WH-Central"]%string.
Definition product_statuses : list string :=
  ["Active"; "Discontinued"; "Out of Stock"; "Limited Stock"]%string.
Definition colors : list string :=
  ["Red"; "Blue"; "Green"; "Black"; "White"; "Silver"; "Gold"; "Pink";
   "Purple"; "Orange"]%string.
Definition sizes : list string :=
  ["XS"; "S"; "M"; "L"; "XL"; "XXL"; "One Size"]%string.
Definition materials : list string :=
  ["Cotton"; "Plastic"; "Metal"; "Wood"; "Glass"; "Leather"; "Synthetic";
   "Mixed"]%string.
Definition subcategories : list (string * list string) :=
  [("Electronics", ["Phones"; "Laptops"; "Tablets"; "Cameras"]);
   ("Clothing", ["Shirts"; "Pants"; "Dresses"; "Shoes"]);
   ("Furniture", ["Chairs"; "Tables"; "Sofas"; "Beds"]);
   ("Food", ["Snacks"; "Beverages"; "Frozen"; "Fresh"]);
   ("Books", ["Fiction"; "Non-Fiction"; "Educational"; "Comics"])]%string.

(** [d.get(key, default)] *)
Fixpoint dict_get {V} (d : list (string * V)) (key : string) (default : V) : V :=
  match d with
  | [] => default
  | (k, v) :: d' => if String.eqb k key then v else dict_get d' key default
  end.

Definition product_header : row :=
  map VStr
    ["product_id"; "product_name"; "category"; "subcategory"; "brand";
     "supplier"; "cost_price"; "selling_price"; "profit_margin";
     "stock_quantity"; "reorder_level"; "warehouse_location"; "weight_kg";
     "dimensions_cm"; "color"; "size"; "material"; "rating_average";
     "review_count"; "launch_date"; "status"; "is_featured";
     "warranty_months"]%string.

Record product_fields : Type := {
  p_category : string;
  p_subcategory_list : list string;
  p_cost : Q;
  p_selling : Q;
  p_margin : Q;
  p_launch : date
}.

(** [round(((selling - cost) / selling) * 100, 2)] *)
Definition profit_margin (selling cost : Q) : M Q :=
  q <- lift (py_div (selling - cost) selling) ;;
  ret (py_round 2 (q * 100)%Q).

(** Line 176: [round(random.uniform(5, 500), 2)]. *)
Definition cost_price : M Q :=
  u <- uniform 5 500 ;;
  ret (py_round 2 u).

(** Line 177: [round(cost * random.uniform(1.2, 3.0), 2)]. *)
Definition selling_normal (cost : Q) : M Q :=
  u <- uniform (12 # 10) 3 ;;
  ret (py_round 2 (cost * u)%Q).

(** Line 182: [round(random.uniform(5000, 20000), 2)]. *)
Definition selling_outlier : M Q :=
  u <- uniform 5000 20000 ;;
  ret (py_round 2 u).

(** Lines 174-185. *)
Definition product_sample : M product_fields :=
  category <- choice categories ;;
  let subcategory_list := dict_get subcategories category ["General"%string] in
  cost <- cost_price ;;
  selling <- selling_normal cost ;;
  margin <- profit_margin selling cost ;;
  r <- random ;;
  priced <-
    (if Qltb r (1 # 100) then
       selling <- selling_outlier ;;
       margin <- profit_margin selling cost ;;
       ret (selling, margin)
     else ret (selling, margin)) ;;
  launch <- random_date (mkdate 2015 1 1) (mkdate 2024 12 31) ;;
  ret {| p_category := category; p_subcategory_list := subcategory_list;
         p_cost := cost; p_selling := fst priced; p_margin := snd priced;
         p_launch := launch |}.

(** Lines 187-211. *)
Definition product_cells (i : Z) (f : product_fields) : M row :=
  c1 <- add_missing_values (VInt i) (1 # 1000) ;;
  c2 <- add_missing_values
          (VStr ("Product_" ++ p_category f ++ "_" ++ str_int i)%string)
          (2 # 100) ;;
  c3 <- add_missing_values (VStr (p_category f)) (1 # 100) ;;
  v <- choice (p_subcategory_list f) ;;
  c4 <- add_missing_values (VStr v) (2 # 100) ;;
  v <- choice brands ;;
  c5 <- add_missing_values (VStr v) (2 # 100) ;;
  v <- choice suppliers ;;
  c6 <- add_missing_values (VStr v) (3 # 100) ;;
  c7 <- add_missing_values (VFloat (p_cost f)) (4 # 100) ;;
  c8 <- add_missing_values (VFloat (p_selling f)) (4 # 100) ;;
  c9 <- add_missing_values (VFloat (p_margin f)) (5 # 100) ;;
  v <- randint 0 1000 ;;
  c10 <- add_missing_values (VInt v) (3 # 100) ;;
  v <- randint 10 100 ;;
  c11 <- add_missing_values (VInt v) (4 # 100) ;;
  v <- choice warehouses ;;
  c12 <- add_missing_values (VStr v) (3 # 100) ;;
  u <- uniform (1 # 10) 50 ;;
  c13 <- add_missing_values (VFloat (py_round 2 u)) (5 # 100) ;;
  d1 <- randint 5 100 ;;
  d2 <- randint 5 100 ;;
  d3 <- randint 5 100 ;;
  c14 <- add_missing_values
           (VStr (str_int d1 ++ "x" ++ str_int d2 ++ "x" ++ str_int d3)%string)
           (6 # 100) ;;
  v <- choice colors ;;
  c15 <- add_missing_values (VStr v) (5 # 100) ;;
  v <- choice sizes ;;
  c16 <- add_missing_values (VStr v) (7 # 100) ;;
  v <- choice materials ;;
  c17 <- add_missing_values (VStr v) (4 # 100) ;;
  u <- uniform 1 5 ;;
  c18 <- add_missing_values (VFloat (py_round 1 u)) (8 # 100) ;;
  v <- randint 0 5000 ;;
  c19 <- add_missing_values (VInt v) (7 # 100) ;;
  c20 <- add_missing_values (VStr (strftime_ymd (p_launch f))) (3 # 100) ;;
  v <- choice product_statuses ;;
  c21 <- add_missing_values (VStr v) (2 # 100) ;;
  v <- choice [true; false] ;;
  c22 <- add_missing_values (VBool v) (2 # 100) ;;
  v <- choice [0; 6; 12; 24; 36] ;;
  c23 <- add_missing_values (VInt v) (5 # 100) ;;
  ret [c1; c2; c3; c4; c5; c6; c7; c8; c9; c10; c11; c12; c13; c14; c15; c16;
       c17; c18; c19; c20; c21; c22; c23].

Definition product_row (i : Z) : M row :=
  f <- product_sample ;;
  product_cells i f.

Definition product_file : M (list row) :=
  rows <- for_each product_row (py_range 1000 26000) ;;
  ret (product_header :: rows).

(** *** File 4: marketing campaigns *)

Definition channels : list string :=
  ["Email"; "Social Media"; "Google Ads"; "TV"; "Radio"; "Billboard";
   "Influencer"; "Direct Mail"]%string.
Definition campaign_types : list string :=
  ["Awareness"; "Conversion"; "Retention"; "Launch"; "Seasonal"]%string.
Definition target_audiences : list string :=
  ["18-24"; "25-34"; "35-44"; "45-54"; "55-64"; "65+"]%string.
Definition ad_formats : list string :=
  ["Image"; "Video"; "Carousel"; "Story"; "Text"; "Interactive"]%string.
Definition objectives : list string :=
  ["Traffic"; "Sales"; "Leads"; "Engagement"; "Brand Awareness"]%string.
Definition ab_variants : list pyval :=
  [VStr "A"; VStr "B"; VStr "Control"; VNone].

Definition campaign_header : row :=
  map VStr
    ["campaign_id"; "campaign_name"; "start_date"; "end_date"; "channel";
     "campaign_type"; "target_audience"; "ad_format"; "objective"; "budget";
     "spend"; "impressions"; "clicks"; "conversions"; "ctr_percent";
     "conversion_rate_percent"; "cost_per_click"; "cost_per_conversion";
     "revenue_generated"; "roi_percent"; "region"; "is_active";
     "a_b_test_variant"; "engagement_score"]%string.

(** The ratio fields hold a float, or the int [0] of the guard's else branch. *)
Record campaign_fields : Type := {
  k_start : date;
  k_end : date;
  k_budget : Q;
  k_spend : Q;
  k_impressions : Z;
  k_clicks : Z;
  k_conversions : Z;
  k_ctr : pyval;
  k_conv_rate : pyval;
  k_cpc : pyval;
  k_cpa : pyval;
  k_revenue : Q;
  k_roi : pyval
}.

(** [round(num / den * 100, 2)] *)
Definition percent_of (num den : Q) : M pyval :=
  q <- lift (py_div num den) ;;
  ret (VFloat (py_round 2 (q * 100)%Q)).

(** [round(num / den, 2)] *)
Definition ratio_of (num den : Q) : M pyval :=
  q <- lift (py_div num den) ;;
  ret (VFloat (py_round 2 q)).

(** Line 238: [round(random.uniform(1000, 100000), 2)]. *)
Definition budget_normal : M Q :=
  u <- uniform 1000 100000 ;;
  ret (py_round 2 u).

(** Line 252: [round(random.uniform(500000, 2000000), 2)]. *)
Definition budget_outlier : M Q :=
  u <- uniform 500000 2000000 ;;
  ret (py_round 2 u).

(** Lines 234-255. *)
Definition campaign_sample : M campaign_fields :=
  start <- random_date (mkdate 2020 1 1) (mkdate 2024 11 30) ;;
  duration <- randint 7 90 ;;
  let end_ := add_days start duration in
  budget <- budget_normal ;;
  u <- uniform (5 # 10) (11 # 10) ;;
  let spend := py_round 2 (budget * u)%Q in
  impressions <- randint 1000 1000000 ;;
  clicks <- randint 10 (py_int (inject_Z impressions * (1 # 10))%Q) ;;
  conversions <- randint 0 (py_int (inject_Z clicks * (2 # 10))%Q) ;;
  ctr <-
    (if 0 <? impressions
     then percent_of (inject_Z clicks) (inject_Z impressions)
     else ret (VInt 0)) ;;
  conv_rate <-
    (if 0 <? clicks
     then percent_of (inject_Z conversions) (inject_Z clicks)
     else ret (VInt 0)) ;;
  cpc <-
    (if 0 <? clicks then ratio_of spend (inject_Z clicks) else ret (VInt 0)) ;;
  cpa <-
    (if 0 <? conversions
     then ratio_of spend (inject_Z conversions)
     else ret (VInt 0)) ;;
  u <- uniform 50 500 ;;
  let revenue := py_round 2 (inject_Z conversions * u)%Q in
  roi <-
    (if Qltb 0 spend then percent_of (revenue - spend) spend
     else ret (VInt 0)) ;;
  r <- random ;;
  money <-
    (if Qltb r (1 # 100) then
       budget <- budget_outlier ;;
       u <- uniform (8 # 10) 1 ;;
       let spend := py_round 2 (budget * u)%Q in
       u <- uniform 2 10 ;;
       let revenue := py_round 2 (spend * u)%Q in
       roi <- percent_of (revenue - spend) spend ;;
       ret (budget, spend, revenue, roi)
     else ret (budget, spend, revenue, roi)) ;;
  let '(budget, spend, revenue, roi) := money in
  ret {| k_start := start; k_end := end_; k_budget := budget;
         k_spend := spend; k_impressions := impressions; k_clicks := clicks;
         k_conversions := conversions; k_ctr := ctr;
         k_conv_rate := conv_rate; k_cpc := cpc; k_cpa := cpa;
         k_revenue := revenue; k_roi := roi |}.

(** Lines 257-282. *)
Definition campaign_cells (i : Z) (f : campaign_fields) : M row :=
  c1 <- add_missing_values (VStr ("CMP" ++ str_int_pad 5 i)%string) (1 # 1000) ;;
  v <- choice campaign_types ;;
  c2 <- add_missing_values
          (VStr ("Campaign_" ++ v ++ "_" ++ str_int i)%string) (2 # 100) ;;
  c3 <- add_missing_values (VStr (strftime_ymd (k_start f))) (1 # 100) ;;
  c4 <- add_missing_values (VStr (strftime_ymd (k_end f))) (2 # 100) ;;
  v <- choice channels ;;
  c5 <- add_missing_values (VStr v) (1 # 100) ;;
  v <- choice campaign_types ;;
  c6 <- add_missing_values (VStr v) (1 # 100) ;;
  v <- choice target_audiences ;;
  c7 <- add_missing_values (VStr v) (3 # 100) ;;
  v <- choice ad_formats ;;
  c8 <- add_missing_values (VStr v) (2 # 100) ;;
  v <- choice objectives ;;
  c9 <- add_missing_values (VStr v) (2 # 100) ;;
  c10 <- add_missing_values (VFloat (k_budget f)) (3 # 100) ;;
  c11 <- add_missing_values (VFloat (k_spend f)) (4 # 100) ;;
  c12 <- add_missing_values (VInt (k_impressions f)) (5 # 100) ;;
  c13 <- add_missing_values (VInt (k_clicks f)) (5 # 100) ;;
  c14 <- add_missing_values (VInt (k_conversions f)) (6 # 100) ;;
  c15 <- add_missing_values (k_ctr f) (6 # 100) ;;
  c16 <- add_missing_values (k_conv_rate f) (7 # 100) ;;
  c17 <- add_missing_values (k_cpc f) (6 # 100) ;;
  c18 <- add_missing_values (k_cpa f) (8 # 100) ;;
  c19 <- add_missing_values (VFloat (k_revenue f)) (5 # 100) ;;
  c20 <- add_missing_values (k_roi f) (6 # 100) ;;
  v <- choice regions ;;
  c21 <- add_missing_values (VStr v) (2 # 100) ;;
  v <- choice [true; false] ;;
  c22 <- add_missing_values (VBool v) (2 # 100) ;;
  v <- choice ab_variants ;;
  c23 <- add_missing_values v (20 # 100) ;;
  u <- uniform 0 100 ;;
  c24 <- add_missing_values (VFloat (py_round 1 u)) (7 # 100) ;;
  ret [c1; c2; c3; c4; c5; c6; c7; c8; c9; c10; c11; c12; c13; c14; c15; c16;
       c17; c18; c19; c20; c21; c22; c23; c24].

Definition campaign_row (i : Z) : M row :=
  f <- campaign_sample ;;
  campaign_cells i f.

Definition campaign_file : M (list row) :=
  rows <- for_each campaign_row (py_range 1 25001) ;;
  ret (campaign_header :: rows).

(** *** The whole script *)

Record dataset : Type := {
  sales_data : list row;
  customer_data : list row;
  product_data : list row;
  marketing_campaigns : list row
}.

Definition generate : M dataset :=
  f1 <- sales_file ;;
  f2 <- customer_file ;;
  f3 <- product_file ;;
  f4 <- campaign_file ;;
  ret {| sales_data := f1; customer_data := f2; product_data := f3;
         marketing_campaigns := f4 |}.

(** [random.seed(42)], then the four files in turn. *)
Definition main : result dataset :=
  match generate (rs_seed R 42) with
  | Ok (d, _) => Ok d
  | Raise e => Raise e
  end.

End Generator.

Arguments ret {R A} a.
Arguments bind {R A B} m k.
Arguments for_each {R A B} body xs.
Arguments choice {R A} seq.

(** ** What [csv.writer] puts in the file *)

Definition dquote : ascii := ascii_of_nat 34.
Definition CR : ascii := ascii_of_nat 13.
Definition LF : ascii := ascii_of_nat 10.

Definition digit (d : Z) : string := str_int (d mod 10).

(** [repr] of a float that is the result of [round(_, 1)] or [round(_, 2)]
    and below 1e16 in magnitude: the decimal expansion with at least one and
    at most two fractional digits. *)
Definition repr_float (q : Q) : string :=
  let a := Qabs q in
  let ip := Qfloor a in
  let hundredths := Qfloor ((a - inject_Z ip) * 100) in
  let sign := if Qltb q 0 then "-"%string else ""%string in
  let last := if hundredths mod 10 =? 0 then ""%string else digit hundredths in
  (sign ++ str_int ip ++ "." ++ digit (hundredths / 10) ++ last)%string.

(** The text of one field before quoting: [str(value)], and nothing for [None]. *)
Definition csv_field (v : pyval) : string :=
  match v with
  | VInt z => str_int z
  | VFloat q => repr_float q
  | VStr s => s
  | VBool true => "True"%string
  | VBool false => "False"%string
  | VNone => ""%string
  end.

Definition special (c : ascii) : bool :=
  orb (Ascii.eqb c ","%char)
      (orb (Ascii.eqb c dquote) (orb (Ascii.eqb c CR) (Ascii.eqb c LF))).

Fixpoint needs_quotes (s : string) : bool :=
  match s with
  | EmptyString => false
  | String c s' => orb (special c) (needs_quotes s')
  end.

Fixpoint double_quotes (s : string) : string :=
  match s with
  | EmptyString => EmptyString
  | String c s' =>
      if Ascii.eqb c dquote then String c (String c (double_quotes s'))
      else String c (double_quotes s')
  end.

(** Minimal quoting of the default dialect. *)
Definition csv_quote (s : string) : string :=
  if needs_quotes s
  then String dquote (double_quotes s ++ String dquote EmptyString)
  else s.

Fixpoint join (sep : string) (fields : list string) : string :=
  match fields with
  | [] => EmptyString
  | [x] => x
  | x :: rest => (x ++ sep ++ join sep rest)%string
  end.

(** One record: fields joined by commas, closed by CR LF.  A row made of one
    empty field is written as a pair of quotes. *)
Definition csv_line (r : row) : string :=
  let fields := map csv_field r in
  let body :=
    match fields with
    | [EmptyString] => String dquote (String dquote EmptyString)
    | _ => join "," (map csv_quote fields)
    end in
  (body ++ String CR (String LF EmptyString))%string.

Definition csv_text (rows : list row) : string :=
  String.concat EmptyString (map csv_line rows).

(** The bytes of the four files, in the order they are written. *)
Definition files_text (d : dataset) : list string :=
  [csv_text (sales_data d); csv_text (customer_data d);
   csv_text (product_data d); csv_text (marketing_campaigns d)].

(** The texts a run leaves on disk. *)
Definition output (R : RandomSource) : result (list string) :=
  match main R with
  | Ok d => Ok (files_text d)
  | Raise e => Raise e
  end.

(** ** A generator that replays a script of draws

    [U u] answers a call of [random()], [K k] a call of [_randbelow(n)]
    (reduced modulo [n]).  A draw of the wrong kind, or the end of the
    script, answers zero. *)

Inductive draw : Type :=
| U (u : Q)
| K (k : Z).

Definition unit_interval (u : Q) : Q :=
  if andb (Qle_bool 0 u) (Qltb u 1) then u else 0%Q.

Definition script_random (t : list draw) : Q * list draw :=
  match t with
  | U u :: t' => (unit_interval u, t')
  | _ :: t' => (0%Q, t')
  | [] => (0%Q, [])
  end.

Definition script_randbelow (n : Z) (t : list draw) : Z * list draw :=
  match t with
  | K k :: t' => (k mod n, t')
  | _ :: t' => (0, t')
  | [] => (0, [])
  end.

Definition script_rng (tape : list draw) : RandomSource.
Proof.
  refine {| rs_state := list draw;
            rs_seed := fun _ => tape;
            rs_random := script_random;
            rs_randbelow := script_randbelow;
            rs_random_range := _;
            rs_randbelow_range := _ |}.
  - abstract
      (intros [| [u | k] t']; simpl; try (split; lra);
       unfold unit_interval, Qltb;
       destruct (Qle_bool 0 u) eqn:H0; simpl; [| split; lra];
       destruct (Qle_bool 1 u) eqn:H1; simpl; [split; lra |];
       apply Qle_bool_iff in H0; split; [exact H0 |];
       apply Qnot_le_lt; intro H; apply Qle_bool_iff in H; congruence).
  - abstract
      (intros n [| [u | k] t'] Hn; simpl; try lia;
       apply Z.mod_pos_bound; exact Hn).
Defined.

(** *** A second replay generator

    [cursor_rng tape] keeps the script whole and moves a position along it,
    where [script_rng tape] consumes the script. *)

Definition cursor_random (tape : list draw) (pos : nat) : Q * nat :=
  (fst (script_random (skipn pos tape)), S pos).

Definition cursor_randbelow (tape : list draw) (n : Z) (pos : nat) : Z * nat :=
  (fst (script_randbelow n (skipn pos tape)), S pos).

Definition cursor_rng (tape : list draw) : RandomSource :=
  {| rs_state := nat;
     rs_seed := fun _ => O;
     rs_random := cursor_random tape;
     rs_randbelow := cursor_randbelow tape;
     rs_random_range :=
       fun pos => rs_random_range (script_rng tape) (skipn pos tape);
     rs_randbelow_range :=
       fun n pos => rs_randbelow_range (script_rng tape) n (skipn pos tape) |}.

(** *** Scripts *)

(** A draw that fires neither corruption nor outlier nor duplication. *)
Definition kept : draw := U (1 # 2).

(** A sampled cell: the value's draw, then the corruption draw. *)
Definition pick (k : Z) : list draw := [K k; kept].

(** The draws of [sales_cells]: [first] decides the transaction_id cell, no
    other cell is corrupted. *)
Definition sales_cells_tape_with (first : draw) : list draw :=
  [first; kept] ++ pick 41 ++ pick 233 ++ pick 1 ++ pick 2 ++ repeat kept 6
  ++ pick 0 ++ pick 1 ++ pick 1 ++ pick 4 ++ pick 3 ++ pick 0 ++ pick 1
  ++ repeat kept 3.

Definition sales_cells_tape : list draw := sales_cells_tape_with kept.

(** A sales row whose outlier branch fires: the draw [0.005] is below [0.01]. *)
Definition outlier_sales_tape : list draw :=
  [K 100; U (1 # 2); K 3; K 2; U (1 # 2); U (1 # 2); U (5 # 1000); U (1 # 2)]
  ++ sales_cells_tape.

(** A first row whose sixth draw, [0.005], is below both thresholds; read in
    the order of the source text it fires nothing (the row number is not
    above 100), and the script ends with the row. *)
Definition order_tape : list draw :=
  [K 100; U (1 # 2); K 3; K 2; U (1 # 2); U (5 # 1000); U (1 # 2)]
  ++ sales_cells_tape.

(** The draws of lines 40-57 when neither branch fires. *)
Definition plain_sample_tape : list draw :=
  [K 100; U (1 # 2); K 3; K 2; U (1 # 2); kept; kept].


(** The draws of [campaign_cells] with no cell corrupted; the variant drawn
    for a_b_test_variant is the fourth of the vocabulary, [None]. *)
Definition campaign_cells_tape : list draw :=
  [kept] ++ pick 1 ++ [kept; kept] ++ pick 0 ++ pick 1 ++ pick 2 ++ pick 3
  ++ pick 4 ++ repeat kept 11 ++ pick 0 ++ pick 1 ++ pick 3
  ++ [U (1 # 4); kept].

(** A campaign row whose outlier branch fires ([0.005] below [0.01]). *)
Definition outlier_campaign_tape : list draw :=
  [K 0; K 0; U (1 # 2); U (1 # 2); K 0; K 0; K 0; U (1 # 2); U (5 # 1000);
   U (1 # 2); U (1 # 2); U (1 # 2)] ++ campaign_cells_tape.

(** The draws of [customer_cells] with no cell corrupted. *)
Definition customer_cells_tape : list draw :=
  [kept] ++ pick 0 ++ pick 1 ++ [K 2; K 3; kept] ++ [K 0; K 1; K 2; kept]
  ++ pick 0 ++ pick 4 ++ pick 10 ++ pick 2 ++ [kept] ++ pick 1 ++ pick 0
  ++ repeat kept 4 ++ pick 77 ++ pick 0 ++ pick 1 ++ pick 0 ++ pick 9.

(** A customer with no last purchase ([0.05] is not above [0.1]), 200 orders
    of 260.0 on average, and no outlier ([0.5] is not below [0.01]). *)
Definition no_purchase_tape : list draw :=
  [K 0; U (1 # 20); K 200; U (1 # 2); U (1 # 2)] ++ customer_cells_tape.

(** ** Predicates of the properties *)

(** [post m P]: from every generator state, [m] returns without raising and
    its value satisfies [P]. *)
Definition post {R : RandomSource} {A} (m : M R A) (P : A -> Prop) : Prop :=
  forall g, exists a g', m g = Ok (a, g') /\ P a.

(** A cell after [add_missing_values]: the value, or the empty string. *)
Definition kept_or_blank (v c : pyval) : Prop := c = v \/ c = VStr "".

Definition cell (k : nat) (r : row) : pyval := nth k r VNone.

(** What holds of the local variables when [writerow] is reached. *)
Definition sales_fields_ok (i : Z) (f : sales_fields) : Prop :=
  s_total f
  = sales_total (s_sales_amount f) (s_discount f) (s_tax f) (s_shipping f)
  /\ (s_transaction_id f = i
      \/ (100 < i /\ 1 <= s_transaction_id f <= i - 1))
  /\ (s_tax f <= 400)%Q.

(** The cells of a written sales row that carry the loop's variables. *)
Definition sales_cells_ok (f : sales_fields) (r : row) : Prop :=
  List.length r = 22%nat
  /\ kept_or_blank (VInt (s_transaction_id f)) (cell 0 r)
  /\ kept_or_blank (VFloat (s_sales_amount f)) (cell 6 r)
  /\ kept_or_blank (VInt (s_discount f)) (cell 8 r)
  /\ kept_or_blank (VFloat (s_tax f)) (cell 9 r)
  /\ kept_or_blank (VFloat (s_shipping f)) (cell 10 r)
  /\ kept_or_blank (VFloat (s_total f)) (cell 11 r).

Definition customer_cells_ok (i : Z) (f : customer_fields) (r : row) : Prop :=
  List.length r = 21%nat
  /\ kept_or_blank (VInt i) (cell 0 r)
  /\ kept_or_blank (VFloat (c_lifetime_value f)) (cell 12 r)
  /\ kept_or_blank (VStr (last_purchase_text (c_last_purchase f))) (cell 15 r).

Definition product_fields_ok (f : product_fields) : Prop :=
  p_subcategory_list f <> [] /\ (0 < p_selling f)%Q.

(** What holds of the click count and the cost per click when [writerow] is
    reached on a row whose outlier branch did not change the spend. *)
Definition campaign_fields_ok (f : campaign_fields) : Prop :=
  10 <= k_clicks f <= 100000
  /\ exists spend0,
       k_cpc f = VFloat (py_round 2 (spend0 / inject_Z (k_clicks f)))
       /\ (k_spend f = spend0 \/ (400000 <= k_spend f)%Q)
       /\ (spend0 <= 110000)%Q.





(** One header row, then [count] data rows, every row [width] cells wide. *)
Definition file_shape (header : row) (width : nat) (count : Z)
           (file : list row) : Prop :=
  exists rows,
    file = header :: rows
    /\ Z.of_nat (List.length rows) = count
    /\ Forall (fun r => List.length r = width) file.

Definition roundtrips (n : Z) : bool := ymd2ord (ord2ymd n) =? n.

Definition signup_days : list Z := py_range 736695 739252.

Section Related.

Context {R1 R2 : RandomSource}.
Variable rel : rs_state R1 -> rs_state R2 -> Prop.

Definition same_result {A} (r1 : result (A * rs_state R1))
           (r2 : result (A * rs_state R2)) : Prop :=
  match r1, r2 with
  | Ok (a1, g1), Ok (a2, g2) => a1 = a2 /\ rel g1 g2
  | Raise e1, Raise e2 => e1 = e2
  | _, _ => False
  end.

(** The two computations return the same value, or raise the same exception,
    from related states, and leave related states. *)
Definition sim {A} (m1 : M R1 A) (m2 : M R2 A) : Prop :=
  forall g1 g2, rel g1 g2 -> same_result (m1 g1) (m2 g2).

End Related.

(** ** Domains of the columns *)

(** A cell is blank, or it satisfies [P]. *)
Definition blank_or (P : pyval -> Prop) (c : pyval) : Prop :=
  c = VStr "" \/ P c.

Definition exactly (v c : pyval) : Prop := c = v.

Definition int_in (lo hi : Z) (c : pyval) : Prop :=
  exists z, c = VInt z /\ lo <= z <= hi.

Definition float_in (lo hi : Q) (c : pyval) : Prop :=
  exists q, c = VFloat q /\ (lo <= q)%Q /\ (q <= hi)%Q.

Definition str_in (vocabulary : list string) (c : pyval) : Prop :=
  exists s, c = VStr s /\ In s vocabulary.

Definition is_bool (c : pyval) : Prop := exists b, c = VBool b.

(** The text of a date that lies [lo] to [hi] days after [start]. *)
Definition date_text_in (start : date) (lo hi : Z) (c : pyval) : Prop :=
  exists k, lo <= k <= hi /\ c = VStr (strftime_ymd (add_days start k)).

(** A day of the calendar window the script draws from (2015-01-01 to
    2025-02-28, as ordinals): the ordinal is recovered from the date, and the
    date has a month of 1 to 12 and a day of 1 to 31. *)
Definition calendar_ok (n : Z) : bool :=
  let d := ord2ymd n in
  andb (ymd2ord d =? n)
       (andb (andb (1 <=? month d) (month d <=? 12))
             (andb (1 <=? day d) (day d <=? 31))).

Definition script_days : list Z := py_range 735599 739311.

(** The year of a day of the sales window (2020-01-01 to 2024-12-31). *)
Definition sales_year_ok (n : Z) : bool :=
  andb (2020 <=? year (ord2ymd n)) (year (ord2ymd n) <=? 2024).

Definition sales_days : list Z := py_range 737425 739252.

(** What the sales loop body holds when [writerow] is reached. *)
Definition sales_sampled (i : Z) (f : sales_fields) : Prop :=
  (exists k, 0 <= k <= 1826 /\ s_date f = add_days (mkdate 2020 1 1) k)
  /\ s_season f = season_of (month (s_date f))
  /\ 1 <= s_quantity f <= 20
  /\ In (s_discount f) [0; 5; 10; 15; 20; 25; 30]
  /\ ((0 <= s_shipping f)%Q /\ (s_shipping f <= 50)%Q)
  /\ ((8 # 10 <= s_tax f)%Q /\ (s_tax f <= 400)%Q)
  /\ (((10 <= s_sales_amount f)%Q /\ (s_sales_amount f <= 5000)%Q
       /\ s_tax f = py_round 2 (s_sales_amount f * (8 # 100)))
      \/ ((10000 <= s_sales_amount f)%Q /\ (s_sales_amount f <= 50000)%Q))
  /\ s_total f
     = sales_total (s_sales_amount f) (s_discount f) (s_tax f) (s_shipping f)
  /\ (s_transaction_id f = i
      \/ (100 < i /\ 1 <= s_transaction_id f <= i - 1)).

(** The domain of each cell of a sales row, given the loop's variables. *)
Definition sales_columns (f : sales_fields) : list (pyval -> Prop) :=
  [exactly (VInt (s_transaction_id f));
   exactly (VStr (strftime_ymd (s_date f)));
   int_in 1 5000; int_in 1000 9999; str_in categories; str_in regions;
   exactly (VFloat (s_sales_amount f)); exactly (VInt (s_quantity f));
   exactly (VInt (s_discount f)); exactly (VFloat (s_tax f));
   exactly (VFloat (s_shipping f)); exactly (VFloat (s_total f));
   str_in statuses; str_in payment_methods; str_in customer_segments;
   int_in 1 30; int_in 1 5; is_bool; is_bool;
   exactly (VStr (s_season f)); exactly (VInt (year (s_date f)));
   exactly (VInt (month (s_date f)))].

(** The domain of each column of the sales file, for row [i]. *)
Definition sales_schema (i : Z) : list (pyval -> Prop) :=
  [int_in 1 i; date_text_in (mkdate 2020 1 1) 0 1826;
   int_in 1 5000; int_in 1000 9999; str_in categories; str_in regions;
   float_in 10 50000; int_in 1 20; int_in 0 30; float_in (8 # 10) 400;
   float_in 0 50; float_in 7 50450;
   str_in statuses; str_in payment_methods; str_in customer_segments;
   int_in 1 30; int_in 1 5; is_bool; is_bool;
   str_in ["Winter"; "Spring"; "Summer"; "Fall"]%string;
   int_in 2020 2024; int_in 1 12].

(** [first.last@example.com], both names of the vocabularies, lower-cased. *)
Definition email_like (c : pyval) : Prop :=
  exists fn ln,
    c = VStr (lower fn ++ "." ++ lower ln ++ "@example.com")%string
    /\ In fn first_names /\ In ln last_names.

(** [+1-AAA-BBB-NNNN] *)
Definition phone_like (c : pyval) : Prop :=
  exists a b n,
    c = VStr ("+1-" ++ str_int a ++ "-" ++ str_int b ++ "-" ++ str_int n)%string
    /\ 200 <= a <= 999 /\ 100 <= b <= 999 /\ 1000 <= n <= 9999.

(** [City_N] *)
Definition city_like (c : pyval) : Prop :=
  exists n, c = VStr ("City_" ++ str_int n)%string /\ 1 <= n <= 100.

(** What the customer loop body holds when [writerow] is reached. *)
Definition customer_sampled (f : customer_fields) : Prop :=
  (exists k, 0 <= k <= 2556 /\ c_signup f = add_days (mkdate 2018 1 1) k)
  /\ (c_last_purchase f = None
      \/ exists j,
           0 <= j <= 739251 - ymd2ord (c_signup f)
           /\ c_last_purchase f = Some (add_days (c_signup f) j))
  /\ 0 <= c_total_orders f <= 200
  /\ ((20 <= c_avg_order f)%Q /\ (c_avg_order f <= 500)%Q)
  /\ (c_lifetime_value f
      = lifetime_value_normal (c_total_orders f) (c_avg_order f)
      \/ ((50000 <= c_lifetime_value f)%Q
          /\ (c_lifetime_value f <= 200000)%Q)).

(** The domain of each cell of a customer row, given the loop's variables. *)
Definition customer_columns (i : Z) (f : customer_fields)
  : list (pyval -> Prop) :=
  [exactly (VInt i); str_in first_names; str_in last_names; email_like;
   phone_like; str_in countries; city_like; int_in 18 80; str_in genders;
   exactly (VStr (strftime_ymd (c_signup f)));
   str_in subscription_types; str_in account_statuses;
   exactly (VFloat (c_lifetime_value f)); exactly (VInt (c_total_orders f));
   exactly (VFloat (c_avg_order f));
   exactly (VStr (last_purchase_text (c_last_purchase f)));
   int_in 0 10000; is_bool; is_bool; is_bool; int_in 0 50].

(** The text of a date, or of no date. *)
Definition date_text_or_empty (start : date) (lo hi : Z) (c : pyval) : Prop :=
  c = VStr "" \/ date_text_in start lo hi c.

(** The domain of each column of the customer file, for row [i]. *)
Definition customer_schema (i : Z) : list (pyval -> Prop) :=
  [exactly (VInt i); str_in first_names; str_in last_names; email_like;
   phone_like; str_in countries; city_like; int_in 18 80; str_in genders;
   date_text_in (mkdate 2018 1 1) 0 2556;
   str_in subscription_types; str_in account_statuses;
   float_in 0 200000; int_in 0 200; float_in 20 500;
   date_text_or_empty (mkdate 2018 1 1) 0 2556;
   int_in 0 10000; is_bool; is_bool; is_bool; int_in 0 50].

(** A customer with three orders of 260.0 on average, a last purchase 40
    days after signing up on the first day, and no outlier. *)
Definition small_customer_tape : list draw :=
  [K 0; U (1 # 2); K 40; K 3; U (1 # 2); U (1 # 2)] ++ customer_cells_tape.

Definition int_among (values : list Z) (c : pyval) : Prop :=
  exists z, c = VInt z /\ In z values.

(** A float rounded to [ndigits] from a value of [lo] to [hi]. *)
Definition rounded_in (ndigits : nat) (lo hi : Q) (c : pyval) : Prop :=
  exists u, c = VFloat (py_round ndigits u) /\ (lo <= u)%Q /\ (u <= hi)%Q.

(** [AxBxN] *)
Definition dimensions_like (c : pyval) : Prop :=
  exists a b n,
    c = VStr (str_int a ++ "x" ++ str_int b ++ "x" ++ str_int n)%string
    /\ 5 <= a <= 100 /\ 5 <= b <= 100 /\ 5 <= n <= 100.

(** [Product_<category>_<i>] *)
Definition product_name_like (i : Z) (c : pyval) : Prop :=
  exists category,
    c = VStr ("Product_" ++ category ++ "_" ++ str_int i)%string
    /\ In category categories.

(** Every subcategory of the table, and the default of [dict.get]. *)
Definition subcategory_names : list string :=
  List.concat (map snd subcategories) ++ ["General"%string].

(** What the product loop body holds when [writerow] is reached. *)
Definition product_sampled (f : product_fields) : Prop :=
  In (p_category f) categories
  /\ p_subcategory_list f
     = dict_get subcategories (p_category f) ["General"%string]
  /\ ((5 <= p_cost f)%Q /\ (p_cost f <= 500)%Q)
  /\ ((p_cost f < p_selling f)%Q
      /\ (6 <= p_selling f)%Q /\ (p_selling f <= 20000)%Q)
  /\ p_margin f
     = py_round 2 ((p_selling f - p_cost f) / p_selling f * 100)
  /\ (exists k, 0 <= k <= 3652 /\ p_launch f = add_days (mkdate 2015 1 1) k).

(** The domain of each cell of a product row, given the loop's variables. *)
Definition product_columns (i : Z) (f : product_fields)
  : list (pyval -> Prop) :=
  [exactly (VInt i);
   exactly (VStr ("Product_" ++ p_category f ++ "_" ++ str_int i)%string);
   exactly (VStr (p_category f)); str_in (p_subcategory_list f);
   str_in brands; str_in suppliers;
   exactly (VFloat (p_cost f)); exactly (VFloat (p_selling f));
   exactly (VFloat (p_margin f));
   int_in 0 1000; int_in 10 100; str_in warehouses;
   rounded_in 2 (1 # 10) 50; dimensions_like;
   str_in colors; str_in sizes; str_in materials;
   rounded_in 1 1 5; int_in 0 5000;
   exactly (VStr (strftime_ymd (p_launch f)));
   str_in product_statuses; is_bool; int_among [0; 6; 12; 24; 36]].

(** The domain of each column of the product file, for row [i]. *)
Definition product_schema (i : Z) : list (pyval -> Prop) :=
  [exactly (VInt i); product_name_like i; str_in categories;
   str_in subcategory_names; str_in brands; str_in suppliers;
   float_in 5 500; float_in 6 20000; float_in 0 100;
   int_in 0 1000; int_in 10 100; str_in warehouses;
   float_in (1 # 10) 50; dimensions_like;
   str_in colors; str_in sizes; str_in materials;
   float_in 1 5; int_in 0 5000;
   date_text_in (mkdate 2015 1 1) 0 3652;
   str_in product_statuses; is_bool; int_among [0; 6; 12; 24; 36]].

(** A product of the category Sports, which the table of subcategories does
    not list; cost 252.5, selling price 530.25, no outlier, no cell
    corrupted. *)
Definition sports_product_tape : list draw :=
  [K 5; U (1 # 2); U (1 # 2); U (1 # 2); K 10]
  ++ [kept; kept; kept] ++ pick 0 ++ pick 1 ++ pick 2 ++ [kept; kept; kept]
  ++ pick 500 ++ pick 20 ++ pick 3 ++ [U (1 # 2); kept]
  ++ [K 1; K 2; K 3; kept] ++ pick 4 ++ pick 2 ++ pick 1
  ++ [U (1 # 2); kept] ++ pick 77 ++ [kept] ++ pick 0 ++ pick 1 ++ pick 2.

Definition is_float (c : pyval) : Prop := exists q, c = VFloat q.

(** A ratio cell: a float, or the int [0] of the guard's else branch. *)
Definition float_or_zero (c : pyval) : Prop := c = VInt 0 \/ is_float c.

(** [Campaign_<type>_<i>] *)
Definition campaign_name_like (i : Z) (c : pyval) : Prop :=
  exists kind,
    c = VStr ("Campaign_" ++ kind ++ "_" ++ str_int i)%string
    /\ In kind campaign_types.

(** A cell drawn from [ab_variants]. *)
Definition variant_like (c : pyval) : Prop := In c ab_variants.

(** What the campaign loop body holds when [writerow] is reached. *)
Definition campaign_sampled (f : campaign_fields) : Prop :=
  (exists k, 0 <= k <= 1795 /\ k_start f = add_days (mkdate 2020 1 1) k)
  /\ (exists duration,
         7 <= duration <= 90 /\ k_end f = add_days (k_start f) duration)
  /\ 1000 <= k_impressions f <= 1000000
  /\ (10 <= k_clicks f /\ 10 * k_clicks f <= k_impressions f)
  /\ (0 <= k_conversions f /\ 5 * k_conversions f <= k_clicks f)
  /\ k_ctr f
     = VFloat (py_round 2 (inject_Z (k_clicks f) / inject_Z (k_impressions f)
                           * 100))
  /\ k_conv_rate f
     = VFloat (py_round 2 (inject_Z (k_conversions f) / inject_Z (k_clicks f)
                           * 100))
  /\ (exists spend0,
         ((500 <= spend0)%Q /\ (spend0 <= 110000)%Q)
         /\ (k_spend f = spend0 \/ (400000 <= k_spend f)%Q)
         /\ k_cpc f = VFloat (py_round 2 (spend0 / inject_Z (k_clicks f)))
         /\ k_cpa f
            = if 0 <? k_conversions f
              then VFloat (py_round 2 (spend0 / inject_Z (k_conversions f)))
              else VInt 0)
  /\ ((1000 <= k_budget f)%Q /\ (k_budget f <= 2000000)%Q)
  /\ ((500 <= k_spend f)%Q /\ (k_spend f <= 2000000)%Q)
  /\ ((0 <= k_revenue f)%Q /\ (k_revenue f <= 20000000)%Q)
  /\ k_roi f
     = VFloat (py_round 2 ((k_revenue f - k_spend f) / k_spend f * 100)).

(** The domain of each cell of a campaign row, given the loop's variables. *)
Definition campaign_columns (i : Z) (f : campaign_fields)
  : list (pyval -> Prop) :=
  [exactly (VStr ("CMP" ++ str_int_pad 5 i)%string); campaign_name_like i;
   exactly (VStr (strftime_ymd (k_start f)));
   exactly (VStr (strftime_ymd (k_end f)));
   str_in channels; str_in campaign_types; str_in target_audiences;
   str_in ad_formats; str_in objectives;
   exactly (VFloat (k_budget f)); exactly (VFloat (k_spend f));
   exactly (VInt (k_impressions f)); exactly (VInt (k_clicks f));
   exactly (VInt (k_conversions f));
   exactly (k_ctr f); exactly (k_conv_rate f); exactly (k_cpc f);
   exactly (k_cpa f); exactly (VFloat (k_revenue f)); exactly (k_roi f);
   str_in regions; is_bool; variant_like; rounded_in 1 0 100].

(** The domain of each column of the campaign file, for row [i]. *)
Definition campaign_schema (i : Z) : list (pyval -> Prop) :=
  [exactly (VStr ("CMP" ++ str_int_pad 5 i)%string); campaign_name_like i;
   date_text_in (mkdate 2020 1 1) 0 1795;
   date_text_in (mkdate 2020 1 1) 7 1885;
   str_in channels; str_in campaign_types; str_in target_audiences;
   str_in ad_formats; str_in objectives;
   float_in 1000 2000000; float_in 500 2000000;
   int_in 1000 1000000; int_in 10 100000; int_in 0 20000;
   float_in 0 10; float_in 0 20; is_float; float_or_zero;
   float_in 0 20000000; is_float;
   str_in regions; is_bool; variant_like; float_in 0 100].


(** The data rows of a file, one per index of the loop, each in the schema
    of its index. *)
Definition rows_in_schema (schema : Z -> list (pyval -> Prop))
           (header : row) (first last : Z) (file : list row) : Prop :=
  exists rows,
    file = header :: rows
    /\ Forall2 (fun i r => Forall2 blank_or (schema i) r)
               (py_range first last) rows.

(** ** The sales amounts in binary64

    Lines 41-57 once more, with the arithmetic of the doubles, for the
    property that depends on it.  IEEE 754 gives every operation as its exact
    result rounded to the nearest double, ties to even; a double is the
    rational it denotes.  The amounts of the script stay far from overflow
    and from the subnormal range, which are left out. *)

Definition pow2 (e : Z) : Q := Qpower 2 e.

(** [floor(log2 |x|)], for [x] other than zero. *)
Definition binade (x : Q) : Z :=
  let l := Z.log2 (Z.abs (Qnum x)) - Z.log2 (Zpos (Qden x)) in
  if Qle_bool (pow2 l) (Qabs x) then l else l - 1.

(** The double nearest to [x]: 53 significant bits, ties to even. *)
Definition f64 (x : Q) : Q :=
  if Qeq_bool x 0 then 0%Q
  else
    let ulp := pow2 (binade x - 52) in
    Qred (inject_Z (round_half_even (x / ulp)) * ulp).

Definition fadd (x y : Q) : Q := f64 (x + y).
Definition fsub (x y : Q) : Q := f64 (x - y).
Definition fmul (x y : Q) : Q := f64 (x * y).
Definition fdiv (x y : Q) : Q := f64 (x / y).

(** [round(x, ndigits)] on a double: the decimal nearest to the exact value
    of [x], ties to even, then the double nearest to that decimal. *)
Definition round_f64 (ndigits : nat) (x : Q) : Q := f64 (py_round ndigits x).

(** Lines 46 and 57:
    [round(sales_amount - (sales_amount * discount / 100) + tax + shipping, 2)]. *)
Definition sales_total_f64
           (sales_amount : Q) (discount : Z) (tax shipping : Q) : Q :=
  round_f64 2
    (fadd
       (fadd
          (fsub sales_amount
                (fdiv (fmul sales_amount (inject_Z discount)) 100))
          tax)
       shipping).

(** The formula as the specification words it, in the same arithmetic:
    [round(sales * (1 - discount / 100) + tax + shipping, 2)]. *)
Definition spec_total_f64
           (sales : Q) (discount : Z) (tax shipping : Q) : Q :=
  round_f64 2
    (fadd
       (fadd (fmul sales (fsub 1 (fdiv (inject_Z discount) 100))) tax)
       shipping).

Section Binary64Sales.

Context (R : RandomSource).

Local Notation "x <- c1 ;; c2" := (bind c1 (fun x => c2))
  (at level 61, c1 at next level, right associativity).

(** [uniform(a, b)] on two ints: [a + (b - a) * random()]. *)
Definition uniform_f64 (a b : Z) : M R Q :=
  u <- random R ;;
  ret (fadd (inject_Z a) (fmul (inject_Z (b - a)) u)).

(** Lines 40-59, as [sales_sample], the amounts in binary64. *)
Definition sales_sample_f64 (i : Z) : M R sales_fields :=
  date <- random_date R (mkdate 2020 1 1) (mkdate 2024 12 31) ;;
  u <- uniform_f64 10 5000 ;;
  let sales_amount := round_f64 2 u in
  quantity <- randint R 1 20 ;;
  discount <- choice [0; 5; 10; 15; 20; 25; 30] ;;
  let tax := round_f64 2 (fmul sales_amount (f64 (8 # 100))) in
  u <- uniform_f64 0 50 ;;
  let shipping := round_f64 2 u in
  let total := sales_total_f64 sales_amount discount tax shipping in
  r <- random R ;;
  transaction_id <-
    (if andb (Qltb r (2 # 100)) (100 <? i) then randint R 1 (i - 1)
     else ret i) ;;
  r <- random R ;;
  amounts <-
    (if Qltb r (1 # 100) then
       u <- uniform_f64 10000 50000 ;;
       let sales_amount := round_f64 2 u in
       ret (sales_amount, sales_total_f64 sales_amount discount tax shipping)
     else ret (sales_amount, total)) ;;
  let season := season_of (month date) in
  ret {| s_date := date; s_sales_amount := fst amounts;
         s_quantity := quantity; s_discount := discount; s_tax := tax;
         s_shipping := shipping; s_total := snd amounts;
         s_transaction_id := transaction_id; s_season := season |}.

Definition sales_row_f64 (i : Z) : M R row :=
  f <- sales_sample_f64 i ;;
  sales_cells R f.

End Binary64Sales.

(** A plain sales row: [random()] answers 105/2^20 for the sales amount
    (10.5 once rounded), the discount is 15, and [random()] answers 0.0 for
    the shipping cost. *)
Definition cent_tape : list draw :=
  [K 100; U (105 # 1048576); K 3; K 3; U 0; kept; kept] ++ sales_cells_tape.

(** The unit roundoff of binary64, [2^-53]. *)
Definition u53 : Q := 1 # 9007199254740992.

Definition magnitude (B x : Q) : Prop := (- B <= x)%Q /\ (x <= B)%Q.

(** What holds of the amounts when [writerow] is reached. *)
Definition sales_fields_f64_ok (f : sales_fields) : Prop :=
  magnitude 100000 (s_sales_amount f)
  /\ 0 <= s_discount f <= 100
  /\ magnitude 100000 (s_tax f)
  /\ magnitude 100000 (s_shipping f)
  /\ s_total f
     = sales_total_f64 (s_sales_amount f) (s_discount f) (s_tax f)
         (s_shipping f).

(** * Properties *)

(** ** Reasoning about generator computations *)

Section PostRules.

Context {R : RandomSource}.

Lemma post_ret {A} (a : A) (P : A -> Prop) : P a -> post (R := R) (ret a) P.
Proof. intros H g. exists a, g. split; [reflexivity | exact H]. Qed.

Lemma post_bind {A B} (m : M R A) (k : A -> M R B)
      (P : A -> Prop) (Q : B -> Prop) :
  post m P -> (forall a, P a -> post (k a) Q) -> post (bind m k) Q.
Proof.
  intros Hm Hk g. destruct (Hm g) as (a & g1 & E & Ha).
  destruct (Hk a Ha g1) as (b & g2 & E2 & Hb).
  exists b, g2. unfold bind. rewrite E. split; assumption.
Qed.

Lemma post_weaken {A} (m : M R A) (P Q : A -> Prop) :
  post m P -> (forall a, P a -> Q a) -> post m Q.
Proof.
  intros Hm HPQ g. destruct (Hm g) as (a & g1 & E & Ha).
  exists a, g1. split; [exact E | apply HPQ; exact Ha].
Qed.

Lemma post_random :
  post (R := R) (random R) (fun u => (0 <= u)%Q /\ (u < 1)%Q).
Proof.
  intro g. unfold random. destruct (rs_random R g) as [u g1] eqn:E.
  exists u, g1. split; [reflexivity |].
  pose proof (rs_random_range R g) as H. rewrite E in H. exact H.
Qed.

Lemma post_randbelow (n : Z) :
  0 < n -> post (R := R) (randbelow R n) (fun k => 0 <= k < n).
Proof.
  intros Hn g. unfold randbelow. destruct (rs_randbelow R n g) as [k g1] eqn:E.
  exists k, g1. split; [reflexivity |].
  pose proof (rs_randbelow_range R n g Hn) as H. rewrite E in H. exact H.
Qed.

Lemma post_uniform (a b : Q) :
  (a <= b)%Q ->
  post (R := R) (uniform R a b) (fun x => (a <= x)%Q /\ (x <= b)%Q).
Proof.
  intro Hab. unfold uniform. eapply post_bind; [apply post_random |].
  intros u [H0 H1]. apply post_ret.
  assert (Hlo : (0 <= (b - a) * u)%Q) by (apply Qmult_le_0_compat; lra).
  assert (Hhi : ((b - a) * u <= (b - a) * 1)%Q).
  { rewrite (Qmult_comm (b - a) u), (Qmult_comm (b - a) 1).
    apply Qmult_le_compat_r; lra. }
  split; lra.
Qed.

Lemma post_randint (a b : Z) :
  a <= b -> post (R := R) (randint R a b) (fun z => a <= z <= b).
Proof.
  intro Hab. unfold randint, randrange. cbv zeta.
  destruct (0 <? b + 1 - a) eqn:E; [| apply Z.ltb_ge in E; lia].
  apply Z.ltb_lt in E.
  eapply post_bind; [apply post_randbelow; exact E |].
  intros k Hk. cbv beta in Hk. apply post_ret. lia.
Qed.

Lemma post_choice {A} (seq : list A) :
  seq <> [] -> post (R := R) (choice seq) (fun v => In v seq).
Proof.
  intro Hne. destruct seq as [| d rest]; [congruence |].
  unfold choice. eapply post_bind.
  - apply post_randbelow. simpl List.length. lia.
  - intros k Hk. cbv beta in Hk. apply post_ret. apply nth_In. lia.
Qed.

Lemma post_add_missing_values (v : pyval) (rate : Q) :
  post (R := R) (add_missing_values R v rate) (kept_or_blank v).
Proof.
  unfold add_missing_values. eapply post_bind; [apply post_random |].
  intros u _. apply post_ret. unfold kept_or_blank.
  destruct (Qltb u rate); [right | left]; reflexivity.
Qed.

Lemma post_py_div (x y : Q) :
  ~ (y == 0)%Q -> post (R := R) (lift R (py_div x y)) (fun q => q = (x / y)%Q).
Proof.
  intros Hy g. unfold lift, py_div.
  destruct (Qeq_bool y 0) eqn:E; [apply Qeq_bool_iff in E; contradiction |].
  exists (x / y)%Q, g. split; reflexivity.
Qed.

Lemma post_for_each {A B} (body : A -> M R B) (P : A -> B -> Prop)
      (xs : list A) :
  (forall x, In x xs -> post (body x) (P x)) ->
  post (for_each body xs) (fun rs => Forall2 P xs rs).
Proof.
  induction xs as [| x xs IH]; intro H; simpl.
  - apply post_ret. constructor.
  - eapply post_bind; [apply H; left; reflexivity |].
    intros r Hr. eapply post_bind; [apply IH; intros; apply H; right; assumption |].
    intros rs Hrs. apply post_ret. constructor; assumption.
Qed.

End PostRules.

(** ** Rounding *)

Lemma round_half_even_cases (x : Q) :
  round_half_even x = Qfloor x
  \/ (round_half_even x = Qfloor x + 1 /\ (inject_Z (Qfloor x) < x)%Q).
Proof.
  unfold round_half_even.
  destruct (Qcompare_spec (x - inject_Z (Qfloor x)) (1 # 2)) as [H | H | H].
  - destruct (Z.even (Qfloor x)); [left; reflexivity |].
    right. split; [reflexivity | lra].
  - left. reflexivity.
  - right. split; [reflexivity | lra].
Qed.

Lemma round_half_even_lower (x : Q) (n : Z) :
  (inject_Z n <= x)%Q -> n <= round_half_even x.
Proof.
  intro H. apply Qfloor_resp_le in H. rewrite Qfloor_Z in H.
  destruct (round_half_even_cases x) as [E | [E _]]; lia.
Qed.

Lemma round_half_even_upper (x : Q) (n : Z) :
  (x <= inject_Z n)%Q -> round_half_even x <= n.
Proof.
  intro H. pose proof (Qfloor_le x) as Hf.
  destruct (round_half_even_cases x) as [E | [E Hlt]]; rewrite E.
  - rewrite Zle_Qle. lra.
  - assert (Hn : (inject_Z (Qfloor x) < inject_Z n)%Q) by lra.
    rewrite <- Zlt_Qlt in Hn. lia.
Qed.

Lemma round_half_even_comp (x y : Q) :
  (x == y)%Q -> round_half_even x = round_half_even y.
Proof.
  intro H. unfold round_half_even.
  rewrite (Qfloor_comp x y H).
  assert (E : (x - inject_Z (Qfloor y) == y - inject_Z (Qfloor y))%Q)
    by (rewrite H; reflexivity).
  rewrite (Qcompare_comp _ _ E (1 # 2) (1 # 2) (Qeq_refl _)). reflexivity.
Qed.

Lemma py_round_comp (nd : nat) (x y : Q) :
  (x == y)%Q -> py_round nd x = py_round nd y.
Proof.
  intro H. unfold py_round. f_equal.
  apply round_half_even_comp. rewrite H. reflexivity.
Qed.

(** Rounding keeps a value on its side of a bound that is itself a multiple
    of the rounding step. *)
Lemma py_round_ge (nd : nat) (n : Z) (q x : Q) :
  (q == n # Pos.pow 10 (Pos.of_nat nd))%Q ->
  (q <= x)%Q -> (q <= py_round nd x)%Q.
Proof.
  intros Hq Hx. rewrite Hq. rewrite Hq in Hx. unfold py_round.
  set (p := Pos.pow 10 (Pos.of_nat nd)) in *.
  assert (Hn : n <= round_half_even (x * inject_Z (Zpos p))).
  { apply round_half_even_lower.
    unfold Qle in *. simpl in *. nia. }
  unfold Qle. simpl. nia.
Qed.

Lemma py_round_le (nd : nat) (n : Z) (q x : Q) :
  (q == n # Pos.pow 10 (Pos.of_nat nd))%Q ->
  (x <= q)%Q -> (py_round nd x <= q)%Q.
Proof.
  intros Hq Hx. rewrite Hq. rewrite Hq in Hx. unfold py_round.
  set (p := Pos.pow 10 (Pos.of_nat nd)) in *.
  assert (Hn : round_half_even (x * inject_Z (Zpos p)) <= n).
  { apply round_half_even_upper.
    unfold Qle in *. simpl in *. nia. }
  unfold Qle. simpl. nia.
Qed.

Lemma round_half_even_near (x : Q) :
  (inject_Z (round_half_even x) - (1 # 2) <= x)%Q
  /\ (x <= inject_Z (round_half_even x) + (1 # 2))%Q.
Proof.
  pose proof (Qfloor_le x) as Hlo. pose proof (Qlt_floor x) as Hhi.
  rewrite inject_Z_plus in Hhi. change (inject_Z 1) with 1%Q in Hhi.
  unfold round_half_even.
  destruct (Qcompare_spec (x - inject_Z (Qfloor x)) (1 # 2)) as [H | H | H].
  - destruct (Z.even (Qfloor x)).
    + split; lra.
    + rewrite inject_Z_plus. change (inject_Z 1) with 1%Q. split; lra.
  - split; lra.
  - rewrite inject_Z_plus. change (inject_Z 1) with 1%Q. split; lra.
Qed.

(** Rounding to two decimals moves a value by at most half a hundredth. *)
Lemma py_round_2_near (x : Q) :
  (py_round 2 x - (1 # 200) <= x)%Q /\ (x <= py_round 2 x + (1 # 200))%Q.
Proof.
  destruct (round_half_even_near (x * inject_Z 100)) as [H1 H2].
  unfold py_round. change (Pos.pow 10 (Pos.of_nat 2)) with 100%positive.
  set (r := round_half_even (x * inject_Z 100)) in *.
  assert (E : (r # 100 == inject_Z r * (1 # 100))%Q).
  { unfold Qeq, Qmult, inject_Z. simpl. lia. }
  rewrite E. change (inject_Z 100) with 100%Q in *.
  clearbody r. split; lra.
Qed.

(** ** Ranges of the sampled amounts *)

Section Ranges.

Context {R : RandomSource}.

Lemma post_round_uniform (nd : nat) (na nb : Z) (a b : Q) :
  (a == na # Pos.pow 10 (Pos.of_nat nd))%Q ->
  (b == nb # Pos.pow 10 (Pos.of_nat nd))%Q ->
  (a <= b)%Q ->
  post (R := R) (bind (uniform R a b) (fun u => ret (py_round nd u)))
       (fun v => (a <= v)%Q /\ (v <= b)%Q).
Proof.
  intros Ha Hb Hab. eapply post_bind; [apply post_uniform; exact Hab |].
  intros u [Hlo Hhi]. apply post_ret. split.
  - apply (py_round_ge nd na); assumption.
  - apply (py_round_le nd nb); assumption.
Qed.

Lemma sales_amount_normal_range :
  post (sales_amount_normal R) (fun v => (10 <= v)%Q /\ (v <= 5000)%Q).
Proof.
  apply (post_round_uniform 2 1000 500000); [reflexivity | reflexivity | lra].
Qed.

Lemma sales_amount_outlier_range :
  post (sales_amount_outlier R) (fun v => (10000 <= v)%Q /\ (v <= 50000)%Q).
Proof.
  apply (post_round_uniform 2 1000000 5000000); [reflexivity | reflexivity | lra].
Qed.

Lemma lifetime_value_outlier_range :
  post (lifetime_value_outlier R)
       (fun v => (50000 <= v)%Q /\ (v <= 200000)%Q).
Proof.
  apply (post_round_uniform 2 5000000 20000000); [reflexivity | reflexivity | lra].
Qed.

Lemma lifetime_value_normal_range (total_orders : Z) (avg_order : Q) :
  0 <= total_orders <= 200 -> (20 <= avg_order)%Q -> (avg_order <= 500)%Q ->
  (0 <= lifetime_value_normal total_orders avg_order)%Q
  /\ (lifetime_value_normal total_orders avg_order <= 100000)%Q.
Proof.
  intros [H0 H200] Hlo Hhi. unfold lifetime_value_normal.
  assert (Q0 : (0 <= inject_Z total_orders)%Q)
    by (unfold Qle; simpl; lia).
  assert (Q200 : (inject_Z total_orders <= 200)%Q)
    by (unfold Qle; simpl; lia).
  split.
  - apply (py_round_ge 2 0); [reflexivity |].
    apply Qmult_le_0_compat; lra.
  - apply (py_round_le 2 10000000); [reflexivity |].
    apply Qle_trans with (200 * avg_order)%Q; [| lra].
    apply Qmult_le_compat_r; lra.
Qed.

Lemma cost_price_range :
  post (cost_price R) (fun v => (5 <= v)%Q /\ (v <= 500)%Q).
Proof.
  apply (post_round_uniform 2 500 50000); [reflexivity | reflexivity | lra].
Qed.

Lemma selling_normal_range (cost : Q) :
  (5 <= cost)%Q -> (cost <= 500)%Q ->
  post (selling_normal R cost) (fun v => (6 <= v)%Q /\ (v <= 1500)%Q).
Proof.
  intros Hlo Hhi. unfold selling_normal.
  eapply post_bind; [apply post_uniform; lra |].
  intros u [Hu1 Hu2]. apply post_ret. split.
  - apply (py_round_ge 2 600); [reflexivity |].
    apply Qle_trans with (5 * u)%Q; [lra |].
    apply Qmult_le_compat_r; lra.
  - apply (py_round_le 2 150000); [reflexivity |].
    apply Qle_trans with (500 * u)%Q; [| lra].
    apply Qmult_le_compat_r; lra.
Qed.

Lemma selling_outlier_range :
  post (selling_outlier R) (fun v => (5000 <= v)%Q /\ (v <= 20000)%Q).
Proof.
  apply (post_round_uniform 2 500000 2000000); [reflexivity | reflexivity | lra].
Qed.

Lemma budget_normal_range :
  post (budget_normal R) (fun v => (1000 <= v)%Q /\ (v <= 100000)%Q).
Proof.
  apply (post_round_uniform 2 100000 10000000); [reflexivity | reflexivity | lra].
Qed.

Lemma budget_outlier_range :
  post (budget_outlier R) (fun v => (500000 <= v)%Q /\ (v <= 2000000)%Q).
Proof.
  apply (post_round_uniform 2 50000000 200000000);
    [reflexivity | reflexivity | lra].
Qed.

End Ranges.

(** ** Ranges of integers, dates *)

Lemma length_py_range (a b : Z) :
  List.length (py_range a b) = Z.to_nat (b - a).
Proof. unfold py_range. rewrite length_map, length_seq. reflexivity. Qed.

Lemma In_py_range (a b x : Z) : In x (py_range a b) <-> a <= x < b.
Proof.
  unfold py_range. rewrite in_map_iff. split.
  - intros (k & E & Hk). apply in_seq in Hk. lia.
  - intro H. exists (Z.to_nat (x - a)). split; [lia |].
    apply in_seq. lia.
Qed.



Lemma signup_days_roundtrip : forallb roundtrips signup_days = true.
Proof. vm_compute. reflexivity. Qed.

Lemma signup_days_all (n : Z) : In n signup_days -> roundtrips n = true.
Proof. apply forallb_forall. exact signup_days_roundtrip. Qed.

Lemma In_signup_days (n : Z) : 736695 <= n <= 739251 -> In n signup_days.
Proof. intro H. unfold signup_days. apply In_py_range. lia. Qed.

Lemma roundtrips_eq (n : Z) : roundtrips n = true -> ymd2ord (ord2ymd n) = n.
Proof. unfold roundtrips. intro H. apply Z.eqb_eq. exact H. Qed.

(** Every day from 2018-01-01 to 2024-12-31 is recovered from its date. *)
Lemma ordinal_roundtrip (n : Z) :
  736695 <= n <= 739251 -> ymd2ord (ord2ymd n) = n.
Proof.
  intro H. apply roundtrips_eq. apply signup_days_all. apply In_signup_days.
  exact H.
Qed.

Section DateRules.

Context {R : RandomSource}.

Lemma post_random_date (start_date end_date : date) :
  ymd2ord start_date <= ymd2ord end_date ->
  post (R := R) (random_date R start_date end_date)
       (fun d => exists k, 0 <= k <= days_between start_date end_date
                           /\ d = add_days start_date k).
Proof.
  intro H. unfold random_date. cbv zeta.
  eapply post_bind; [apply post_randint; unfold days_between; lia |].
  intros k Hk. cbv beta in Hk. apply post_ret. exists k. split; [exact Hk | reflexivity].
Qed.

End DateRules.

(** ** The sales rows *)

Ltac post_step rule :=
  eapply post_bind; [rule | intros ? ?; cbv beta in *].

Tactic Notation "post_bind_as" ident(x) ident(H) "by" tactic(rule) :=
  eapply post_bind; [rule | intros x H; cbv beta in H].

Ltac post_cell :=
  first
    [ post_step ltac:(apply post_add_missing_values)
    | post_step ltac:(apply post_randint; lia)
    | post_step ltac:(apply post_choice; discriminate)
    | post_step ltac:(apply post_uniform; lra) ].

Section SalesRules.

Context {R : RandomSource}.

Lemma post_sales_sample (i : Z) :
  post (sales_sample R i) (sales_fields_ok i).
Proof.
  unfold sales_sample.
  post_bind_as d Hd by (apply post_random_date; vm_compute; discriminate).
  post_bind_as s Hs by (apply sales_amount_normal_range).
  post_bind_as q Hq by (apply post_randint; lia).
  post_bind_as dc Hdc by (apply post_choice; discriminate).
  cbv zeta.
  post_bind_as u Hu by (apply post_uniform; lra).
  post_bind_as r Hr by (apply post_random).
  eapply post_bind with
    (P := fun t => t = i \/ (100 < i /\ 1 <= t <= i - 1)).
  { destruct (Qltb r (2 # 100)); simpl andb.
    - destruct (100 <? i) eqn:Ei.
      + apply Z.ltb_lt in Ei.
        eapply post_weaken; [apply post_randint; lia |].
        intros t Ht. cbv beta in Ht. right. lia.
      + apply post_ret. left. reflexivity.
    - apply post_ret. left. reflexivity. }
  intros t Ht.
  post_bind_as r' Hr' by (apply post_random).
  eapply post_bind with
    (P := fun amounts : Q * Q =>
            snd amounts
            = sales_total (fst amounts) dc (py_round 2 (s * (8 # 100)))
                (py_round 2 u)).
  { destruct (Qltb r' (1 # 100)).
    - post_bind_as s' Hs' by (apply sales_amount_outlier_range).
      apply post_ret. reflexivity.
    - apply post_ret. reflexivity. }
  intros amounts Ha. apply post_ret.
  split; [exact Ha |]. split; [exact Ht |]. simpl.
  apply (py_round_le 2 40000); [reflexivity | lra].
Qed.

Lemma post_sales_cells (f : sales_fields) :
  post (sales_cells R f) (sales_cells_ok f).
Proof.
  unfold sales_cells. repeat post_cell.
  apply post_ret. unfold sales_cells_ok, cell. simpl.
  repeat split; assumption.
Qed.

Lemma post_sales_row (i : Z) :
  post (sales_row R i)
       (fun r => exists f, sales_fields_ok i f /\ sales_cells_ok f r).
Proof.
  unfold sales_row.
  post_bind_as f Hf by (apply post_sales_sample).
  eapply post_weaken; [apply post_sales_cells |].
  intros r Hr. exists f. split; assumption.
Qed.

End SalesRules.

(** ** The sales total *)

Lemma kept_not_blank (v c : pyval) :
  kept_or_blank v c -> c <> VStr "" -> c = v.
Proof. intros [H | H] Hne; [exact H | contradiction]. Qed.

(** *** Rounding to the nearest double *)

Lemma pow2_pos (e : Z) : (0 < pow2 e)%Q.
Proof. unfold pow2. apply Qpower_0_lt. reflexivity. Qed.

Lemma pow2_nat (a : Z) : 0 <= a -> (pow2 a == inject_Z (2 ^ a))%Q.
Proof. intro H. unfold pow2. rewrite Zpower_Qpower by exact H. reflexivity. Qed.

(** The power of two that [binade] names is not above the value. *)
Lemma binade_le (x : Q) : ~ (x == 0)%Q -> (pow2 (binade x) <= Qabs x)%Q.
Proof.
  intro Hx. unfold binade.
  set (n := Z.abs (Qnum x)). set (d := Zpos (Qden x)).
  set (l := Z.log2 n - Z.log2 d). cbv zeta.
  destruct (Qle_bool (pow2 l) (Qabs x)) eqn:E; [apply Qle_bool_iff; exact E |].
  assert (Hn : 0 < n).
  { unfold n. destruct x as [[| p | p] q]; simpl; try lia.
    exfalso. apply Hx. reflexivity. }
  assert (Hd : 0 < d) by (unfold d; lia).
  pose proof (Z.log2_spec n Hn) as [Ha _].
  pose proof (Z.log2_spec d Hd) as [_ Hb].
  pose proof (Z.log2_nonneg n) as Ha0. pose proof (Z.log2_nonneg d) as Hb0.
  set (a := Z.log2 n) in *. set (b := Z.log2 d) in *.
  replace (l - 1) with (a - Z.succ b) by (unfold l; lia).
  unfold pow2. rewrite Qpower_minus by discriminate.
  fold (pow2 a). fold (pow2 (Z.succ b)).
  rewrite (pow2_nat a) by lia. rewrite (pow2_nat (Z.succ b)) by lia.
  assert (HB : 0 < 2 ^ Z.succ b) by (apply Z.pow_pos_nonneg; lia).
  assert (HA : 0 < 2 ^ a) by (apply Z.pow_pos_nonneg; lia).
  destruct (2 ^ Z.succ b) as [| B | B] eqn:EB; try lia.
  rewrite <- Qmake_Qdiv.
  destruct x as [xn xd]. unfold Qabs. fold n. unfold d in *. simpl Qden in *.
  unfold Qle. simpl Qnum. simpl Qden. change (Z.abs xn) with n.
  set (A := 2 ^ a) in *. clearbody n A.
  apply Z.le_trans with (A * Z.pos B); [apply Z.mul_le_mono_nonneg_l; lia |].
  apply Z.mul_le_mono_nonneg_r; lia.
Qed.

(** The relative error of a rounding is at most [2^-53]. *)
Lemma f64_near_rel (x : Q) :
  (x - Qabs x * u53 <= f64 x)%Q /\ (f64 x <= x + Qabs x * u53)%Q.
Proof.
  unfold f64. destruct (Qeq_bool x 0) eqn:E.
  - apply Qeq_bool_iff in E.
    assert (E' : (Qabs x == 0)%Q) by (rewrite E; reflexivity).
    unfold u53. set (ax := Qabs x) in *. clearbody ax. split; lra.
  - assert (Hx : ~ (x == 0)%Q).
    { intro H. apply Qeq_bool_iff in H. congruence. }
    cbv zeta. rewrite Qred_correct.
    pose proof (binade_le x Hx) as Hb.
    pose proof (pow2_pos (binade x - 52)) as Hu.
    assert (Eu : (pow2 (binade x - 52)
                  == pow2 (binade x) * (1 # 4503599627370496))%Q).
    { unfold pow2. rewrite Qpower_minus by discriminate. reflexivity. }
    set (ulp := pow2 (binade x - 52)) in *.
    destruct (round_half_even_near (x / ulp)) as [H1 H2].
    set (n := inject_Z (round_half_even (x / ulp))) in *.
    assert (Ey : (x == x / ulp * ulp)%Q) by (field; lra).
    set (y := (x / ulp)%Q) in *.
    assert (K1 : ((n - (1 # 2)) * ulp <= y * ulp)%Q)
      by (apply Qmult_le_compat_r; lra).
    assert (K2 : (y * ulp <= (n + (1 # 2)) * ulp)%Q)
      by (apply Qmult_le_compat_r; lra).
    unfold u53.
    set (p := pow2 (binade x)) in *. set (ax := Qabs x) in *.
    clearbody n y p ax ulp.
    split; lra.
Qed.

Lemma f64_near (B x : Q) :
  (- B <= x)%Q -> (x <= B)%Q ->
  (x - B * u53 <= f64 x)%Q /\ (f64 x <= x + B * u53)%Q.
Proof.
  intros H1 H2. destruct (f64_near_rel x) as [K1 K2].
  assert (Ha : (Qabs x <= B)%Q) by (apply Qabs_Qle_condition; split; assumption).
  unfold u53 in *. set (ax := Qabs x) in *. clearbody ax. split; lra.
Qed.

Lemma Qmult_within (A B a b : Q) :
  (- A <= a)%Q -> (a <= A)%Q -> (- B <= b)%Q -> (b <= B)%Q ->
  (- (A * B) <= a * b)%Q /\ (a * b <= A * B)%Q.
Proof. intros H1 H2 H3 H4. split; nra. Qed.

Lemma Qmult_share (w u : Q) :
  (0 <= w)%Q -> (0 <= u)%Q -> (u <= 1)%Q -> (0 <= w * u)%Q /\ (w * u <= w)%Q.
Proof. intros H1 H2 H3. split; nra. Qed.

Ltac forget_bodies :=
  repeat match goal with x := _ |- _ => clearbody x end.

Ltac linear := unfold u53 in *; forget_bodies; lra.

(** Name [f64 x] as [y] and bound it from the magnitude [B] of [x]. *)
Ltac near B x y :=
  let H1 := fresh "Hlo" in
  let H2 := fresh "Hhi" in
  destruct (f64_near B x) as [H1 H2]; [linear | linear |];
  set (y := f64 x) in *.

(** Name [x / 100] as [w], with its linear form [E]. *)
Ltac hundredth x w E :=
  assert (E : (x / 100 == x * (1 # 100))%Q) by field;
  set (w := (x / 100)%Q) in *.

(** Two values half a hundredth apart round to cents one apart at most. *)
Lemma cents_apart (n m : Z) (x y : Q) :
  (x - y <= 1 # 200)%Q -> (y - x <= 1 # 200)%Q ->
  n = round_half_even (x * inject_Z 100) ->
  m = round_half_even (y * inject_Z 100) ->
  -1 <= n - m <= 1.
Proof.
  intros H1 H2 -> ->.
  destruct (round_half_even_near (x * inject_Z 100)) as [X1 X2].
  destruct (round_half_even_near (y * inject_Z 100)) as [Y1 Y2].
  set (n := round_half_even (x * inject_Z 100)) in *.
  set (m := round_half_even (y * inject_Z 100)) in *.
  change (inject_Z 100) with 100%Q in *.
  assert (K1 : (inject_Z n - inject_Z m < 2)%Q) by (clearbody n m; lra).
  assert (K2 : (inject_Z m - inject_Z n < 2)%Q) by (clearbody n m; lra).
  clearbody n m. unfold Qlt, Qminus, Qplus, Qopp, inject_Z in K1, K2.
  simpl in K1, K2. lia.
Qed.

(** The expression of the code and the formula of the specification are the
    same polynomial; evaluated in doubles they land within a few roundings
    of each other, so their cents differ by one at most. *)
Lemma totals_within_a_cent (s : Q) (d : Z) (t sh : Q) :
  (- (100000) <= s)%Q -> (s <= 100000)%Q -> 0 <= d <= 100 ->
  (- (100000) <= t)%Q -> (t <= 100000)%Q ->
  (- (100000) <= sh)%Q -> (sh <= 100000)%Q ->
  exists n m,
    sales_total_f64 s d t sh = f64 (n # 100)
    /\ spec_total_f64 s d t sh = f64 (m # 100)
    /\ -1 <= n - m <= 1.
Proof.
  intros Hs1 Hs2 Hd Ht1 Ht2 Hh1 Hh2.
  unfold sales_total_f64, spec_total_f64, round_f64, py_round.
  change (Pos.pow 10 (Pos.of_nat 2)) with 100%positive.
  change (inject_Z (Z.pos 100)) with (inject_Z 100).
  eexists. eexists. split; [reflexivity |]. split; [reflexivity |].
  assert (Hd1 : (0 <= inject_Z d)%Q) by (unfold Qle; simpl; lia).
  assert (Hd2 : (inject_Z d <= 100)%Q) by (unfold Qle; simpl; lia).
  set (D := inject_Z d) in *.
  unfold fadd, fsub, fmul, fdiv.
  (* the expression of the code *)
  destruct (Qmult_within 100000 100 s D) as [P1 P2]; try linear.
  set (P := (s * D)%Q) in *.
  near 10000000%Q P p1.
  hundredth p1 w1 Ew1.
  near 200000%Q w1 q1.
  near 400000%Q (s - q1)%Q r1.
  near 600000%Q (r1 + t)%Q a1.
  near 800000%Q (a1 + sh)%Q a2.
  (* the formula of the specification *)
  hundredth D w2 Ew2.
  near 1%Q w2 c.
  near 4%Q (1 - c)%Q m1.
  set (eta := (m1 - (1 - w2))%Q).
  assert (Heta : (- (8 * u53) <= eta)%Q /\ (eta <= 8 * u53)%Q)
    by (unfold eta; split; linear).
  destruct Heta as [J1 J2].
  destruct (Qmult_within 100000 (8 * u53) s eta) as [K1 K2]; try linear.
  assert (ES : (s * m1 == s - P * (1 # 100) + s * eta)%Q)
    by (unfold eta, P; rewrite Ew2; ring).
  set (se := (s * eta)%Q) in *.
  set (S := (s * m1)%Q) in *.
  near 400000%Q S z.
  near 600000%Q (z + t)%Q b1.
  near 800000%Q (b1 + sh)%Q b2.
  eapply cents_apart; [| | reflexivity | reflexivity]; linear.
Qed.

Lemma round_f64_magnitude (B x : Q) :
  (1 <= B)%Q -> (B <= 90000)%Q -> magnitude B x ->
  magnitude (B + 1) (round_f64 2 x).
Proof.
  intros HB1 HB2 [H1 H2]. unfold round_f64.
  destruct (py_round_2_near x) as [K1 K2].
  set (y := py_round 2 x) in *.
  near 100000%Q y z. split; linear.
Qed.

Section Binary64Rules.

Context {R : RandomSource}.

Lemma post_uniform_f64 (a b : Z) :
  0 <= a <= b -> b <= 50000 ->
  post (uniform_f64 R a b) (magnitude 50001).
Proof.
  intros Hab Hb. unfold uniform_f64.
  post_bind_as u Hu by (apply post_random).
  apply post_ret. destruct Hu as [Hu0 Hu1]. unfold fadd, fmul.
  assert (Ha1 : (0 <= inject_Z a)%Q) by (unfold Qle; simpl; lia).
  assert (Hw1 : (0 <= inject_Z (b - a))%Q) by (unfold Qle; simpl; lia).
  assert (Hw2 : (inject_Z a + inject_Z (b - a) <= 50000)%Q).
  { rewrite <- inject_Z_plus. unfold Qle; simpl; lia. }
  set (A := inject_Z a) in *. set (W := inject_Z (b - a)) in *.
  destruct (Qmult_share W u) as [P1 P2]; try linear.
  set (P := (W * u)%Q) in *.
  near 50000%Q P x1.
  near 50001%Q (A + x1)%Q x2.
  split; linear.
Qed.

Lemma post_sales_sample_f64 (i : Z) :
  post (sales_sample_f64 R i) sales_fields_f64_ok.
Proof.
  unfold sales_sample_f64.
  post_bind_as d Hd by (apply post_random_date; vm_compute; discriminate).
  post_bind_as u Hu by (apply post_uniform_f64; lia).
  cbv zeta.
  post_bind_as q Hq by (apply post_randint; lia).
  post_bind_as dc Hdc by (apply post_choice; discriminate).
  post_bind_as u' Hu' by (apply post_uniform_f64; lia).
  post_bind_as r Hr by (apply post_random).
  eapply post_bind with (P := fun _ => True).
  { destruct (Qltb r (2 # 100)); simpl andb.
    - destruct (100 <? i) eqn:Ei.
      + apply Z.ltb_lt in Ei.
        eapply post_weaken; [apply post_randint; lia |]. intros; exact I.
      + apply post_ret. exact I.
    - apply post_ret. exact I. }
  intros t _.
  pose proof (round_f64_magnitude 50001 u ltac:(lra) ltac:(lra) Hu) as Hs.
  pose proof (round_f64_magnitude 50001 u' ltac:(lra) ltac:(lra) Hu') as Hsh.
  set (s := round_f64 2 u) in *. set (sh := round_f64 2 u') in *.
  assert (Ht : magnitude 100000 (round_f64 2 (fmul s (f64 (8 # 100))))).
  { destruct Hs as [Hs1 Hs2]. unfold fmul.
    assert (Hc : (0 <= f64 (8 # 100))%Q /\ (f64 (8 # 100) <= 1)%Q)
      by (split; vm_compute; discriminate).
    destruct Hc as [Hc1 Hc2]. set (c := f64 (8 # 100)) in *.
    destruct (Qmult_within 50002 1 s c) as [P1 P2]; try linear.
    set (P := (s * c)%Q) in *.
    near 50002%Q P x.
    assert (Hx : magnitude 50003 x) by (split; linear).
    destruct (round_f64_magnitude 50003 x ltac:(lra) ltac:(lra) Hx) as [T1 T2].
    split; linear. }
  set (tax := round_f64 2 (fmul s (f64 (8 # 100)))) in *.
  assert (Hdc' : 0 <= dc <= 100)
    by (simpl in Hdc; intuition (subst; lia)).
  post_bind_as r' Hr' by (apply post_random).
  eapply post_bind with
    (P := fun amounts : Q * Q =>
            magnitude 100000 (fst amounts)
            /\ snd amounts = sales_total_f64 (fst amounts) dc tax sh).
  { destruct (Qltb r' (1 # 100)).
    - post_bind_as u'' Hu'' by (apply post_uniform_f64; lia).
      apply post_ret. cbn [fst snd]. split; [| reflexivity].
      destruct (round_f64_magnitude 50001 u'' ltac:(lra) ltac:(lra) Hu'')
        as [O1 O2].
      split; linear.
    - apply post_ret. cbn [fst snd]. split; [| reflexivity].
      destruct Hs as [Hs1 Hs2]. split; linear. }
  intros amounts [Ha1 Ha2]. apply post_ret.
  unfold sales_fields_f64_ok.
  cbn [s_sales_amount s_discount s_tax s_shipping s_total].
  split; [exact Ha1 |]. split; [exact Hdc' |]. split; [exact Ht |].
  split; [| exact Ha2].
  destruct Hsh as [H1 H2]. split; linear.
Qed.

Lemma post_sales_row_f64 (i : Z) :
  post (sales_row_f64 R i)
       (fun r => exists f, sales_fields_f64_ok f /\ sales_cells_ok f r).
Proof.
  unfold sales_row_f64.
  post_bind_as f Hf by (apply post_sales_sample_f64).
  eapply post_weaken; [apply post_sales_cells |].
  intros r Hr. exists f. split; assumption.
Qed.

End Binary64Rules.

(** C2, as the code has it.  In every sales row whose sales_amount,
    discount_percent, tax_amount, shipping_cost and total_amount cells are
    not the empty string, the total is
    [round(sales - (sales * discount / 100) + tax + shipping, 2)] of the
    emitted values in the arithmetic of the doubles, whether or not the
    outlier branch resampled the sales amount; against
    [round(sales * (1 - discount / 100) + tax + shipping, 2)] it is one cent
    away at most: the two are the doubles nearest to [n/100] and [m/100]
    with [n] and [m] one apart at most. *)
Theorem sales_total_within_a_cent
        (R : RandomSource) (i : Z) (g g' : rs_state R) (r : row) :
  sales_row_f64 R i g = Ok (r, g') ->
  cell 6 r <> VStr "" -> cell 8 r <> VStr "" -> cell 9 r <> VStr "" ->
  cell 10 r <> VStr "" -> cell 11 r <> VStr "" ->
  exists sales discount tax shipping total n m,
    cell 6 r = VFloat sales /\ cell 8 r = VInt discount
    /\ cell 9 r = VFloat tax /\ cell 10 r = VFloat shipping
    /\ cell 11 r = VFloat total
    /\ total = sales_total_f64 sales discount tax shipping
    /\ total = f64 (n # 100)
    /\ spec_total_f64 sales discount tax shipping = f64 (m # 100)
    /\ -1 <= n - m <= 1.
Proof.
  intros E H6 H8 H9 H10 H11.
  destruct (post_sales_row_f64 i g) as (r0 & g0 & E0 & f & Hf & Hc).
  rewrite E in E0. injection E0 as <- <-.
  destruct Hc as (_ & _ & K6 & K8 & K9 & K10 & K11).
  destruct Hf as ([Hs1 Hs2] & Hd & [Ht1 Ht2] & [Hh1 Hh2] & Htot).
  destruct (totals_within_a_cent (s_sales_amount f) (s_discount f) (s_tax f)
              (s_shipping f) Hs1 Hs2 Hd Ht1 Ht2 Hh1 Hh2)
    as (n & m & En & Em & Hnm).
  exists (s_sales_amount f), (s_discount f), (s_tax f), (s_shipping f),
    (s_total f), n, m.
  repeat (split; [apply kept_not_blank; assumption |]).
  split; [exact Htot |]. split; [rewrite Htot; exact En |].
  split; [exact Em | exact Hnm].
Qed.

Lemma sales_total_within_a_cent_witness :
  exists r g',
    sales_row_f64 (script_rng outlier_sales_tape) 5 outlier_sales_tape
    = Ok (r, g')
    /\ cell 6 r = VFloat 30000
    /\ exists sales discount tax shipping total n m,
         cell 6 r = VFloat sales /\ cell 8 r = VInt discount
         /\ cell 9 r = VFloat tax /\ cell 10 r = VFloat shipping
         /\ cell 11 r = VFloat total
         /\ total = sales_total_f64 sales discount tax shipping
         /\ total = f64 (n # 100)
         /\ spec_total_f64 sales discount tax shipping = f64 (m # 100)
         /\ -1 <= n - m <= 1.
Proof.
  eexists. eexists. split; [vm_compute; reflexivity |].
  split; [reflexivity |].
  apply (sales_total_within_a_cent (script_rng outlier_sales_tape) 5
           outlier_sales_tape []);
    [vm_compute; reflexivity | | | | |]; discriminate.
Defined.

(** C2, as stated, fails: the two formulas are not equal up to the rounding
    of a double.  On the row of [cent_tape] the cells show sales_amount 10.5,
    discount_percent 15, tax_amount 0.84, shipping_cost 0.0 and total_amount
    9.77, while [round(sales * (1 - discount / 100) + tax + shipping, 2)] is
    9.76, in doubles and in exact arithmetic alike: the sum is 9.765 up to a
    few roundings, and the two expressions fall on either side of the
    tie. *)
Lemma sales_total_a_cent_off :
  exists r g',
    sales_row_f64 (script_rng cent_tape) 3 cent_tape = Ok (r, g')
    /\ cell 6 r = VFloat (21 # 2) /\ cell 8 r = VInt 15
    /\ cell 9 r = VFloat (f64 (84 # 100)) /\ cell 10 r = VFloat 0
    /\ cell 11 r = VFloat (f64 (977 # 100))
    /\ spec_total_f64 (21 # 2) 15 (f64 (84 # 100)) 0 = f64 (976 # 100)
    /\ py_round 2 ((21 # 2) * (1 - 15 / 100) + f64 (84 # 100) + 0) = 976 # 100
    /\ (99 # 10000 < f64 (977 # 100) - f64 (976 # 100))%Q.
Proof.
  eexists. eexists. split; [vm_compute; reflexivity |].
  repeat split; vm_compute; reflexivity.
Qed.

(** ** The order of the steps of a sales row *)

Lemma sales_sample_is_code_order (R : RandomSource) (i : Z) (g : rs_state R) :
  sales_sample R i g = sales_sample_code_order R i g.
Proof.
  unfold sales_sample, sales_sample_code_order, step_sample, step_duplicate,
    step_outlier, step_derive, bind, ret, random.
  destruct (random_date R _ _ g) as [[d g1] | e]; [| reflexivity].
  destruct (sales_amount_normal R g1) as [[s g2] | e]; [| reflexivity].
  destruct (randint R 1 20 g2) as [[q g3] | e]; [| reflexivity].
  destruct (choice _ g3) as [[dc g4] | e]; [| reflexivity].
  destruct (uniform R 0 50 g4) as [[u g5] | e]; [| reflexivity].
  destruct (rs_random R g5) as [r g6].
  cbv beta iota zeta.
  destruct (andb (Qltb r (2 # 100)) (100 <? i)).
  - destruct (randint R 1 (i - 1) g6) as [[t g7] | e]; [| reflexivity].
    destruct (rs_random R g7) as [r' g8].
    destruct (Qltb r' (1 # 100)); [| reflexivity].
    destruct (sales_amount_outlier R g8) as [[s' g9] | e]; reflexivity.
  - destruct (rs_random R g6) as [r' g8].
    destruct (Qltb r' (1 # 100)); [| reflexivity].
    destruct (sales_amount_outlier R g8) as [[s' g9] | e]; reflexivity.
Qed.

(** C3, as the code has it.  The steps of a sales row run in this order:
    sample base fields, compute derived fields, possibly override the
    identifier for duplication, then possibly override the sales amount with
    an outlier and recompute the total, and apply per-field missingness last.
    The duplicate-identifier override precedes the outlier override. *)
Theorem sales_row_is_code_order (R : RandomSource) (i : Z) (g : rs_state R) :
  sales_row R i g = sales_row_code_order R i g.
Proof.
  unfold sales_row, sales_row_code_order, bind.
  rewrite sales_sample_is_code_order. reflexivity.
Qed.

(** C3, as the specification words it, fails: on [order_tape] the source
    order keeps the sales amount 2505.0, while the outlier step placed before
    the duplication step takes the draw [0.005] and resamples it to 30000.0;
    the two rows differ. *)
Lemma sales_row_is_not_spec_order :
  (exists f g,
      sales_sample (script_rng order_tape) 1 order_tape = Ok (f, g)
      /\ (s_sales_amount f == 2505)%Q)
  /\ (exists f g,
         sales_sample_spec_order (script_rng order_tape) 1 order_tape
         = Ok (f, g)
         /\ (s_sales_amount f == 30000)%Q)
  /\ sales_row (script_rng order_tape) 1 order_tape
     <> sales_row_spec_order (script_rng order_tape) 1 order_tape.
Proof.
  split; [| split].
  - do 2 eexists. split; vm_compute; reflexivity.
  - do 2 eexists. split; vm_compute; reflexivity.
  - vm_compute. discriminate.
Qed.

(** ** The tax of an outlier row *)

(** C4 fails on the code.  On the row of [outlier_sales_tape] the outlier
    branch fires: the emitted sales_amount is 30000.0, the emitted tax_amount
    is still 200.4, the tax of the first sample 2505.0, and
    [round(30000.0 * 0.08, 2)] is 2400.0. *)
Theorem sales_outlier_tax_is_stale :
  exists r g' sales tax,
    sales_row (script_rng outlier_sales_tape) 5 outlier_sales_tape = Ok (r, g')
    /\ cell 6 r = VFloat sales /\ cell 9 r = VFloat tax
    /\ (sales == 30000)%Q /\ (tax == 2004 # 10)%Q
    /\ (py_round 2 (sales * (8 # 100)) == 2400)%Q
    /\ (tax == py_round 2 (2505 * (8 # 100)))%Q.
Proof.
  do 4 eexists. split; [vm_compute; reflexivity |].
  split; [reflexivity |]. split; [reflexivity |].
  repeat split; vm_compute; reflexivity.
Qed.

(** The same on every row: whenever the loop body ends with a sales amount
    of the outlier range, the tax it carries is below the tax of that
    amount. *)
Lemma sales_outlier_tax_always_stale (R : RandomSource) (i : Z) :
  post (sales_sample R i)
       (fun f =>
          (10000 <= s_sales_amount f)%Q ->
          (s_tax f < py_round 2 (s_sales_amount f * (8 # 100)))%Q).
Proof.
  eapply post_weaken; [apply post_sales_sample |].
  intros f (_ & _ & Htax) Hs.
  assert (H : (800 <= py_round 2 (s_sales_amount f * (8 # 100)))%Q)
    by (apply (py_round_ge 2 80000); [reflexivity | lra]).
  lra.
Qed.

(** ** Duplicated transaction ids *)








(** ** The customer, product and campaign rows *)

Lemma Qltb_lt (x y : Q) : Qltb x y = true -> (x < y)%Q.
Proof.
  unfold Qltb. intro H. apply negb_true_iff in H.
  apply Qnot_le_lt. intro Hle. apply Qle_bool_iff in Hle. congruence.
Qed.

Lemma py_int_lower (n : Z) (x : Q) :
  0 <= n -> (n # 1 <= x)%Q -> n <= py_int x.
Proof.
  intros Hn Hx. change (n # 1) with (inject_Z n) in Hx. unfold py_int.
  assert (H0 : (0 <= x)%Q).
  { apply Qle_trans with (inject_Z n); [| exact Hx].
    unfold Qle; simpl; lia. }
  apply Qle_bool_iff in H0. rewrite H0.
  apply Qfloor_resp_le in Hx. rewrite Qfloor_Z in Hx. exact Hx.
Qed.

Lemma py_int_upper (n : Z) (x : Q) :
  (0 <= x)%Q /\ (x <= n # 1)%Q -> py_int x <= n.
Proof.
  intros [H0 Hx]. change (n # 1) with (inject_Z n) in Hx. unfold py_int.
  apply Qle_bool_iff in H0. rewrite H0.
  apply Qfloor_resp_le in Hx. rewrite Qfloor_Z in Hx. exact Hx.
Qed.

Lemma inject_Z_nonzero (n : Z) : 0 < n -> ~ (inject_Z n == 0)%Q.
Proof. intros Hn H. unfold Qeq in H. simpl in H. lia. Qed.

Lemma subcategory_list_nonempty (category : string) :
  dict_get subcategories category ["General"%string] <> [].
Proof.
  unfold subcategories. simpl.
  repeat match goal with
         | |- context [if ?c then _ else _] => destruct c
         end; discriminate.
Qed.

Section RowRules.

Context {R : RandomSource}.

Lemma post_customer_sample : post (customer_sample R) (fun _ => True).
Proof.
  unfold customer_sample.
  post_bind_as signup Hsignup
    by (apply post_random_date; vm_compute; discriminate).
  post_bind_as r Hr by (apply post_random).
  eapply post_bind with (P := fun _ => True).
  { destruct (Qltb (1 # 10) r); [| apply post_ret; exact I].
    destruct Hsignup as (k & Hk & ->).
    assert (Hd : days_between (mkdate 2018 1 1) (mkdate 2024 12 31) = 2556)
      by (vm_compute; reflexivity).
    rewrite Hd in Hk.
    eapply post_bind with (P := fun _ => True); [| intros; apply post_ret; exact I].
    eapply post_weaken; [apply post_random_date | intros; exact I].
    unfold add_days.
    change (ymd2ord (mkdate 2018 1 1)) with 736695.
    change (ymd2ord (mkdate 2024 12 31)) with 739251.
    rewrite ordinal_roundtrip by lia. lia. }
  intros last_purchase _.
  post_bind_as total_orders Hto by (apply post_randint; lia).
  post_bind_as u Hu by (apply post_uniform; lra).
  cbv zeta.
  post_bind_as r' Hr' by (apply post_random).
  eapply post_bind with (P := fun _ => True); [| intros; apply post_ret; exact I].
  destruct (Qltb r' (1 # 100)); [| apply post_ret; exact I].
  eapply post_weaken; [apply lifetime_value_outlier_range | intros; exact I].
Qed.

Lemma post_customer_cells (i : Z) (f : customer_fields) :
  post (customer_cells R i f) (customer_cells_ok i f).
Proof.
  unfold customer_cells. repeat post_cell.
  apply post_ret. unfold customer_cells_ok, cell. simpl.
  repeat split; assumption.
Qed.

Lemma post_customer_row (i : Z) :
  post (customer_row R i)
       (fun r => List.length r = 21%nat /\ kept_or_blank (VInt i) (cell 0 r)).
Proof.
  unfold customer_row.
  post_bind_as f Hf by (apply post_customer_sample).
  eapply post_weaken; [apply post_customer_cells |].
  intros r (Hl & H0 & _). split; assumption.
Qed.

Lemma post_profit_margin (selling cost : Q) :
  (0 < selling)%Q -> post (profit_margin R selling cost) (fun _ => True).
Proof.
  intro H. unfold profit_margin.
  post_bind_as q Hq by (apply post_py_div; lra).
  apply post_ret. exact I.
Qed.

Lemma post_product_sample : post (product_sample R) product_fields_ok.
Proof.
  unfold product_sample.
  post_bind_as category Hcat by (apply post_choice; discriminate).
  cbv zeta.
  post_bind_as cost Hcost by (apply cost_price_range).
  post_bind_as selling Hsell by (apply selling_normal_range; lra).
  post_bind_as margin Hm by (apply post_profit_margin; lra).
  post_bind_as r Hr by (apply post_random).
  eapply post_bind with (P := fun priced : Q * Q => (0 < fst priced)%Q).
  { destruct (Qltb r (1 # 100)).
    - post_bind_as selling' Hsell' by (apply selling_outlier_range).
      post_bind_as margin' Hm' by (apply post_profit_margin; lra).
      apply post_ret. simpl. lra.
    - apply post_ret. simpl. lra. }
  intros priced Hp.
  post_bind_as launch Hl by (apply post_random_date; vm_compute; discriminate).
  apply post_ret. split; [apply subcategory_list_nonempty | exact Hp].
Qed.

Lemma post_product_cells (i : Z) (f : product_fields) :
  p_subcategory_list f <> [] ->
  post (product_cells R i f)
       (fun r => List.length r = 23%nat /\ kept_or_blank (VInt i) (cell 0 r)).
Proof.
  intro Hne. unfold product_cells.
  do 3 post_cell.
  post_bind_as sub Hsub by (apply post_choice; exact Hne).
  repeat post_cell.
  apply post_ret. unfold cell. simpl. split; [reflexivity | assumption].
Qed.

Lemma post_product_row (i : Z) :
  post (product_row R i)
       (fun r => List.length r = 23%nat /\ kept_or_blank (VInt i) (cell 0 r)).
Proof.
  unfold product_row.
  post_bind_as f Hf by (apply post_product_sample).
  apply post_product_cells. exact (proj1 Hf).
Qed.

End RowRules.

Section CampaignRules.

Context {R : RandomSource}.

Lemma post_percent_of (num den : Q) :
  ~ (den == 0)%Q ->
  post (percent_of R num den)
       (fun v => v = VFloat (py_round 2 (num / den * 100))).
Proof.
  intro H. unfold percent_of.
  post_bind_as q Hq by (apply post_py_div; exact H).
  apply post_ret. rewrite Hq. reflexivity.
Qed.

Lemma post_ratio_of (num den : Q) :
  ~ (den == 0)%Q ->
  post (ratio_of R num den) (fun v => v = VFloat (py_round 2 (num / den))).
Proof.
  intro H. unfold ratio_of.
  post_bind_as q Hq by (apply post_py_div; exact H).
  apply post_ret. rewrite Hq. reflexivity.
Qed.

(** A guarded ratio: the formula under the guard, the int [0] otherwise. *)
Lemma post_guarded (guard : bool) (m : M R pyval) (P : pyval -> Prop) :
  (guard = true -> post m P) ->
  post (if guard then m else ret (VInt 0))
       (fun v => if guard then P v else v = VInt 0).
Proof.
  destruct guard; intro H; [apply H; reflexivity | apply post_ret; reflexivity].
Qed.

Lemma post_campaign_sample : post (campaign_sample R) campaign_fields_ok.
Proof.
  unfold campaign_sample.
  post_bind_as start Hstart
    by (apply post_random_date; vm_compute; discriminate).
  post_bind_as duration Hdur by (apply post_randint; lia).
  cbv zeta.
  post_bind_as budget Hb by (apply budget_normal_range).
  post_bind_as u Hu by (apply post_uniform; lra).
  post_bind_as impressions Himp by (apply post_randint; lia).
  assert (Hi100 : 100 <= py_int (inject_Z impressions * (1 # 10))).
  { apply py_int_lower; [lia |].
    assert ((1000 <= inject_Z impressions)%Q) by (unfold Qle; simpl; lia).
    lra. }
  assert (Hi5 : py_int (inject_Z impressions * (1 # 10)) <= 100000).
  { apply py_int_upper.
    assert ((0 <= inject_Z impressions)%Q) by (unfold Qle; simpl; lia).
    assert ((inject_Z impressions <= 1000000)%Q) by (unfold Qle; simpl; lia).
    split; lra. }
  post_bind_as clicks Hclicks by (apply post_randint; lia).
  assert (Hc2 : 2 <= py_int (inject_Z clicks * (2 # 10))).
  { apply py_int_lower; [lia |].
    assert ((10 <= inject_Z clicks)%Q) by (unfold Qle; simpl; lia).
    lra. }
  post_bind_as conversions Hconv by (apply post_randint; lia).
  post_bind_as ctr Hctr
    by (apply post_guarded; intro G; apply Z.ltb_lt in G;
        apply post_percent_of; apply inject_Z_nonzero; exact G).
  post_bind_as conv_rate Hcr
    by (apply post_guarded; intro G; apply Z.ltb_lt in G;
        apply post_percent_of; apply inject_Z_nonzero; exact G).
  post_bind_as cpc Hcpc
    by (apply post_guarded; intro G; apply Z.ltb_lt in G;
        apply post_ratio_of; apply inject_Z_nonzero; exact G).
  post_bind_as cpa Hcpa
    by (apply post_guarded; intro G; apply Z.ltb_lt in G;
        apply post_ratio_of; apply inject_Z_nonzero; exact G).
  post_bind_as u' Hu' by (apply post_uniform; lra).
  post_bind_as roi Hroi
    by (apply post_guarded; intro G; apply Qltb_lt in G;
        apply post_percent_of; lra).
  post_bind_as r Hr by (apply post_random).
  assert (Hspend0 : (py_round 2 (budget * u) <= 110000)%Q).
  { apply (py_round_le 2 11000000); [reflexivity |].
    apply Qle_trans with (100000 * u)%Q; [| lra].
    apply Qmult_le_compat_r; lra. }
  assert (E : (0 <? clicks) = true) by (apply Z.ltb_lt; lia).
  rewrite E in Hcpc.
  eapply post_bind with
    (P := fun money : Q * Q * Q * pyval =>
            snd (fst (fst money)) = py_round 2 (budget * u)
            \/ (400000 <= snd (fst (fst money)))%Q).
  { destruct (Qltb r (1 # 100)); [| apply post_ret; left; reflexivity].
    post_bind_as budget' Hb' by (apply budget_outlier_range).
    post_bind_as v Hv by (apply post_uniform; lra).
    assert (Hs : (400000 <= py_round 2 (budget' * v))%Q).
    { apply (py_round_ge 2 40000000); [reflexivity |].
      apply Qle_trans with (500000 * v)%Q; [lra |].
      apply Qmult_le_compat_r; lra. }
    post_bind_as w Hw by (apply post_uniform; lra).
    post_bind_as roi' Hroi' by (apply post_percent_of; lra).
    apply post_ret. right. exact Hs. }
  intros [[[budget1 spend1] revenue1] roi1] Hmoney. simpl in Hmoney.
  apply post_ret. unfold campaign_fields_ok. simpl.
  split; [lia |]. exists (py_round 2 (budget * u)).
  split; [exact Hcpc |]. split; [exact Hmoney | exact Hspend0].
Qed.

Lemma post_campaign_cells (i : Z) (f : campaign_fields) :
  post (campaign_cells R i f)
       (fun r => List.length r = 24%nat
                 /\ kept_or_blank (VFloat (k_spend f)) (cell 10 r)
                 /\ kept_or_blank (VInt (k_clicks f)) (cell 12 r)
                 /\ kept_or_blank (k_cpc f) (cell 16 r)).
Proof.
  unfold campaign_cells. repeat post_cell.
  apply post_ret. unfold cell. simpl. repeat split; assumption.
Qed.

Lemma post_campaign_row (i : Z) :
  post (campaign_row R i) (fun r => List.length r = 24%nat).
Proof.
  unfold campaign_row.
  post_bind_as f Hf by (apply post_campaign_sample).
  eapply post_weaken; [apply post_campaign_cells |].
  intros r (Hl & _). exact Hl.
Qed.

End CampaignRules.

(** ** The shape of the four files *)

Lemma Forall2_Forall_right {A B} (P : B -> Prop) (xs : list A) (ys : list B) :
  Forall2 (fun _ y => P y) xs ys -> Forall P ys.
Proof. induction 1; constructor; assumption. Qed.

Lemma Forall2_weaken {A B} (P Q : A -> B -> Prop) (xs : list A) (ys : list B) :
  (forall x y, P x y -> Q x y) -> Forall2 P xs ys -> Forall2 Q xs ys.
Proof. intro H. induction 1; constructor; auto. Qed.

Lemma post_file {R : RandomSource} (body : Z -> M R row) (header : row)
      (width : nat) (a b : Z) (P : Z -> row -> Prop) :
  a <= b ->
  List.length header = width ->
  (forall i, post (body i) (fun r => List.length r = width /\ P i r)) ->
  post (bind (for_each body (py_range a b))
             (fun rows => ret (header :: rows)))
       (fun file => file_shape header width (b - a) file
                    /\ Forall2 P (py_range a b) (tl file)).
Proof.
  intros Hab Hh Hbody.
  eapply post_bind; [apply post_for_each; intros i _; apply Hbody |].
  intros rows Hrows. apply post_ret. split.
  - exists rows. split; [reflexivity |]. split.
    + apply Forall2_length in Hrows. rewrite <- Hrows, length_py_range. lia.
    + constructor; [exact Hh |].
      apply (Forall2_Forall_right _ (py_range a b)).
      eapply Forall2_weaken; [| exact Hrows]. intros x y [H _]. exact H.
  - simpl. eapply Forall2_weaken; [| exact Hrows]. intros x y [_ H]. exact H.
Qed.

(** C8. The run raises nothing, and each of the four files is one header
    row followed by 25,000 data rows, every row of the declared width (22,
    21, 23, 24 cells), corrupted cells included; the product rows carry the
    ids 1000 to 25999 in order, where the id cell is not corrupted. *)
Theorem files_have_declared_shape (R : RandomSource) :
  exists d,
    main R = Ok d
    /\ file_shape sales_header 22 25000 (sales_data d)
    /\ file_shape customer_header 21 25000 (customer_data d)
    /\ file_shape product_header 23 25000 (product_data d)
    /\ file_shape campaign_header 24 25000 (marketing_campaigns d)
    /\ Forall2 (fun i r => kept_or_blank (VInt i) (cell 0 r))
               (py_range 1000 26000) (tl (product_data d)).
Proof.
  assert (H : post (generate R)
                (fun d =>
                   file_shape sales_header 22 25000 (sales_data d)
                   /\ file_shape customer_header 21 25000 (customer_data d)
                   /\ file_shape product_header 23 25000 (product_data d)
                   /\ file_shape campaign_header 24 25000
                        (marketing_campaigns d)
                   /\ Forall2 (fun i r => kept_or_blank (VInt i) (cell 0 r))
                        (py_range 1000 26000) (tl (product_data d)))).
  { unfold generate.
    post_bind_as f1 H1
      by (apply (post_file (sales_row R) sales_header 22 1 25001
                   (fun _ _ => True));
          [lia | reflexivity |];
          intro i; eapply post_weaken; [apply post_sales_row |];
          intros r (f & _ & Hl & _); split; [exact Hl | exact I]).
    post_bind_as f2 H2
      by (apply (post_file (customer_row R) customer_header 21 1 25001
                   (fun _ _ => True));
          [lia | reflexivity |];
          intro i; eapply post_weaken; [apply post_customer_row |];
          intros r (Hl & _); split; [exact Hl | exact I]).
    post_bind_as f3 H3
      by (apply (post_file (product_row R) product_header 23 1000 26000
                   (fun i r => kept_or_blank (VInt i) (cell 0 r)));
          [lia | reflexivity |];
          intro i; apply post_product_row).
    post_bind_as f4 H4
      by (apply (post_file (campaign_row R) campaign_header 24 1 25001
                   (fun _ _ => True));
          [lia | reflexivity |];
          intro i; eapply post_weaken; [apply post_campaign_row |];
          intros r Hl; split; [exact Hl | exact I]).
    apply post_ret. simpl.
    destruct H1 as [H1 _], H2 as [H2 _], H3 as [H3 H3'], H4 as [H4 _].
    repeat split; assumption. }
  destruct (H (rs_seed R 42)) as (d & g' & E & Hd).
  exists d. split; [| exact Hd].
  unfold main. rewrite E. reflexivity.
Qed.

(** ** The divisor of the profit margin *)

Lemma selling_normal_positive {R : RandomSource} (cost : Q) :
  (5 <= cost)%Q -> post (selling_normal R cost) (fun s => (6 <= s)%Q).
Proof.
  intro Hlo. unfold selling_normal.
  post_bind_as u Hu by (apply post_uniform; lra).
  apply post_ret. apply (py_round_ge 2 600); [reflexivity |].
  apply Qle_trans with (5 * u)%Q; [lra |].
  apply Qmult_le_compat_r; lra.
Qed.

(** C9. The cost is at least 5; with a cost of at least 5 the normal selling
    price is at least 6; the outlier selling price is at least 5000; a
    positive selling price makes [profit_margin] return, a zero one makes it
    raise; and every product row is produced, with a positive selling
    price: no division of the loop body divides by zero. *)
Theorem profit_margin_divisor_positive (R : RandomSource) :
  post (cost_price R) (fun cost => (5 <= cost)%Q)
  /\ (forall cost, (5 <= cost)%Q ->
                   post (selling_normal R cost) (fun s => (0 < s)%Q))
  /\ post (selling_outlier R) (fun s => (5000 <= s)%Q)
  /\ (forall selling cost g,
        (selling == 0)%Q ->
        profit_margin R selling cost g = Raise ZeroDivisionError)
  /\ post (product_sample R) (fun f => (0 < p_selling f)%Q)
  /\ (forall i, post (product_row R i) (fun r => List.length r = 23%nat)).
Proof.
  split; [| split; [| split; [| split; [| split]]]].
  - eapply post_weaken; [apply cost_price_range |]. intros c [H _]. exact H.
  - intros cost Hc. eapply post_weaken; [apply selling_normal_positive; exact Hc |].
    intros s Hs. cbv beta in Hs. lra.
  - eapply post_weaken; [apply selling_outlier_range |]. intros s [H _]. exact H.
  - intros selling cost g H. unfold profit_margin, bind, lift, py_div.
    apply Qeq_bool_iff in H. rewrite H. reflexivity.
  - eapply post_weaken; [apply post_product_sample |]. intros f [_ H]. exact H.
  - intro i. eapply post_weaken; [apply post_product_row |].
    intros r [H _]. exact H.
Qed.

Lemma profit_margin_divisor_positive_witness :
  post (selling_normal (script_rng []) 5) (fun s => (0 < s)%Q)
  /\ profit_margin (script_rng []) 0 5 [] = Raise ZeroDivisionError.
Proof.
  split.
  - apply (proj1 (proj2 (profit_margin_divisor_positive (script_rng [])))).
    lra.
  - apply (proj1 (proj2 (proj2 (proj2
             (profit_margin_divisor_positive (script_rng [])))))).
    reflexivity.
Defined.

(** ** Outlier ranges against normal ranges *)

(** X19. The ranges of the four fields that get outliers.  For the sales
    amount, the selling price and the campaign budget every value of the
    normal path lies below every value of the outlier resampling (at most
    5000 against at least 10000, at most 1500 against at least 5000, at most
    100000 against at least 500000).  For the customer lifetime value the
    normal path ranges over 0 to 100000 and the outlier resampling over 50000
    to 200000. *)
Theorem outlier_ranges (R : RandomSource) :
  (post (sales_amount_normal R) (fun v => (v <= 5000)%Q)
   /\ post (sales_amount_outlier R) (fun v => (10000 <= v)%Q))
  /\ ((forall cost, (5 <= cost)%Q -> (cost <= 500)%Q ->
                    post (selling_normal R cost) (fun v => (v <= 1500)%Q))
      /\ post (selling_outlier R) (fun v => (5000 <= v)%Q))
  /\ (post (budget_normal R) (fun v => (v <= 100000)%Q)
      /\ post (budget_outlier R) (fun v => (500000 <= v)%Q))
  /\ ((forall total_orders avg_order,
         0 <= total_orders <= 200 ->
         (20 <= avg_order)%Q -> (avg_order <= 500)%Q ->
         (0 <= lifetime_value_normal total_orders avg_order)%Q
         /\ (lifetime_value_normal total_orders avg_order <= 100000)%Q)
      /\ post (lifetime_value_outlier R)
              (fun v => (50000 <= v)%Q /\ (v <= 200000)%Q)).
Proof.
  repeat split.
  - eapply post_weaken; [apply sales_amount_normal_range |]. intros v [_ H]. exact H.
  - eapply post_weaken; [apply sales_amount_outlier_range |]. intros v [H _]. exact H.
  - intros cost H1 H2.
    eapply post_weaken; [apply selling_normal_range; assumption |].
    intros v [_ H]. exact H.
  - eapply post_weaken; [apply selling_outlier_range |]. intros v [H _]. exact H.
  - eapply post_weaken; [apply budget_normal_range |]. intros v [_ H]. exact H.
  - eapply post_weaken; [apply budget_outlier_range |]. intros v [H _]. exact H.
  - apply lifetime_value_normal_range; assumption.
  - apply lifetime_value_normal_range; assumption.
  - apply lifetime_value_outlier_range.
Qed.

Lemma outlier_ranges_witness :
  post (selling_normal (script_rng []) 5) (fun v => (v <= 1500)%Q)
  /\ (0 <= lifetime_value_normal 200 260)%Q
  /\ (lifetime_value_normal 200 260 <= 100000)%Q.
Proof.
  split.
  - apply (proj1 (proj1 (proj2 (outlier_ranges (script_rng []))))); lra.
  - apply (proj1 (proj2 (proj2 (proj2 (outlier_ranges (script_rng []))))));
      [lia | lra | lra].
Defined.

(** C5 fails on the code.  The customer of [no_purchase_tape] has 200 orders
    of 260.0 on average, the outlier draw 0.5 does not fire, and the normal
    lifetime value 52000.0 lies inside the outlier range 50000 to 200000:
    unlike the three other fields, the lifetime value is resampled from a
    range that starts below the maximum of its normal path. *)
Theorem normal_lifetime_value_in_outlier_range :
  exists f g',
    customer_sample (script_rng no_purchase_tape) no_purchase_tape = Ok (f, g')
    /\ c_total_orders f = 200
    /\ (c_avg_order f == 260)%Q
    /\ c_lifetime_value f
       = lifetime_value_normal (c_total_orders f) (c_avg_order f)
    /\ (50000 <= c_lifetime_value f)%Q
    /\ (c_lifetime_value f <= 200000)%Q.
Proof.
  do 2 eexists. split; [vm_compute; reflexivity |].
  repeat split; vm_compute; congruence.
Qed.

(** ** The cost per click of an outlier row *)

(** C7 fails on the code.  On the row of [outlier_campaign_tape] the outlier
    branch fires: the emitted spend is 1125000.0 and the emitted clicks 10,
    but the emitted cost_per_click is still 4040.0, computed from the first
    spend 40400.0; [round(1125000.0 / 10, 2)] is 112500.0. *)
Theorem campaign_outlier_cpc_is_stale :
  exists r g' spend cpc,
    campaign_row (script_rng outlier_campaign_tape) 7 outlier_campaign_tape
    = Ok (r, g')
    /\ cell 10 r = VFloat spend /\ cell 12 r = VInt 10
    /\ cell 16 r = VFloat cpc
    /\ (spend == 1125000)%Q /\ (cpc == 4040)%Q
    /\ (py_round 2 (spend / inject_Z 10) == 112500)%Q
    /\ (cpc == py_round 2 (40400 / inject_Z 10))%Q.
Proof.
  do 4 eexists. split; [vm_compute; reflexivity |].
  do 3 (split; [reflexivity |]).
  repeat split; vm_compute; reflexivity.
Qed.

Lemma Qinv_lower (c : Q) (n : positive) :
  (0 < c)%Q -> (c <= Zpos n # 1)%Q -> (1 # n <= / c)%Q.
Proof.
  intros Hc Hn.
  assert (Hi : (0 < / c)%Q) by (apply Qinv_lt_0_compat; exact Hc).
  assert (E : (c * / c == 1)%Q) by (apply Qmult_inv_r; lra).
  assert (H : (c * / c <= (Zpos n # 1) * / c)%Q)
    by (apply Qmult_le_compat_r; lra).
  rewrite E in H.
  assert (E2 : ((1 # n) * (Zpos n # 1) == 1)%Q).
  { unfold Qeq, Qmult. simpl. lia. }
  assert (H3 : ((1 # n) * 1 <= (1 # n) * ((Zpos n # 1) * / c))%Q).
  { rewrite (Qmult_comm (1 # n) 1), (Qmult_comm (1 # n) _).
    apply Qmult_le_compat_r; [exact H | unfold Qle; simpl; lia]. }
  rewrite Qmult_assoc, E2 in H3. lra.
Qed.

(** The same on every row: whenever the loop body ends with a spend of the
    outlier range, the cost per click it carries is below the quotient of that
    spend by the clicks. *)
Lemma campaign_outlier_cpc_always_stale (R : RandomSource) :
  post (campaign_sample R)
       (fun f =>
          (400000 <= k_spend f)%Q ->
          exists cpc,
            k_cpc f = VFloat cpc
            /\ (cpc < py_round 2 (k_spend f / inject_Z (k_clicks f)))%Q).
Proof.
  eapply post_weaken; [apply post_campaign_sample |].
  intros f (Hc & spend0 & Hcpc & _ & H0) Hs.
  exists (py_round 2 (spend0 / inject_Z (k_clicks f))).
  split; [exact Hcpc |].
  set (c := inject_Z (k_clicks f)) in *.
  assert (Hc0 : (0 < c)%Q) by (unfold c, Qlt; simpl; lia).
  assert (Hc1 : (c <= 100000)%Q) by (unfold c, Qle; simpl; lia).
  pose proof (Qinv_lower c 100000 Hc0 Hc1) as Hi.
  unfold Qdiv.
  assert (Hd : (290000 * / c <= k_spend f * / c - spend0 * / c)%Q).
  { setoid_replace (k_spend f * / c - spend0 * / c)%Q
      with ((k_spend f - spend0) * / c)%Q by ring.
    apply Qmult_le_compat_r; lra. }
  destruct (py_round_2_near (spend0 * / c)) as [Hx _].
  destruct (py_round_2_near (k_spend f * / c)) as [_ Hy].
  remember (/ c)%Q as ic eqn:Eic.
  remember (spend0 * ic)%Q as b eqn:Eb.
  remember (k_spend f * ic)%Q as a eqn:Ea.
  remember (py_round 2 b) as x eqn:Ex.
  remember (py_round 2 a) as y eqn:Ey.
  clear Eic Eb Ea Ex Ey Hcpc. lra.
Qed.

(** ** Empty cells that no corruption made *)

Lemma add_missing_values_kept {R : RandomSource} (v : pyval) (rate : Q)
      (g : rs_state R) :
  (rate <= fst (rs_random R g))%Q ->
  add_missing_values R v rate g = Ok (v, snd (rs_random R g)).
Proof.
  intro H. unfold add_missing_values, bind, random, ret.
  destruct (rs_random R g) as [u g1]. simpl in *.
  unfold Qltb. apply Qle_bool_iff in H. rewrite H. reflexivity.
Qed.

(** C10. When the corruption draw is not below the rate, the value goes to
    the writer untouched.  [None] is in the vocabulary of a_b_test_variant
    and is written as an empty field, so the cell is empty without
    corruption; the text of an absent last purchase is the empty string, so
    that cell is empty without corruption too, and in a customer row with no
    last purchase it is empty whatever the corruption draw. *)
Theorem empty_cell_without_corruption (R : RandomSource) (g : rs_state R) :
  ((20 # 100 <= fst (rs_random R g))%Q ->
   add_missing_values R VNone (20 # 100) g = Ok (VNone, snd (rs_random R g)))
  /\ In VNone ab_variants
  /\ csv_field VNone = ""%string
  /\ VNone <> VStr ""
  /\ ((15 # 100 <= fst (rs_random R g))%Q ->
      add_missing_values R (VStr (last_purchase_text None)) (15 # 100) g
      = Ok (VStr "", snd (rs_random R g)))
  /\ (forall i f,
        c_last_purchase f = None ->
        post (customer_cells R i f) (fun r => cell 15 r = VStr "")).
Proof.
  split; [apply add_missing_values_kept |].
  split; [simpl; tauto |].
  split; [reflexivity |].
  split; [discriminate |].
  split; [apply (add_missing_values_kept (VStr (last_purchase_text None))) |].
  intros i f Hf. eapply post_weaken; [apply post_customer_cells |].
  intros r (_ & _ & _ & H). rewrite Hf in H. simpl in H.
  destruct H as [H | H]; exact H.
Qed.

Lemma empty_cell_without_corruption_witness :
  (exists g', add_missing_values (script_rng [kept]) VNone (20 # 100) [kept]
              = Ok (VNone, g'))
  /\ (exists r g',
        campaign_row (script_rng outlier_campaign_tape) 7
                     outlier_campaign_tape = Ok (r, g')
        /\ cell 22 r = VNone)
  /\ (exists r g',
        customer_row (script_rng no_purchase_tape) 3 no_purchase_tape
        = Ok (r, g')
        /\ cell 15 r = VStr "").
Proof.
  split; [| split].
  - eexists.
    apply (proj1 (empty_cell_without_corruption (script_rng [kept]) [kept])).
    vm_compute. discriminate.
  - do 2 eexists. split; vm_compute; reflexivity.
  - do 2 eexists. split; vm_compute; reflexivity.
Defined.

(** ** Two runs that see the same draws *)

Section Simulation.

Context (R1 R2 : RandomSource).
Variable rel : rs_state R1 -> rs_state R2 -> Prop.

(** Related states answer alike and stay related. *)
Hypothesis rel_random :
  forall g1 g2,
    rel g1 g2 ->
    fst (rs_random R1 g1) = fst (rs_random R2 g2)
    /\ rel (snd (rs_random R1 g1)) (snd (rs_random R2 g2)).
Hypothesis rel_randbelow :
  forall n g1 g2,
    rel g1 g2 ->
    fst (rs_randbelow R1 n g1) = fst (rs_randbelow R2 n g2)
    /\ rel (snd (rs_randbelow R1 n g1)) (snd (rs_randbelow R2 n g2)).

Lemma sim_ret {A} (a : A) : sim rel (ret a) (ret a).
Proof. intros g1 g2 H. simpl. split; [reflexivity | exact H]. Qed.

Lemma sim_raise {A} (e : pyerr) : sim rel (raise R1 e : M R1 A) (raise R2 e).
Proof. intros g1 g2 H. reflexivity. Qed.

Lemma sim_lift {A} (r : result A) : sim rel (lift R1 r) (lift R2 r).
Proof.
  intros g1 g2 H. unfold lift. destruct r; simpl; [split |]; trivial.
Qed.

Lemma sim_bind {A B} (m1 : M R1 A) (m2 : M R2 A)
      (k1 : A -> M R1 B) (k2 : A -> M R2 B) :
  sim rel m1 m2 -> (forall a, sim rel (k1 a) (k2 a)) -> sim rel (bind m1 k1) (bind m2 k2).
Proof.
  intros Hm Hk g1 g2 H. unfold bind. specialize (Hm g1 g2 H).
  unfold same_result in Hm.
  destruct (m1 g1) as [[a1 h1] | e1], (m2 g2) as [[a2 h2] | e2];
    try contradiction.
  - destruct Hm as [<- Hh]. apply Hk. exact Hh.
  - exact Hm.
Qed.

Lemma sim_random : sim rel (random R1) (random R2).
Proof.
  intros g1 g2 H. unfold random. destruct (rel_random g1 g2 H) as [E Hr].
  destruct (rs_random R1 g1), (rs_random R2 g2). simpl in *. split; assumption.
Qed.

Lemma sim_randbelow (n : Z) : sim rel (randbelow R1 n) (randbelow R2 n).
Proof.
  intros g1 g2 H. unfold randbelow.
  destruct (rel_randbelow n g1 g2 H) as [E Hr].
  destruct (rs_randbelow R1 n g1), (rs_randbelow R2 n g2).
  simpl in *. split; assumption.
Qed.

Lemma sim_for_each {A B} (b1 : A -> M R1 B) (b2 : A -> M R2 B) (xs : list A) :
  (forall x, sim rel (b1 x) (b2 x)) -> sim rel (for_each b1 xs) (for_each b2 xs).
Proof.
  intro Hb. induction xs as [| x xs IH]; simpl.
  - apply sim_ret.
  - apply sim_bind; [apply Hb | intro r].
    apply sim_bind; [apply IH | intro rs]. apply sim_ret.
Qed.

Ltac sim_step :=
  lazymatch goal with
  | |- sim _ (ret _) _ => apply sim_ret
  | |- sim _ (raise _ _) _ => apply sim_raise
  | |- sim _ (lift _ _) _ => apply sim_lift
  | |- sim _ (random _) _ => apply sim_random
  | |- sim _ (randbelow _ _) _ => apply sim_randbelow
  | |- sim _ (bind _ _) _ => apply sim_bind; [| intro]
  | |- sim _ (if ?b then _ else _) _ => destruct b
  | |- sim _ (match ?x with _ => _ end) _ => destruct x
  end.

Ltac sim_auto := repeat sim_step.

Lemma sim_uniform (a b : Q) : sim rel (uniform R1 a b) (uniform R2 a b).
Proof. unfold uniform. sim_auto. Qed.

Lemma sim_randint (a b : Z) : sim rel (randint R1 a b) (randint R2 a b).
Proof. unfold randint, randrange. cbv zeta. sim_auto. Qed.

Lemma sim_choice {A} (seq : list A) : sim rel (choice seq) (choice seq).
Proof. unfold choice. sim_auto. Qed.

Lemma sim_random_date (s e : date) :
  sim rel (random_date R1 s e) (random_date R2 s e).
Proof.
  unfold random_date. cbv zeta.
  apply sim_bind; [apply sim_randint | intro]. apply sim_ret.
Qed.

Lemma sim_add_missing_values (v : pyval) (rate : Q) :
  sim rel (add_missing_values R1 v rate) (add_missing_values R2 v rate).
Proof. unfold add_missing_values. sim_auto. Qed.

Ltac sim_call :=
  lazymatch goal with
  | |- sim _ (uniform _ _ _) _ => apply sim_uniform
  | |- sim _ (randint _ _ _) _ => apply sim_randint
  | |- sim _ (choice _) _ => apply sim_choice
  | |- sim _ (random_date _ _ _) _ => apply sim_random_date
  | |- sim _ (add_missing_values _ _ _) _ => apply sim_add_missing_values
  | |- _ => sim_step
  end.

Ltac sim_calls := repeat sim_call.

Lemma sim_sales_row (i : Z) : sim rel (sales_row R1 i) (sales_row R2 i).
Proof.
  unfold sales_row, sales_sample, sales_cells, sales_amount_normal,
    sales_amount_outlier.
  sim_calls.
Qed.

Lemma sim_customer_row (i : Z) : sim rel (customer_row R1 i) (customer_row R2 i).
Proof.
  unfold customer_row, customer_sample, customer_cells,
    lifetime_value_outlier.
  sim_calls.
Qed.

Lemma sim_product_row (i : Z) : sim rel (product_row R1 i) (product_row R2 i).
Proof.
  unfold product_row, product_sample, product_cells, cost_price,
    selling_normal, selling_outlier, profit_margin.
  sim_calls.
Qed.

Lemma sim_campaign_row (i : Z) : sim rel (campaign_row R1 i) (campaign_row R2 i).
Proof.
  unfold campaign_row, campaign_sample, campaign_cells, budget_normal,
    budget_outlier, percent_of, ratio_of.
  sim_calls.
Qed.

Lemma sim_sales_file : sim rel (sales_file R1) (sales_file R2).
Proof.
  unfold sales_file. apply sim_bind; [| intro; apply sim_ret].
  apply sim_for_each. exact sim_sales_row.
Qed.

Lemma sim_customer_file : sim rel (customer_file R1) (customer_file R2).
Proof.
  unfold customer_file. apply sim_bind; [| intro; apply sim_ret].
  apply sim_for_each. exact sim_customer_row.
Qed.

Lemma sim_product_file : sim rel (product_file R1) (product_file R2).
Proof.
  unfold product_file. apply sim_bind; [| intro; apply sim_ret].
  apply sim_for_each. exact sim_product_row.
Qed.

Lemma sim_campaign_file : sim rel (campaign_file R1) (campaign_file R2).
Proof.
  unfold campaign_file. apply sim_bind; [| intro; apply sim_ret].
  apply sim_for_each. exact sim_campaign_row.
Qed.

Lemma sim_generate : sim rel (generate R1) (generate R2).
Proof.
  unfold generate.
  apply sim_bind; [exact sim_sales_file | intro f1].
  apply sim_bind; [exact sim_customer_file | intro f2].
  apply sim_bind; [exact sim_product_file | intro f3].
  apply sim_bind; [exact sim_campaign_file | intro f4].
  apply sim_ret.
Qed.

End Simulation.

(** Two runs whose generators, once seeded with 42, answer every call alike
    give the same text for each of the four files (or stop on the same
    exception).  This holds of every computation written over
    [RandomSource]: it is a property of the embedding, which has no other
    effect than the draws, and not a finding about the script. *)
Theorem same_seed_same_files
        (R1 R2 : RandomSource) (rel : rs_state R1 -> rs_state R2 -> Prop) :
  rel (rs_seed R1 42) (rs_seed R2 42) ->
  (forall g1 g2,
      rel g1 g2 ->
      fst (rs_random R1 g1) = fst (rs_random R2 g2)
      /\ rel (snd (rs_random R1 g1)) (snd (rs_random R2 g2))) ->
  (forall n g1 g2,
      rel g1 g2 ->
      fst (rs_randbelow R1 n g1) = fst (rs_randbelow R2 n g2)
      /\ rel (snd (rs_randbelow R1 n g1)) (snd (rs_randbelow R2 n g2))) ->
  output R1 = output R2.
Proof.
  intros Hseed Hrandom Hbelow.
  pose proof (sim_generate R1 R2 rel Hrandom Hbelow _ _ Hseed) as H.
  unfold output, main. unfold same_result in H.
  destruct (generate R1 (rs_seed R1 42)) as [[d1 g1] | e1],
           (generate R2 (rs_seed R2 42)) as [[d2 g2] | e2];
    try contradiction.
  - destruct H as [<- _]. reflexivity.
  - rewrite H. reflexivity.
Qed.

Lemma skipn_S_tl {A} (n : nat) (l : list A) : skipn (S n) l = tl (skipn n l).
Proof.
  revert l. induction n as [| n IH]; intro l.
  - destruct l; reflexivity.
  - destruct l as [| x l]; [reflexivity |]. exact (IH l).
Qed.

Lemma script_random_rest (t : list draw) : snd (script_random t) = tl t.
Proof. destruct t as [| [u | k] t']; reflexivity. Qed.

Lemma script_randbelow_rest (n : Z) (t : list draw) :
  snd (script_randbelow n t) = tl t.
Proof. destruct t as [| [u | k] t']; reflexivity. Qed.

Lemma cursor_random_follows (tape t : list draw) (pos : nat) :
  t = skipn pos tape ->
  fst (script_random t) = fst (cursor_random tape pos)
  /\ snd (script_random t) = skipn (snd (cursor_random tape pos)) tape.
Proof.
  intros ->. split; [reflexivity |].
  unfold cursor_random, snd at 2.
  rewrite script_random_rest, skipn_S_tl. reflexivity.
Qed.

Lemma cursor_randbelow_follows (tape t : list draw) (n : Z) (pos : nat) :
  t = skipn pos tape ->
  fst (script_randbelow n t) = fst (cursor_randbelow tape n pos)
  /\ snd (script_randbelow n t) = skipn (snd (cursor_randbelow tape n pos)) tape.
Proof.
  intros ->. split; [reflexivity |].
  unfold cursor_randbelow, snd at 2.
  rewrite script_randbelow_rest, skipn_S_tl. reflexivity.
Qed.

Lemma same_seed_same_files_witness :
  output (script_rng outlier_sales_tape) = output (cursor_rng outlier_sales_tape).
Proof.
  apply (same_seed_same_files
           (script_rng outlier_sales_tape) (cursor_rng outlier_sales_tape)
           (fun t pos => t = skipn pos outlier_sales_tape)).
  - reflexivity.
  - intros t pos H. exact (cursor_random_follows outlier_sales_tape t pos H).
  - intros n t pos H.
    exact (cursor_randbelow_follows outlier_sales_tape t n pos H).
Defined.

(** * Further properties *)

(** ** The calendar window *)

Lemma script_days_ok : forallb calendar_ok script_days = true.
Proof. vm_compute. reflexivity. Qed.

Lemma sales_days_ok : forallb sales_year_ok sales_days = true.
Proof. vm_compute. reflexivity. Qed.

Lemma calendar_ok_spec (n : Z) :
  calendar_ok n = true ->
  ymd2ord (ord2ymd n) = n
  /\ 1 <= month (ord2ymd n) <= 12 /\ 1 <= day (ord2ymd n) <= 31.
Proof.
  unfold calendar_ok. cbv zeta. intro H.
  apply andb_true_iff in H. destruct H as [H1 H].
  apply andb_true_iff in H. destruct H as [H2 H3].
  apply andb_true_iff in H2. destruct H2 as [H2 H2'].
  apply andb_true_iff in H3. destruct H3 as [H3 H3'].
  apply Z.eqb_eq in H1. apply Z.leb_le in H2, H2', H3, H3'.
  split; [exact H1 | split; lia].
Qed.

Lemma calendar_window (n : Z) :
  735599 <= n <= 739310 ->
  ymd2ord (ord2ymd n) = n
  /\ 1 <= month (ord2ymd n) <= 12 /\ 1 <= day (ord2ymd n) <= 31.
Proof.
  intro H. apply calendar_ok_spec.
  apply (proj1 (forallb_forall calendar_ok script_days) script_days_ok).
  unfold script_days. apply In_py_range. lia.
Qed.

Lemma sales_year_ok_spec (n : Z) :
  sales_year_ok n = true -> 2020 <= year (ord2ymd n) <= 2024.
Proof.
  unfold sales_year_ok. intro H.
  apply andb_true_iff in H. destruct H as [H1 H2].
  apply Z.leb_le in H1, H2. lia.
Qed.

Lemma sales_window_year (n : Z) :
  737425 <= n <= 739251 -> 2020 <= year (ord2ymd n) <= 2024.
Proof.
  intro H. apply sales_year_ok_spec.
  apply (proj1 (forallb_forall sales_year_ok sales_days) sales_days_ok).
  unfold sales_days. apply In_py_range. lia.
Qed.

(** ** Domains of the sales cells *)

Lemma columns_weaken (cols schema : list (pyval -> Prop)) (r : row) :
  Forall2 (fun P Q : pyval -> Prop => forall c, P c -> Q c) cols schema ->
  Forall2 blank_or cols r -> Forall2 blank_or schema r.
Proof.
  intro H. revert r. induction H as [| P Q cols schema HPQ _ IH]; intros r Hr.
  - inversion Hr. constructor.
  - inversion Hr as [| P' c cols' r' Hc Hrest]; subst.
    constructor; [| apply IH; exact Hrest].
    destruct Hc as [Hc | Hc]; [left; exact Hc | right; apply HPQ; exact Hc].
Qed.

(** Splits a comparison of two column lists into one goal per column, and
    closes the columns that are the same on both sides. *)
Ltac schema_columns :=
  repeat (refine (Forall2_cons _ _ _ _);
          [try (let c := fresh "c" in
                let Hc := fresh "Hc" in
                intros c Hc; exact Hc) |]);
  try apply Forall2_nil.

Ltac finish :=
  first
    [ reflexivity | eassumption | lia | lra
    | split; finish
    | eexists; finish ].

Ltac column :=
  match goal with
  | H : kept_or_blank ?v ?c |- blank_or _ ?c =>
      destruct H as [H | H]; rewrite H; [right | left; reflexivity]
  end;
  unfold exactly; finish.

Section SalesDomains.

Context {R : RandomSource}.

Lemma post_sales_sampled (i : Z) : post (sales_sample R i) (sales_sampled i).
Proof.
  unfold sales_sample.
  post_bind_as d Hd by (apply post_random_date; vm_compute; discriminate).
  change (days_between (mkdate 2020 1 1) (mkdate 2024 12 31)) with 1826 in Hd.
  post_bind_as s Hs by (apply sales_amount_normal_range).
  post_bind_as q Hq by (apply post_randint; lia).
  post_bind_as dc Hdc by (apply post_choice; discriminate).
  cbv zeta.
  post_bind_as u Hu by (apply post_uniform; lra).
  post_bind_as r Hr by (apply post_random).
  eapply post_bind with
    (P := fun t => t = i \/ (100 < i /\ 1 <= t <= i - 1)).
  { destruct (Qltb r (2 # 100)); simpl andb.
    - destruct (100 <? i) eqn:Ei.
      + apply Z.ltb_lt in Ei.
        eapply post_weaken; [apply post_randint; lia |].
        intros t Ht. cbv beta in Ht. right. lia.
      + apply post_ret. left. reflexivity.
    - apply post_ret. left. reflexivity. }
  intros t Ht.
  post_bind_as r' Hr' by (apply post_random).
  set (tax := py_round 2 (s * (8 # 100))).
  set (ship := py_round 2 u).
  eapply post_bind with
    (P := fun amounts : Q * Q =>
            snd amounts = sales_total (fst amounts) dc tax ship
            /\ (((10 <= fst amounts)%Q /\ (fst amounts <= 5000)%Q
                 /\ tax = py_round 2 (fst amounts * (8 # 100)))
                \/ ((10000 <= fst amounts)%Q /\ (fst amounts <= 50000)%Q))).
  { destruct (Qltb r' (1 # 100)).
    - post_bind_as s' Hs' by (apply sales_amount_outlier_range).
      apply post_ret. split; [reflexivity | right; exact Hs'].
    - apply post_ret. split; [reflexivity |].
      left. simpl. destruct Hs as [Hs1 Hs2].
      split; [exact Hs1 | split; [exact Hs2 | reflexivity]]. }
  intros amounts [Ha Hb]. apply post_ret. unfold sales_sampled. simpl.
  destruct Hs as [Hs1 Hs2]. destruct Hu as [Hu1 Hu2].
  split; [exact Hd |]. split; [reflexivity |]. split; [exact Hq |].
  split; [exact Hdc |].
  split; [split; [apply (py_round_ge 2 0) | apply (py_round_le 2 5000)];
          first [reflexivity | assumption] |].
  split; [split; [apply (py_round_ge 2 80) | apply (py_round_le 2 40000)];
          first [reflexivity | lra] |].
  split; [exact Hb |]. split; [exact Ha | exact Ht].
Qed.

Lemma post_sales_columns (f : sales_fields) :
  post (sales_cells R f) (Forall2 blank_or (sales_columns f)).
Proof.
  unfold sales_cells. repeat post_cell.
  apply post_ret. unfold sales_columns.
  repeat (constructor; [column |]). constructor.
Qed.

End SalesDomains.

Lemma column_of (cols : list (pyval -> Prop)) (r : row) :
  Forall2 blank_or cols r ->
  forall k P, nth_error cols k = Some P -> blank_or P (cell k r).
Proof.
  induction 1 as [| Q c cols r Hc _ IH]; intros k P Hk.
  - destruct k; discriminate Hk.
  - destruct k as [| k]; simpl in Hk.
    + injection Hk as <-. exact Hc.
    + exact (IH k P Hk).
Qed.

Lemma season_of_known (m : Z) :
  In (season_of m) ["Winter"; "Spring"; "Summer"; "Fall"]%string.
Proof.
  unfold season_of.
  destruct (existsb (Z.eqb m) [12; 1; 2]); [simpl; tauto |].
  destruct (existsb (Z.eqb m) [3; 4; 5]); [simpl; tauto |].
  destruct (existsb (Z.eqb m) [6; 7; 8]); simpl; tauto.
Qed.

Lemma sales_date_window (k : Z) :
  0 <= k <= 1826 ->
  2020 <= year (add_days (mkdate 2020 1 1) k) <= 2024
  /\ 1 <= month (add_days (mkdate 2020 1 1) k) <= 12.
Proof.
  intro Hk. unfold add_days.
  change (ymd2ord (mkdate 2020 1 1)) with 737425.
  split; [apply sales_window_year; lia |].
  apply calendar_window. lia.
Qed.

Lemma discount_share (s : Q) (d : Z) :
  0 <= d <= 30 -> (0 <= s)%Q ->
  (0 <= s * inject_Z d / 100)%Q /\ (s * inject_Z d / 100 <= s * (3 # 10))%Q.
Proof.
  intros Hd Hs.
  assert (H0 : (0 <= inject_Z d)%Q) by (unfold Qle; simpl; lia).
  assert (H30 : (inject_Z d <= 30)%Q) by (unfold Qle; simpl; lia).
  assert (E : (s * inject_Z d / 100 == s * (inject_Z d * (1 # 100)))%Q)
    by field.
  rewrite E.
  assert (H1 : (0 <= inject_Z d * (1 # 100))%Q) by lra.
  assert (H2 : (inject_Z d * (1 # 100) <= 3 # 10)%Q) by lra.
  split.
  - apply Qmult_le_0_compat; assumption.
  - rewrite (Qmult_comm s (inject_Z d * (1 # 100))), (Qmult_comm s (3 # 10)).
    apply Qmult_le_compat_r; assumption.
Qed.

Lemma discount_range (d : Z) : In d [0; 5; 10; 15; 20; 25; 30] -> 0 <= d <= 30.
Proof. simpl. intuition lia. Qed.

Lemma sales_total_range (s : Q) (d : Z) (t sh : Q) :
  (10 <= s)%Q -> (s <= 50000)%Q -> In d [0; 5; 10; 15; 20; 25; 30] ->
  (8 # 10 <= t)%Q -> (t <= 400)%Q -> (0 <= sh)%Q -> (sh <= 50)%Q ->
  (7 <= sales_total s d t sh)%Q /\ (sales_total s d t sh <= 50450)%Q.
Proof.
  intros Hs1 Hs2 Hd Ht1 Ht2 Hh1 Hh2. unfold sales_total.
  destruct (discount_share s d (discount_range d Hd)) as [He1 He2]; [lra |].
  remember (s * inject_Z d / 100)%Q as e eqn:Ee. clear Ee. split.
  - apply (py_round_ge 2 700); [reflexivity | lra].
  - apply (py_round_le 2 5045000); [reflexivity | lra].
Qed.

(** A sales row against the schema of its columns. *)
Lemma sales_row_in_schema (R : RandomSource) (i : Z) :
  1 <= i -> post (sales_row R i) (Forall2 blank_or (sales_schema i)).
Proof.
  intro Hi. unfold sales_row.
  post_bind_as f Hf by (apply post_sales_sampled).
  eapply post_weaken; [apply post_sales_columns |].
  intros r Hr. apply (columns_weaken (sales_columns f)); [| exact Hr].
  destruct Hf as ((k & Hk & Hdate) & Hseason & Hq & Hdc & [Hsh1 Hsh2]
                  & [Ht1 Ht2] & Hs & Htot & Hid).
  assert (Hs' : (10 <= s_sales_amount f)%Q /\ (s_sales_amount f <= 50000)%Q)
    by (destruct Hs as [(H1 & H2 & _) | [H1 H2]]; split; lra).
  destruct Hs' as [Hs1 Hs2].
  destruct (sales_date_window k Hk) as [Hy Hm]. rewrite <- Hdate in Hy, Hm.
  unfold sales_columns, sales_schema, exactly.
  schema_columns.
  - intros c ->. exists (s_transaction_id f). split; [reflexivity | lia].
  - intros c ->. exists k. split; [exact Hk | rewrite Hdate; reflexivity].
  - intros c ->. exists (s_sales_amount f). repeat split; assumption.
  - intros c ->. exists (s_quantity f). split; [reflexivity | exact Hq].
  - intros c ->. exists (s_discount f).
    split; [reflexivity | apply discount_range; exact Hdc].
  - intros c ->. exists (s_tax f). repeat split; assumption.
  - intros c ->. exists (s_shipping f). repeat split; assumption.
  - intros c ->. exists (s_total f). split; [reflexivity |].
    rewrite Htot. apply sales_total_range; assumption.
  - intros c ->. exists (s_season f).
    split; [reflexivity | rewrite Hseason; apply season_of_known].
  - intros c ->. exists (year (s_date f)). split; [reflexivity | exact Hy].
  - intros c ->. exists (month (s_date f)). split; [reflexivity | exact Hm].
Qed.


Lemma post_elim {R : RandomSource} {A} (m : M R A) (P : A -> Prop)
      (g g' : rs_state R) (a : A) :
  post m P -> m g = Ok (a, g') -> P a.
Proof.
  intros H E. destruct (H g) as (a0 & g0 & E0 & Ha).
  rewrite E in E0. injection E0 as <- <-. exact Ha.
Qed.

Lemma post_sales_row_facts {R : RandomSource} (i : Z) :
  post (sales_row R i)
       (fun r => exists f,
            sales_sampled i f /\ Forall2 blank_or (sales_columns f) r).
Proof.
  unfold sales_row.
  post_bind_as f Hf by (apply post_sales_sampled).
  eapply post_weaken; [apply post_sales_columns |].
  intros r Hr. exists f. split; assumption.
Qed.

(** X1. The date, season, year and month cells of a sales row come from one
    date of 2020-2024: each is blank or shows that date, its season (Winter
    for months 12, 1, 2; Spring for 3-5; Summer for 6-8; Fall otherwise), its
    year and its month. *)
Theorem sales_date_cells_agree (R : RandomSource) (i : Z) :
  post (sales_row R i)
       (fun r => exists d,
            2020 <= year d <= 2024 /\ 1 <= month d <= 12
            /\ blank_or (exactly (VStr (strftime_ymd d))) (cell 1 r)
            /\ blank_or (exactly (VStr (season_of (month d)))) (cell 19 r)
            /\ blank_or (exactly (VInt (year d))) (cell 20 r)
            /\ blank_or (exactly (VInt (month d))) (cell 21 r)).
Proof.
  eapply post_weaken; [apply post_sales_row_facts |].
  intros r (f & Hf & Hr).
  destruct Hf as ((k & Hk & Hdate) & Hseason & _).
  destruct (sales_date_window k Hk) as [Hy Hm]. rewrite <- Hdate in Hy, Hm.
  exists (s_date f). split; [exact Hy |]. split; [exact Hm |].
  rewrite <- Hseason.
  split; [exact (column_of _ r Hr 1%nat _ eq_refl) |].
  split; [exact (column_of _ r Hr 19%nat _ eq_refl) |].
  split; [exact (column_of _ r Hr 20%nat _ eq_refl) |].
  exact (column_of _ r Hr 21%nat _ eq_refl).
Qed.

(** X2. On a sales row whose sales_amount cell shows at most 5000 (no outlier
    was injected), a tax_amount cell that is not blank shows
    [round(sales_amount * 0.08, 2)]. *)
Theorem sales_tax_on_normal_rows
        (R : RandomSource) (i : Z) (g g' : rs_state R) (r : row) (s t : Q) :
  sales_row R i g = Ok (r, g') ->
  cell 6 r = VFloat s -> cell 9 r = VFloat t -> (s <= 5000)%Q ->
  t = py_round 2 (s * (8 # 100)).
Proof.
  intros E H6 H9 Hs.
  destruct (post_elim _ _ g g' r (post_sales_row_facts i) E) as (f & Hf & Hr).
  destruct Hf as (_ & _ & _ & _ & _ & _ & Hamount & _).
  pose proof (column_of _ r Hr 6%nat _ eq_refl) as K6.
  pose proof (column_of _ r Hr 9%nat _ eq_refl) as K9.
  unfold exactly in K6, K9.
  destruct K6 as [K6 | K6]; rewrite H6 in K6; [discriminate K6 |].
  destruct K9 as [K9 | K9]; rewrite H9 in K9; [discriminate K9 |].
  injection K6 as ->. injection K9 as ->.
  destruct Hamount as [(_ & _ & Htax) | [Hout _]]; [exact Htax | lra].
Qed.

Lemma sales_tax_on_normal_rows_witness :
  exists r g' s t,
    sales_row (script_rng (plain_sample_tape ++ sales_cells_tape)) 3
              (plain_sample_tape ++ sales_cells_tape) = Ok (r, g')
    /\ cell 6 r = VFloat s /\ cell 9 r = VFloat t
    /\ t = py_round 2 (s * (8 # 100)).
Proof.
  do 4 eexists.
  split; [vm_compute; reflexivity |].
  split; [reflexivity |]. split; [reflexivity |].
  eapply (sales_tax_on_normal_rows
            (script_rng (plain_sample_tape ++ sales_cells_tape)) 3
            (plain_sample_tape ++ sales_cells_tape) []);
    [vm_compute; reflexivity | reflexivity | reflexivity
    | vm_compute; discriminate].
Defined.

(** ** The helper functions *)

(** X3. For bounds in the span of dates the script uses (2015-01-01 to
    2025-02-28) with the start not after the end, [random_date] returns a
    date between the two bounds, both included. *)
Theorem random_date_within_bounds
        (R : RandomSource) (start_date end_date : date) :
  735599 <= ymd2ord start_date ->
  ymd2ord start_date <= ymd2ord end_date ->
  ymd2ord end_date <= 739310 ->
  post (random_date R start_date end_date)
       (fun d => ymd2ord start_date <= ymd2ord d <= ymd2ord end_date).
Proof.
  intros Hlo Hle Hhi.
  eapply post_weaken; [apply post_random_date; exact Hle |].
  intros d (k & Hk & ->). unfold days_between in Hk. unfold add_days.
  destruct (calendar_window (ymd2ord start_date + k)) as [E _]; [lia |].
  rewrite E. lia.
Qed.

Lemma random_date_within_bounds_witness :
  post (random_date (script_rng []) (mkdate 2018 1 1) (mkdate 2024 12 31))
       (fun d => ymd2ord (mkdate 2018 1 1) <= ymd2ord d
                 <= ymd2ord (mkdate 2024 12 31)).
Proof.
  apply random_date_within_bounds; vm_compute; discriminate.
Defined.

(** X4. With an end date before the start date the range of days is empty
    and [random_date] raises the [ValueError] of [random.randint]. *)
Theorem random_date_empty_range
        (R : RandomSource) (start_date end_date : date) (g : rs_state R) :
  ymd2ord end_date < ymd2ord start_date ->
  random_date R start_date end_date g = Raise ValueError.
Proof.
  intro H. unfold random_date, days_between, randint, randrange, bind.
  cbv zeta.
  destruct (0 <? ymd2ord end_date - ymd2ord start_date + 1 - 0) eqn:E;
    [apply Z.ltb_lt in E; lia | reflexivity].
Qed.

Lemma random_date_empty_range_witness :
  random_date (script_rng []) (mkdate 2024 12 31) (mkdate 2018 1 1) []
  = Raise ValueError.
Proof. apply random_date_empty_range. vm_compute. reflexivity. Defined.

(** X5. [add_missing_values] with a rate of 1 or more blanks every value,
    with a rate of 0 or less none: the draw lies in [0, 1). *)
Theorem add_missing_values_extreme_rates
        (R : RandomSource) (value : pyval) (missing_rate : Q) :
  ((1 <= missing_rate)%Q ->
   post (add_missing_values R value missing_rate) (fun c => c = VStr ""))
  /\ ((missing_rate <= 0)%Q ->
      post (add_missing_values R value missing_rate) (fun c => c = value)).
Proof.
  split; intro H; unfold add_missing_values.
  - post_bind_as u Hu by (apply post_random).
    apply post_ret. unfold Qltb.
    destruct (Qle_bool missing_rate u) eqn:E; [| reflexivity].
    apply Qle_bool_iff in E. lra.
  - post_bind_as u Hu by (apply post_random).
    apply post_ret. unfold Qltb.
    destruct (Qle_bool missing_rate u) eqn:E; [reflexivity |].
    assert (E' : Qle_bool missing_rate u = true) by (apply Qle_bool_iff; lra).
    congruence.
Qed.

Lemma add_missing_values_extreme_rates_witness :
  post (add_missing_values (script_rng []) (VInt 7) 1) (fun c => c = VStr "")
  /\ post (add_missing_values (script_rng []) (VInt 7) 0)
          (fun c => c = VInt 7).
Proof.
  split.
  - apply (proj1 (add_missing_values_extreme_rates (script_rng []) (VInt 7) 1)).
    lra.
  - apply (proj2 (add_missing_values_extreme_rates (script_rng []) (VInt 7) 0)).
    lra.
Defined.

(** ** The customer rows *)

Lemma signup_ordinal (k : Z) :
  0 <= k <= 2556 -> ymd2ord (add_days (mkdate 2018 1 1) k) = 736695 + k.
Proof.
  intro Hk. unfold add_days. change (ymd2ord (mkdate 2018 1 1)) with 736695.
  apply ordinal_roundtrip. lia.
Qed.

Section CustomerDomains.

Context {R : RandomSource}.

Lemma post_customer_sampled : post (customer_sample R) customer_sampled.
Proof.
  unfold customer_sample.
  post_bind_as signup Hsignup
    by (apply post_random_date; vm_compute; discriminate).
  change (days_between (mkdate 2018 1 1) (mkdate 2024 12 31)) with 2556
    in Hsignup.
  destruct Hsignup as (k & Hk & Hsignup).
  pose proof (signup_ordinal k Hk) as Hord. rewrite <- Hsignup in Hord.
  post_bind_as r Hr by (apply post_random).
  eapply post_bind with
    (P := fun lp =>
            lp = None
            \/ exists j, 0 <= j <= 739251 - ymd2ord signup
                         /\ lp = Some (add_days signup j)).
  { destruct (Qltb (1 # 10) r); [| apply post_ret; left; reflexivity].
    eapply post_bind with
      (P := fun d => exists j, 0 <= j <= 739251 - ymd2ord signup
                               /\ d = add_days signup j).
    - eapply post_weaken.
      + apply post_random_date.
        change (ymd2ord (mkdate 2024 12 31)) with 739251. lia.
      + intros d (j & Hj & Hd). exists j. split; [exact Hj | exact Hd].
    - intros d (j & Hj & Hd). apply post_ret. right. exists j.
      split; [exact Hj | rewrite Hd; reflexivity]. }
  intros lp Hlp.
  post_bind_as total_orders Hto by (apply post_randint; lia).
  post_bind_as u Hu by (apply post_uniform; lra).
  cbv zeta.
  assert (Havg : (20 <= py_round 2 u)%Q /\ (py_round 2 u <= 500)%Q).
  { destruct Hu as [Hu1 Hu2].
    split; [apply (py_round_ge 2 2000) | apply (py_round_le 2 50000)];
      first [reflexivity | assumption]. }
  post_bind_as r' Hr' by (apply post_random).
  eapply post_bind with
    (P := fun v =>
            v = lifetime_value_normal total_orders (py_round 2 u)
            \/ ((50000 <= v)%Q /\ (v <= 200000)%Q)).
  { destruct (Qltb r' (1 # 100)); [| apply post_ret; left; reflexivity].
    eapply post_weaken; [apply lifetime_value_outlier_range |].
    intros v Hv. right. exact Hv. }
  intros v Hv. apply post_ret. unfold customer_sampled.
  cbn [c_signup c_last_purchase c_total_orders c_avg_order c_lifetime_value].
  split; [exists k; split; assumption |].
  split; [exact Hlp |]. split; [exact Hto |]. split; [exact Havg | exact Hv].
Qed.

Lemma post_customer_columns (i : Z) (f : customer_fields) :
  post (customer_cells R i f) (Forall2 blank_or (customer_columns i f)).
Proof.
  unfold customer_cells. repeat post_cell.
  apply post_ret. unfold customer_columns, email_like, phone_like, city_like,
                    int_in, str_in, is_bool.
  repeat (constructor; [column |]). constructor.
Qed.

Lemma post_customer_row_facts (i : Z) :
  post (customer_row R i)
       (fun r => exists f,
            customer_sampled f /\ Forall2 blank_or (customer_columns i f) r).
Proof.
  unfold customer_row.
  post_bind_as f Hf by (apply post_customer_sampled).
  eapply post_weaken; [apply post_customer_columns |].
  intros r Hr. exists f. split; assumption.
Qed.

End CustomerDomains.

(** A customer row against the schema of its columns. *)
Lemma customer_row_in_schema (R : RandomSource) (i : Z) :
  post (customer_row R i) (Forall2 blank_or (customer_schema i)).
Proof.
  eapply post_weaken; [apply post_customer_row_facts |].
  intros r (f & Hf & Hr).
  apply (columns_weaken (customer_columns i f)); [| exact Hr].
  destruct Hf as ((k & Hk & Hsignup) & Hlp & Hto & [Ha1 Ha2] & Hltv).
  pose proof (signup_ordinal k Hk) as Hord. rewrite <- Hsignup in Hord.
  unfold customer_columns, customer_schema, exactly.
  schema_columns.
  - intros c ->. exists k. split; [exact Hk | rewrite Hsignup; reflexivity].
  - intros c ->. exists (c_lifetime_value f). split; [reflexivity |].
    destruct Hltv as [-> | [H1 H2]]; [| split; lra].
    destruct (lifetime_value_normal_range _ _ Hto Ha1 Ha2) as [H1 H2].
    split; lra.
  - intros c ->. exists (c_total_orders f). split; [reflexivity | exact Hto].
  - intros c ->. exists (c_avg_order f). repeat split; assumption.
  - intros c ->. destruct Hlp as [-> | (j & Hj & ->)]; [left; reflexivity |].
    right. exists (k + j). split; [lia |].
    unfold last_purchase_text. rewrite Hsignup at 1. unfold add_days at 1.
    rewrite <- Hsignup, Hord. unfold add_days.
    change (ymd2ord (mkdate 2018 1 1)) with 736695.
    rewrite Z.add_assoc. reflexivity.
Qed.

(** X6. On a customer row the signup date lies in 2018-2024, and a last
    purchase, when the row has one, lies between the signup date and
    2024-12-31. *)
Theorem last_purchase_after_signup (R : RandomSource) (i : Z) :
  post (customer_row R i)
       (fun r => exists signup,
            736695 <= ymd2ord signup <= 739251
            /\ blank_or (exactly (VStr (strftime_ymd signup))) (cell 9 r)
            /\ (cell 15 r = VStr ""
                \/ exists purchase,
                     cell 15 r = VStr (strftime_ymd purchase)
                     /\ ymd2ord signup <= ymd2ord purchase <= 739251)).
Proof.
  eapply post_weaken; [apply post_customer_row_facts |].
  intros r (f & Hf & Hr).
  destruct Hf as ((k & Hk & Hsignup) & Hlp & _).
  pose proof (signup_ordinal k Hk) as Hord. rewrite <- Hsignup in Hord.
  exists (c_signup f). split; [lia |].
  split; [exact (column_of _ r Hr 9%nat _ eq_refl) |].
  pose proof (column_of _ r Hr 15%nat _ eq_refl) as H15.
  destruct H15 as [H15 | H15]; [left; exact H15 |].
  unfold exactly in H15.
  destruct Hlp as [Hnone | (j & Hj & Hsome)].
  - left. rewrite H15, Hnone. reflexivity.
  - right. exists (add_days (c_signup f) j).
    split; [rewrite H15, Hsome; reflexivity |].
    unfold add_days. rewrite ordinal_roundtrip; lia.
Qed.

(** X7. On a customer row whose lifetime_value cell shows less than 50000,
    the value is [round(total_orders * average_order_value, 2)] of the cells
    of the same row. *)
Theorem lifetime_value_below_outliers
        (R : RandomSource) (i : Z) (g g' : rs_state R) (r : row)
        (value : Q) (orders : Z) (average : Q) :
  customer_row R i g = Ok (r, g') ->
  cell 12 r = VFloat value -> cell 13 r = VInt orders ->
  cell 14 r = VFloat average -> (value < 50000)%Q ->
  value = py_round 2 (inject_Z orders * average).
Proof.
  intros E H12 H13 H14 Hv.
  destruct (post_elim _ _ g g' r (post_customer_row_facts i) E)
    as (f & Hf & Hr).
  destruct Hf as (_ & _ & _ & _ & Hltv).
  pose proof (column_of _ r Hr 12%nat _ eq_refl) as K12.
  pose proof (column_of _ r Hr 13%nat _ eq_refl) as K13.
  pose proof (column_of _ r Hr 14%nat _ eq_refl) as K14.
  unfold exactly in K12, K13, K14.
  destruct K12 as [K12 | K12]; rewrite H12 in K12; [discriminate K12 |].
  destruct K13 as [K13 | K13]; rewrite H13 in K13; [discriminate K13 |].
  destruct K14 as [K14 | K14]; rewrite H14 in K14; [discriminate K14 |].
  injection K12 as ->. injection K13 as ->. injection K14 as ->.
  destruct Hltv as [H | [H _]]; [exact H | lra].
Qed.

Lemma lifetime_value_below_outliers_witness :
  exists r g' value average,
    customer_row (script_rng small_customer_tape) 3 small_customer_tape
    = Ok (r, g')
    /\ cell 12 r = VFloat value /\ cell 14 r = VFloat average
    /\ value = py_round 2 (inject_Z 3 * average).
Proof.
  do 4 eexists.
  split; [vm_compute; reflexivity |].
  split; [reflexivity |]. split; [reflexivity |].
  eapply (lifetime_value_below_outliers
            (script_rng small_customer_tape) 3 small_customer_tape []);
    [vm_compute; reflexivity | reflexivity | reflexivity | reflexivity
    | vm_compute; reflexivity].
Defined.

(** ** The product rows *)

Lemma dict_get_within {V} (d : list (string * list V)) (key : string)
      (default : list V) (v : V) :
  In v (dict_get d key default) -> In v (List.concat (map snd d) ++ default).
Proof.
  induction d as [| [k l] d IH]; simpl; intro H.
  - exact H.
  - destruct (String.eqb k key).
    + apply in_or_app. left. apply in_or_app. left. exact H.
    + rewrite <- app_assoc. apply in_or_app. right. apply IH. exact H.
Qed.

Lemma margin_range (selling cost : Q) :
  (0 < cost)%Q -> (cost < selling)%Q ->
  (0 <= py_round 2 ((selling - cost) / selling * 100))%Q
  /\ (py_round 2 ((selling - cost) / selling * 100) <= 100)%Q.
Proof.
  intros Hc Hs. unfold Qdiv.
  assert (Hi : (0 < / selling)%Q) by (apply Qinv_lt_0_compat; lra).
  assert (E : (selling * / selling == 1)%Q) by (apply Qmult_inv_r; lra).
  assert (H0 : (0 <= (selling - cost) * / selling)%Q)
    by (apply Qmult_le_0_compat; lra).
  assert (H1 : ((selling - cost) * / selling <= selling * / selling)%Q)
    by (apply Qmult_le_compat_r; lra).
  rewrite E in H1.
  remember ((selling - cost) * / selling)%Q as q eqn:Eq. clear Eq.
  split.
  - apply (py_round_ge 2 0); [reflexivity | lra].
  - apply (py_round_le 2 10000); [reflexivity | lra].
Qed.

Section ProductDomains.

Context {R : RandomSource}.

Lemma selling_normal_above_cost (cost : Q) :
  (5 <= cost)%Q -> (cost <= 500)%Q ->
  post (selling_normal R cost)
       (fun s => (cost < s)%Q /\ (6 <= s)%Q /\ (s <= 1500)%Q).
Proof.
  intros Hlo Hhi. unfold selling_normal.
  post_bind_as u Hu by (apply post_uniform; lra).
  apply post_ret. destruct Hu as [Hu1 Hu2].
  assert (H1 : (cost * (12 # 10) <= cost * u)%Q).
  { rewrite (Qmult_comm cost (12 # 10)), (Qmult_comm cost u).
    apply Qmult_le_compat_r; lra. }
  assert (H2 : (cost * u <= 500 * u)%Q) by (apply Qmult_le_compat_r; lra).
  destruct (py_round_2_near (cost * u)) as [_ Hnear].
  split; [| split].
  - remember (cost * u)%Q as x eqn:Ex. clear Ex.
    remember (py_round 2 x) as y eqn:Ey. clear Ey. lra.
  - apply (py_round_ge 2 600); [reflexivity |].
    remember (cost * u)%Q as x eqn:Ex. clear Ex. lra.
  - apply (py_round_le 2 150000); [reflexivity |].
    remember (cost * u)%Q as x eqn:Ex. clear Ex. lra.
Qed.

Lemma post_profit_margin_value (selling cost : Q) :
  (0 < selling)%Q ->
  post (profit_margin R selling cost)
       (fun m => m = py_round 2 ((selling - cost) / selling * 100)).
Proof.
  intro H. unfold profit_margin.
  post_bind_as q Hq by (apply post_py_div; lra).
  apply post_ret. rewrite Hq. reflexivity.
Qed.

Lemma post_product_sampled : post (product_sample R) product_sampled.
Proof.
  unfold product_sample.
  post_bind_as category Hcat by (apply post_choice; discriminate).
  cbv zeta.
  post_bind_as cost Hcost by (apply cost_price_range).
  destruct Hcost as [Hc1 Hc2].
  post_bind_as selling Hsell by (apply selling_normal_above_cost; assumption).
  destruct Hsell as (Hs1 & Hs6 & Hs2).
  post_bind_as margin Hm by (apply post_profit_margin_value; lra).
  post_bind_as r Hr by (apply post_random).
  eapply post_bind with
    (P := fun priced : Q * Q =>
            ((cost < fst priced)%Q
             /\ (6 <= fst priced)%Q /\ (fst priced <= 20000)%Q)
            /\ snd priced
               = py_round 2 ((fst priced - cost) / fst priced * 100)).
  { destruct (Qltb r (1 # 100)).
    - post_bind_as selling' Hsell' by (apply selling_outlier_range).
      destruct Hsell' as [Ho1 Ho2].
      post_bind_as margin' Hm' by (apply post_profit_margin_value; lra).
      apply post_ret. cbn [fst snd].
      split; [split; [| split]; lra | exact Hm'].
    - apply post_ret. cbn [fst snd].
      split; [split; [| split]; lra | exact Hm]. }
  intros priced [Hp Hpm].
  post_bind_as launch Hl by (apply post_random_date; vm_compute; discriminate).
  change (days_between (mkdate 2015 1 1) (mkdate 2024 12 31)) with 3652 in Hl.
  apply post_ret. unfold product_sampled.
  cbn [p_category p_subcategory_list p_cost p_selling p_margin p_launch].
  split; [exact Hcat |]. split; [reflexivity |].
  split; [split; assumption |]. split; [exact Hp |].
  split; [exact Hpm | exact Hl].
Qed.

Lemma post_product_columns (i : Z) (f : product_fields) :
  p_subcategory_list f <> [] ->
  post (product_cells R i f) (Forall2 blank_or (product_columns i f)).
Proof.
  intro Hne. unfold product_cells.
  do 3 post_cell.
  post_bind_as sub Hsub by (apply post_choice; exact Hne).
  repeat post_cell.
  apply post_ret.
  unfold product_columns, dimensions_like, rounded_in, int_among, int_in,
    str_in, is_bool.
  repeat (constructor; [column |]). constructor.
Qed.

Lemma post_product_row_facts (i : Z) :
  post (product_row R i)
       (fun r => exists f,
            product_sampled f /\ Forall2 blank_or (product_columns i f) r).
Proof.
  unfold product_row.
  post_bind_as f Hf by (apply post_product_sampled).
  eapply post_weaken.
  - apply post_product_columns.
    destruct Hf as (_ & -> & _). apply subcategory_list_nonempty.
  - intros r Hr. exists f. split; assumption.
Qed.

End ProductDomains.

Lemma launch_date_window (k : Z) :
  0 <= k <= 3652 ->
  ymd2ord (add_days (mkdate 2015 1 1) k) = 735599 + k.
Proof.
  intro Hk. unfold add_days. change (ymd2ord (mkdate 2015 1 1)) with 735599.
  apply calendar_window. lia.
Qed.

(** A product row against the schema of its columns. *)
Lemma product_row_in_schema (R : RandomSource) (i : Z) :
  post (product_row R i) (Forall2 blank_or (product_schema i)).
Proof.
  eapply post_weaken; [apply post_product_row_facts |].
  intros r (f & Hf & Hr).
  apply (columns_weaken (product_columns i f)); [| exact Hr].
  destruct Hf as (Hcat & Hsub & [Hc1 Hc2] & (Hs1 & Hs6 & Hs2) & Hm
                  & (k & Hk & Hl)).
  unfold product_columns, product_schema, exactly.
  schema_columns.
  - intros c ->. exists (p_category f). split; [reflexivity | exact Hcat].
  - intros c ->. exists (p_category f). split; [reflexivity | exact Hcat].
  - intros c (s & -> & Hs). exists s. split; [reflexivity |].
    rewrite Hsub in Hs. exact (dict_get_within _ _ _ _ Hs).
  - intros c ->. exists (p_cost f). repeat split; assumption.
  - intros c ->. exists (p_selling f). repeat split; assumption.
  - intros c ->. exists (p_margin f). split; [reflexivity |].
    rewrite Hm. apply margin_range; lra.
  - intros c (u & -> & Hu1 & Hu2). exists (py_round 2 u).
    split; [reflexivity |].
    split; [apply (py_round_ge 2 10) | apply (py_round_le 2 5000)];
      first [reflexivity | assumption].
  - intros c (u & -> & Hu1 & Hu2). exists (py_round 1 u).
    split; [reflexivity |].
    split; [apply (py_round_ge 1 10) | apply (py_round_le 1 50)];
      first [reflexivity | assumption].
  - intros c ->. exists k. split; [exact Hk | rewrite Hl; reflexivity].
Qed.



Lemma unlisted_category (category : string) :
  In category ["Sports"; "Toys"; "Beauty"; "Home"; "Garden"]%string ->
  dict_get subcategories category ["General"%string] = ["General"%string].
Proof.
  simpl. intros [<- | [<- | [<- | [<- | [<- | []]]]]]; reflexivity.
Qed.

(** X9. The name, category and subcategory cells of a product row belong
    together: the name is built from the row's category, and the subcategory
    is one of that category's list in the table, which for a category the
    table does not list (Sports, Toys, Beauty, Home, Garden) leaves only the
    default, General. *)
Theorem subcategory_fits_category (R : RandomSource) (i : Z) :
  post (product_row R i)
       (fun r => exists category,
            In category categories
            /\ blank_or
                 (exactly
                    (VStr ("Product_" ++ category ++ "_" ++ str_int i)%string))
                 (cell 1 r)
            /\ blank_or (exactly (VStr category)) (cell 2 r)
            /\ blank_or
                 (str_in (dict_get subcategories category ["General"%string]))
                 (cell 3 r)
            /\ (In category ["Sports"; "Toys"; "Beauty"; "Home"; "Garden"]%string ->
                blank_or (exactly (VStr "General")) (cell 3 r))).
Proof.
  eapply post_weaken; [apply post_product_row_facts |].
  intros r (f & Hf & Hr). destruct Hf as (Hcat & Hsub & _).
  exists (p_category f). split; [exact Hcat |].
  split; [exact (column_of _ r Hr 1%nat _ eq_refl) |].
  split; [exact (column_of _ r Hr 2%nat _ eq_refl) |].
  pose proof (column_of _ r Hr 3%nat _ eq_refl) as K3.
  cbn beta in K3. rewrite Hsub in K3.
  split; [exact K3 |].
  intro Hun. rewrite (unlisted_category _ Hun) in K3.
  destruct K3 as [K3 | (s & K3 & [<- | []])]; [left; exact K3 |].
  right. exact K3.
Qed.

Lemma subcategory_fits_category_witness :
  exists r g',
    product_row (script_rng sports_product_tape) 1000 sports_product_tape
    = Ok (r, g')
    /\ cell 2 r = VStr "Sports" /\ cell 3 r = VStr "General".
Proof.
  destruct (subcategory_fits_category (script_rng sports_product_tape) 1000
              sports_product_tape) as (r & g' & E & _).
  exists r, g'. split; [exact E |].
  assert (E' : product_row (script_rng sports_product_tape) 1000
                 sports_product_tape
               = Ok ([VInt 1000; VStr "Product_Sports_1000"; VStr "Sports";
                      VStr "General"; VStr "BrandB"; VStr "Supplier3";
                      VFloat (25250 # 100); VFloat (53025 # 100);
                      VFloat (5238 # 100); VInt 500; VInt 30; VStr "WH-West";
                      VFloat (2505 # 100); VStr "6x7x8"; VStr "White";
                      VStr "M"; VStr "Plastic"; VFloat (30 # 10); VInt 77;
                      VStr "2015-01-11"; VStr "Active"; VBool false; VInt 12],
                     [])) by (vm_compute; reflexivity).
  rewrite E' in E. injection E as <- <-. split; reflexivity.
Defined.

(** ** The campaign rows *)

Lemma Qltb_true (x y : Q) : (x < y)%Q -> Qltb x y = true.
Proof.
  intro H. unfold Qltb. destruct (Qle_bool y x) eqn:E; [| reflexivity].
  apply Qle_bool_iff in E. lra.
Qed.

Lemma py_int_comp (x y : Q) : (x == y)%Q -> py_int x = py_int y.
Proof.
  intro E. unfold py_int.
  rewrite (Qfloor_comp x y E), (Qceiling_comp x y E).
  assert (H : Qle_bool 0 x = Qle_bool 0 y)
    by (apply Qleb_comp; [reflexivity | exact E]).
  rewrite H. reflexivity.
Qed.

Lemma py_int_share (n m : Z) (k : positive) :
  0 <= m -> n <= py_int (inject_Z m * (1 # k)) -> Zpos k * n <= m.
Proof.
  intros Hm H. unfold py_int in H.
  assert (H0 : (0 <= inject_Z m * (1 # k))%Q).
  { apply Qmult_le_0_compat; unfold Qle; simpl; lia. }
  apply Qle_bool_iff in H0. rewrite H0 in H.
  pose proof (Qfloor_le (inject_Z m * (1 # k))) as Hf.
  rewrite Zle_Qle in H.
  assert (Hn : (inject_Z n <= inject_Z m * (1 # k))%Q)
    by (apply Qle_trans with (1 := H); exact Hf).
  clear - Hn. unfold Qle, Qmult, inject_Z in Hn. simpl in Hn. lia.
Qed.

Lemma percent_share (a b : Z) (c : positive) :
  0 <= a -> 0 < b -> Zpos c * a <= b ->
  (0 <= inject_Z a / inject_Z b * 100)%Q
  /\ (inject_Z a / inject_Z b * 100 <= 100 # c)%Q.
Proof.
  intros Ha Hb Hc.
  destruct b as [| p | p]; try lia.
  unfold Qle, Qdiv, Qmult, Qinv, inject_Z. simpl.
  split; nia.
Qed.

Section CampaignDomains.

Context {R : RandomSource}.

Lemma post_campaign_sampled : post (campaign_sample R) campaign_sampled.
Proof.
  unfold campaign_sample.
  post_bind_as start Hstart
    by (apply post_random_date; vm_compute; discriminate).
  change (days_between (mkdate 2020 1 1) (mkdate 2024 11 30)) with 1795
    in Hstart.
  post_bind_as duration Hdur by (apply post_randint; lia).
  cbv zeta.
  post_bind_as budget Hb by (apply budget_normal_range).
  destruct Hb as [Hb1 Hb2].
  post_bind_as u Hu by (apply post_uniform; lra).
  destruct Hu as [Hu1 Hu2].
  assert (Hspend0 : (500 <= py_round 2 (budget * u))%Q
                    /\ (py_round 2 (budget * u) <= 110000)%Q).
  { assert (H1 : (1000 * u <= budget * u)%Q)
      by (apply Qmult_le_compat_r; lra).
    assert (H2 : (budget * u <= 100000 * u)%Q)
      by (apply Qmult_le_compat_r; lra).
    remember (budget * u)%Q as x eqn:Ex. clear Ex.
    split; [apply (py_round_ge 2 50000) | apply (py_round_le 2 11000000)];
      first [reflexivity | lra]. }
  set (spend0 := py_round 2 (budget * u)) in *.
  post_bind_as impressions Himp by (apply post_randint; lia).
  assert (Hi100 : 100 <= py_int (inject_Z impressions * (1 # 10))).
  { apply py_int_lower; [lia |].
    assert ((1000 <= inject_Z impressions)%Q) by (unfold Qle; simpl; lia).
    lra. }
  post_bind_as clicks Hclicks by (apply post_randint; lia).
  assert (Hctenth : 10 * clicks <= impressions)
    by (apply (py_int_share clicks impressions 10); lia).
  assert (Hc2 : 2 <= py_int (inject_Z clicks * (2 # 10))).
  { apply py_int_lower; [lia |].
    assert ((10 <= inject_Z clicks)%Q) by (unfold Qle; simpl; lia).
    lra. }
  post_bind_as conversions Hconv by (apply post_randint; lia).
  assert (Hcfifth : 5 * conversions <= clicks).
  { apply (py_int_share conversions clicks 5); [lia |].
    assert (E : (inject_Z clicks * (2 # 10) == inject_Z clicks * (1 # 5))%Q)
      by (unfold Qeq; simpl; lia).
    rewrite <- (py_int_comp _ _ E). lia. }
  assert (Gi : (0 <? impressions) = true) by (apply Z.ltb_lt; lia).
  assert (Gc : (0 <? clicks) = true) by (apply Z.ltb_lt; lia).
  rewrite Gi, Gc.
  post_bind_as ctr Hctr
    by (apply post_percent_of; apply inject_Z_nonzero; lia).
  post_bind_as conv_rate Hcr
    by (apply post_percent_of; apply inject_Z_nonzero; lia).
  post_bind_as cpc Hcpc
    by (apply post_ratio_of; apply inject_Z_nonzero; lia).
  post_bind_as cpa Hcpa
    by (apply post_guarded; intro G; apply Z.ltb_lt in G;
        apply post_ratio_of; apply inject_Z_nonzero; exact G).
  post_bind_as u' Hu' by (apply post_uniform; lra).
  destruct Hu' as [Hv1 Hv2].
  assert (Hrev : (0 <= py_round 2 (inject_Z conversions * u'))%Q
                 /\ (py_round 2 (inject_Z conversions * u') <= 20000000)%Q).
  { assert (Q0 : (0 <= inject_Z conversions)%Q) by (unfold Qle; simpl; lia).
    assert (Q1 : (inject_Z conversions <= 20000)%Q)
      by (unfold Qle; simpl; lia).
    assert (H1 : (0 <= inject_Z conversions * u')%Q)
      by (apply Qmult_le_0_compat; lra).
    assert (H2 : (inject_Z conversions * u' <= 20000 * u')%Q)
      by (apply Qmult_le_compat_r; lra).
    remember (inject_Z conversions * u')%Q as x eqn:Ex. clear Ex.
    split; [apply (py_round_ge 2 0) | apply (py_round_le 2 2000000000)];
      first [reflexivity | lra]. }
  set (revenue0 := py_round 2 (inject_Z conversions * u')) in *.
  rewrite (Qltb_true 0 spend0) by lra.
  post_bind_as roi Hroi by (apply post_percent_of; lra).
  post_bind_as r Hr by (apply post_random).
  eapply post_bind with
    (P := fun money : Q * Q * Q * pyval =>
            let budget1 := fst (fst (fst money)) in
            let spend1 := snd (fst (fst money)) in
            let revenue1 := snd (fst money) in
            (spend1 = spend0 \/ (400000 <= spend1)%Q)
            /\ ((1000 <= budget1)%Q /\ (budget1 <= 2000000)%Q)
            /\ ((500 <= spend1)%Q /\ (spend1 <= 2000000)%Q)
            /\ ((0 <= revenue1)%Q /\ (revenue1 <= 20000000)%Q)
            /\ snd money
               = VFloat (py_round 2 ((revenue1 - spend1) / spend1 * 100))).
  { destruct (Qltb r (1 # 100)).
    - post_bind_as budget' Hb' by (apply budget_outlier_range).
      destruct Hb' as [Ho1 Ho2].
      post_bind_as v Hv by (apply post_uniform; lra).
      destruct Hv as [Hw1 Hw2].
      assert (Hs : (400000 <= py_round 2 (budget' * v))%Q
                   /\ (py_round 2 (budget' * v) <= 2000000)%Q).
      { assert (H1 : (500000 * v <= budget' * v)%Q)
          by (apply Qmult_le_compat_r; lra).
        assert (H2 : (budget' * v <= 2000000 * v)%Q)
          by (apply Qmult_le_compat_r; lra).
        remember (budget' * v)%Q as x eqn:Ex. clear Ex.
        split; [apply (py_round_ge 2 40000000)
               | apply (py_round_le 2 200000000)];
          first [reflexivity | lra]. }
      set (spend' := py_round 2 (budget' * v)) in *.
      post_bind_as w Hw by (apply post_uniform; lra).
      destruct Hw as [Hx1 Hx2].
      assert (Hrv : (0 <= py_round 2 (spend' * w))%Q
                    /\ (py_round 2 (spend' * w) <= 20000000)%Q).
      { assert (H1 : (0 <= spend' * w)%Q) by (apply Qmult_le_0_compat; lra).
        assert (H2 : (spend' * w <= 2000000 * w)%Q)
          by (apply Qmult_le_compat_r; lra).
        remember (spend' * w)%Q as x eqn:Ex. clear Ex.
        split; [apply (py_round_ge 2 0) | apply (py_round_le 2 2000000000)];
          first [reflexivity | lra]. }
      post_bind_as roi' Hroi' by (apply post_percent_of; lra).
      apply post_ret. cbn [fst snd].
      split; [right; lra |]. split; [split; lra |]. split; [split; lra |].
      split; [exact Hrv | exact Hroi'].
    - apply post_ret. cbn [fst snd].
      split; [left; reflexivity |]. split; [split; lra |].
      split; [split; lra |]. split; [exact Hrev | exact Hroi]. }
  intros [[[budget1 spend1] revenue1] roi1] Hmoney. cbn [fst snd] in Hmoney.
  destruct Hmoney as (Hm1 & Hm2 & Hm3 & Hm4 & Hm5).
  apply post_ret. unfold campaign_sampled.
  cbn [k_start k_end k_budget k_spend k_impressions k_clicks k_conversions
       k_ctr k_conv_rate k_cpc k_cpa k_revenue k_roi].
  split; [exact Hstart |].
  split; [exists duration; split; [exact Hdur | reflexivity] |].
  split; [exact Himp |]. split; [split; lia |]. split; [split; lia |].
  split; [exact Hctr |]. split; [exact Hcr |].
  split.
  { exists spend0. split; [exact Hspend0 |]. split; [exact Hm1 |].
    split; [exact Hcpc |].
    destruct (0 <? conversions); exact Hcpa. }
  split; [exact Hm2 |]. split; [exact Hm3 |]. split; [exact Hm4 | exact Hm5].
Qed.

Lemma post_campaign_columns (i : Z) (f : campaign_fields) :
  post (campaign_cells R i f) (Forall2 blank_or (campaign_columns i f)).
Proof.
  unfold campaign_cells. repeat post_cell.
  apply post_ret.
  unfold campaign_columns, campaign_name_like, variant_like, rounded_in,
    int_in, str_in, is_bool.
  repeat (constructor; [column |]). constructor.
Qed.

Lemma post_campaign_row_facts (i : Z) :
  post (campaign_row R i)
       (fun r => exists f,
            campaign_sampled f /\ Forall2 blank_or (campaign_columns i f) r).
Proof.
  unfold campaign_row.
  post_bind_as f Hf by (apply post_campaign_sampled).
  eapply post_weaken; [apply post_campaign_columns |].
  intros r Hr. exists f. split; assumption.
Qed.

End CampaignDomains.

Lemma campaign_start_ordinal (k : Z) :
  0 <= k <= 1795 -> ymd2ord (add_days (mkdate 2020 1 1) k) = 737425 + k.
Proof.
  intro Hk. unfold add_days. change (ymd2ord (mkdate 2020 1 1)) with 737425.
  apply calendar_window. lia.
Qed.

(** A campaign row against the schema of its columns. *)
Lemma campaign_row_in_schema (R : RandomSource) (i : Z) :
  post (campaign_row R i) (Forall2 blank_or (campaign_schema i)).
Proof.
  eapply post_weaken; [apply post_campaign_row_facts |].
  intros r (f & Hf & Hr).
  apply (columns_weaken (campaign_columns i f)); [| exact Hr].
  destruct Hf as ((k & Hk & Hstart) & (dur & Hdur & Hend) & Himp
                  & [Hc1 Hc2] & [Hv1 Hv2] & Hctr & Hcr
                  & (spend0 & _ & _ & Hcpc & Hcpa)
                  & [Hb1 Hb2] & [Hs1 Hs2] & [Hr1 Hr2] & Hroi).
  pose proof (campaign_start_ordinal k Hk) as Hord.
  rewrite <- Hstart in Hord.
  unfold campaign_columns, campaign_schema, exactly.
  schema_columns.
  - intros c ->. exists k. split; [exact Hk | rewrite Hstart; reflexivity].
  - intros c ->. exists (k + dur). split; [lia |].
    rewrite Hend. unfold add_days at 1. rewrite Hord. unfold add_days.
    change (ymd2ord (mkdate 2020 1 1)) with 737425.
    rewrite Z.add_assoc. reflexivity.
  - intros c ->. exists (k_budget f). repeat split; assumption.
  - intros c ->. exists (k_spend f). repeat split; assumption.
  - intros c ->. exists (k_impressions f). split; [reflexivity | exact Himp].
  - intros c ->. exists (k_clicks f). split; [reflexivity | lia].
  - intros c ->. exists (k_conversions f). split; [reflexivity | lia].
  - intros c ->. rewrite Hctr. eexists. split; [reflexivity |].
    destruct (percent_share (k_clicks f) (k_impressions f) 10) as [H1 H2];
      [lia | lia | lia |].
    split; [apply (py_round_ge 2 0) | apply (py_round_le 2 1000)];
      first [reflexivity | lra].
  - intros c ->. rewrite Hcr. eexists. split; [reflexivity |].
    destruct (percent_share (k_conversions f) (k_clicks f) 5) as [H1 H2];
      [lia | lia | lia |].
    split; [apply (py_round_ge 2 0) | apply (py_round_le 2 2000)];
      first [reflexivity | lra].
  - intros c ->. rewrite Hcpc. eexists. reflexivity.
  - intros c ->. rewrite Hcpa. destruct (0 <? k_conversions f).
    + right. eexists. reflexivity.
    + left. reflexivity.
  - intros c ->. exists (k_revenue f). repeat split; assumption.
  - intros c ->. rewrite Hroi. eexists. reflexivity.
  - intros c (u & -> & Hu1 & Hu2). exists (py_round 1 u).
    split; [reflexivity |].
    split; [apply (py_round_ge 1 0) | apply (py_round_le 1 1000)];
      first [reflexivity | assumption].
Qed.

(** X10. A campaign starts between 2020-01-01 and 2024-11-30 and ends 7 to
    90 days after it starts. *)
Theorem campaign_runs_7_to_90_days (R : RandomSource) (i : Z) :
  post (campaign_row R i)
       (fun r => exists start_date end_date,
            737425 <= ymd2ord start_date <= 739220
            /\ 7 <= ymd2ord end_date - ymd2ord start_date <= 90
            /\ blank_or (exactly (VStr (strftime_ymd start_date))) (cell 2 r)
            /\ blank_or (exactly (VStr (strftime_ymd end_date))) (cell 3 r)).
Proof.
  eapply post_weaken; [apply post_campaign_row_facts |].
  intros r (f & Hf & Hr).
  destruct Hf as ((k & Hk & Hstart) & (dur & Hdur & Hend) & _).
  pose proof (campaign_start_ordinal k Hk) as Hord.
  rewrite <- Hstart in Hord.
  exists (k_start f), (k_end f). split; [lia |].
  split.
  { rewrite Hend. unfold add_days.
    destruct (calendar_window (ymd2ord (k_start f) + dur)) as [E _]; [lia |].
    rewrite E. lia. }
  split; [exact (column_of _ r Hr 2%nat _ eq_refl) |].
  exact (column_of _ r Hr 3%nat _ eq_refl).
Qed.

Lemma shown_cell (v c x : pyval) :
  blank_or (exactly v) c -> c = x -> x <> VStr "" -> v = x.
Proof.
  intros [H | H] E Hx.
  - rewrite H in E. symmetry in E. contradiction.
  - unfold exactly in H. rewrite <- H. exact E.
Qed.



(** X12. The division guard of cost_per_conversion: on a campaign row that
    shows no conversions the cell is blank or the int [0]; on a row that shows
    some, it is blank or a float. *)
Theorem cost_per_conversion_guard
        (R : RandomSource) (i : Z) (g g' : rs_state R) (r : row)
        (conversions : Z) :
  campaign_row R i g = Ok (r, g') ->
  cell 13 r = VInt conversions ->
  (conversions = 0 -> blank_or (exactly (VInt 0)) (cell 17 r))
  /\ (0 < conversions -> blank_or is_float (cell 17 r)).
Proof.
  intros E H13.
  destruct (post_elim _ _ g g' r (post_campaign_row_facts i) E)
    as (f & Hf & Hr).
  destruct Hf as (_ & _ & _ & _ & _ & _ & _ & (spend0 & _ & _ & _ & Hcpa) & _).
  pose proof (shown_cell _ _ _ (column_of _ r Hr 13%nat _ eq_refl) H13
                ltac:(discriminate)) as E13.
  injection E13 as E13.
  pose proof (column_of _ r Hr 17%nat _ eq_refl) as K17.
  cbn beta in K17. rewrite Hcpa, E13 in K17.
  split; intro Hc.
  - rewrite Hc in K17. exact K17.
  - apply Z.ltb_lt in Hc. rewrite Hc in K17.
    destruct K17 as [K | K]; [left; exact K | right].
    unfold exactly in K. rewrite K. eexists. reflexivity.
Qed.

Lemma cost_per_conversion_guard_witness :
  exists r g',
    campaign_row (script_rng outlier_campaign_tape) 7 outlier_campaign_tape
    = Ok (r, g')
    /\ cell 13 r = VInt 0
    /\ blank_or (exactly (VInt 0)) (cell 17 r).
Proof.
  do 2 eexists.
  split; [vm_compute; reflexivity |]. split; [reflexivity |].
  refine (proj1 (cost_per_conversion_guard
                   (script_rng outlier_campaign_tape) 7
                   outlier_campaign_tape [] _ 0 _ _) eq_refl);
    [vm_compute; reflexivity | reflexivity].
Defined.





(** ** The four files against their schemas *)

Lemma post_rows_in_schema {R : RandomSource} (body : Z -> M R row)
      (schema : Z -> list (pyval -> Prop)) (header : row) (first last : Z) :
  (forall i, first <= i < last ->
             post (body i) (Forall2 blank_or (schema i))) ->
  post (bind (for_each body (py_range first last))
             (fun rows => ret (header :: rows)))
       (rows_in_schema schema header first last).
Proof.
  intro Hbody.
  eapply post_bind.
  - apply (post_for_each body (fun i r => Forall2 blank_or (schema i) r)).
    intros i Hi. apply Hbody. apply In_py_range. exact Hi.
  - intros rows Hrows. apply post_ret. exists rows.
    split; [reflexivity | exact Hrows].
Qed.

(** X15. Every data row of sales_data.csv has 22 cells, each blank or in
    the domain of its column: a transaction id of 1 to the row's number, a date
    of 2020-2024 with its season, year and month, ids, quantity, discount and
    ratings in their integer ranges, categorical cells in their
    vocabularies, a sales amount of 10 to 50000, a tax of 0.8 to 400, a
    shipping cost of 0 to 50 and a total of 7 to 50450. *)
Theorem sales_file_in_schema (R : RandomSource) :
  post (sales_file R) (rows_in_schema sales_schema sales_header 1 25001).
Proof.
  unfold sales_file. apply post_rows_in_schema.
  intros i Hi. apply sales_row_in_schema. lia.
Qed.

(** X16. Every data row of customer_data.csv has 21 cells, each blank or in
    the domain of its column: the row's own sequence number as id, names of the
    vocabularies, an e-mail address made of two such names in lower case, a
    phone number and a city of the fixed patterns, a signup date inside
    2018-2024, a lifetime value of 0 to 200000, 0 to 200 orders of 20 to 500
    on average, and a last purchase that is a date of 2018-2024 or empty. *)
Theorem customer_file_in_schema (R : RandomSource) :
  post (customer_file R)
       (rows_in_schema customer_schema customer_header 1 25001).
Proof.
  unfold customer_file. apply post_rows_in_schema.
  intros i _. apply customer_row_in_schema.
Qed.

(** X17. Every data row of product_data.csv has 23 cells, each blank or in
    the domain of its column: the row's own id, a name built from a category and
    that id, the vocabularies, a cost of 5 to 500, a selling price of 6 to
    20000, a margin of 0 to 100, a launch date inside 2015-2024, a warranty
    of 0, 6, 12, 24 or 36 months. *)
Theorem product_file_in_schema (R : RandomSource) :
  post (product_file R)
       (rows_in_schema product_schema product_header 1000 26000).
Proof.
  unfold product_file. apply post_rows_in_schema.
  intros i _. apply product_row_in_schema.
Qed.

(** X18. Every data row of marketing_campaigns.csv has 24 cells, each blank
    or in the domain of its column: the id [CMP] with the row's number on five
    digits, a name built from a campaign type and the number, a start date
    inside 2020-01-01 to 2024-11-30 and an end date up to 90 days later, the
    vocabularies, a budget of 1000 to 2000000, a spend of 500 to 2000000,
    1000 to 1000000 impressions, 10 to 100000 clicks, 0 to 20000
    conversions, a click-through rate of at most 10 and a conversion rate of
    at most 20 percent, a variant of A, B, Control or None. *)
Theorem campaign_file_in_schema (R : RandomSource) :
  post (campaign_file R)
       (rows_in_schema campaign_schema campaign_header 1 25001).
Proof.
  unfold campaign_file. apply post_rows_in_schema.
  intros i _. apply campaign_row_in_schema.
Qed.
